(** * PortfolioML: returns, binary targets, study periods and sequence windows

    A shallow embedding of [portfolioML/data/data_returns.py] and
    [portfolioML/model/split.py], and the properties of the data-preparation
    pipeline proved over it.

    - Python integers are [Z]; list positions are [nat].
    - A raised exception is a value of [result]; code that prints, exits,
      writes files or mutates a dataframe through a reference runs in the
      state monad [M] over a [world].
    - float64 arithmetic is kept abstract behind the [Float] interface. *)

From Stdlib Require Import ZArith QArith Qreduction Lia.
From stdpp Require Import base option list sorting gmap strings.

Set Default Proof Using "Type".
Local Open Scope nat_scope.

(** ** Exceptions and the error monad *)

Inductive exn : Set :=
  | ValueError
  | IndexError
  | KeyError
  | StatisticsError
  | ReferenceError
  | SystemExit.

Inductive result (A : Type) : Type :=
  | Ok (a : A)
  | Raise (e : exn).
Arguments Ok {A} a.
Arguments Raise {A} e.

Global Instance result_ret : MRet result := λ A, Ok.
Global Instance result_bind : MBind result := λ A B f r,
  match r with
  | Ok a => f a
  | Raise e => Raise e
  end.

(** [let! x := m in k] runs [m] and, unless it raised, [k] on its value. *)
Notation "'let!' x := m 'in' k" := (mbind (M:=result) (λ x, k) m)
  (at level 10, x pattern, m at level 100, k at level 200,
   format "'[v' 'let!'  x  :=  m  'in' '/' k ']'") : stdpp_scope.

Definition is_Ok {A} (r : result A) : bool :=
  match r with Ok _ => true | Raise _ => false end.

(** The value of a successful computation ([d] otherwise). *)
Definition result_get {A} (d : A) (r : result A) : A :=
  match r with Ok a => a | Raise _ => d end.

Lemma result_bind_Ok {A B} (f : A → result B) (r : result A) (b : B) :
  r ≫= f = Ok b → ∃ a, r = Ok a ∧ f a = Ok b.
Proof. destruct r as [a|e]; simpl; [eauto | discriminate]. Qed.

Lemma mapM_result_length {A B} (f : A → result B) (l : list A) (k : list B) :
  mapM f l = Ok k → length k = length l.
Proof.
  revert k; induction l as [|x l IH]; intros k; simpl.
  - by intros [= <-].
  - intros (b & _ & H)%result_bind_Ok.
    apply result_bind_Ok in H as (k' & Hk' & [= <-]).
    simpl. f_equal. by apply IH.
Qed.

Lemma mapM_result_lookup {A B} (f : A → result B) (l : list A) (k : list B)
    (i : nat) (x : A) :
  mapM f l = Ok k → l !! i = Some x → ∃ b, k !! i = Some b ∧ f x = Ok b.
Proof.
  revert k i; induction l as [|a l IH]; intros k i; simpl; [done|].
  intros (b & Hb & H)%result_bind_Ok.
  apply result_bind_Ok in H as (k' & Hk' & [= <-]).
  destruct i as [|i]; simpl.
  - intros [= <-]. eauto.
  - intros Hi. by apply IH.
Qed.

Lemma mapM_result_total {A B} (f : A → result B) (l : list A) :
  Forall (λ x, ∃ b, f x = Ok b) l → ∃ k, mapM f l = Ok k.
Proof.
  induction 1 as [|x l [b Hb] _ [k IH]]; simpl; [by eexists|].
  rewrite Hb; simpl. rewrite IH; simpl. by eexists.
Qed.

Lemma mapM_result_Forall2 {A B} (f : A → result B) (l : list A) (k : list B) :
  mapM f l = Ok k ↔ Forall2 (λ x b, f x = Ok b) l k.
Proof.
  split.
  - revert k; induction l as [|a l IH]; intros k; simpl.
    + intros [= <-]. constructor.
    + intros (b & Hb & H)%result_bind_Ok.
      apply result_bind_Ok in H as (k' & Hk' & [= <-]).
      constructor; [done|]. by apply IH.
  - induction 1 as [|x b l k Hx _ IH]; simpl; [done|].
    rewrite Hx; simpl. by rewrite IH.
Qed.

Lemma Forall_exists_Forall2 {A B} (R : A → B → Prop) (l : list A) :
  Forall (λ a, ∃ b, R a b) l → ∃ k, Forall2 R l k.
Proof.
  induction 1 as [|a l [b Hb] _ [k IH]]; [by exists []|].
  exists (b :: k). by constructor.
Qed.

(** ** Python sequences *)

Module Py.

(** A slice bound [i] of a sequence of length [n]: a negative bound counts
    from the end, and every bound is clamped to [0..n]. *)
Definition slice_bound (n : nat) (i : Z) : nat :=
  if (i <? 0)%Z then Z.to_nat (Z.max 0 (i + Z.of_nat n)) else Z.to_nat (Z.min i (Z.of_nat n)).

(** [l[lo:hi]], [l[lo:]] and [l[:hi]]. *)
Definition slice {A} (l : list A) (lo hi : Z) : list A :=
  let a := slice_bound (length l) lo in
  let b := slice_bound (length l) hi in
  take (b - a) (drop a l).

Definition slice_from {A} (l : list A) (lo : Z) : list A :=
  drop (slice_bound (length l) lo) l.

Definition slice_to {A} (l : list A) (hi : Z) : list A :=
  take (slice_bound (length l) hi) l.

(** [l[i]]: a negative [i] counts from the end; out of range raises. *)
Definition index {A} (l : list A) (i : Z) : result A :=
  let j := if (i <? 0)%Z then (i + Z.of_nat (length l))%Z else i in
  if (j <? 0)%Z then Raise IndexError
  else match l !! Z.to_nat j with
       | Some x => Ok x
       | None => Raise IndexError
       end.

(** [range(stop)], [range(start, stop)] and [range(start, stop, step)]. *)
Definition range (stop : Z) : list Z := seqZ 0 stop.

Definition range2 (start stop : Z) : list Z := seqZ start (stop - start).

Definition range3 (start stop step : Z) : result (list Z) :=
  if (step =? 0)%Z then Raise ValueError
  else if (0 <? step)%Z then
    Ok ((λ k : Z, start + k * step)%Z <$> seqZ 0 ((stop - start + step - 1) `div` step))
  else
    Ok ((λ k : Z, start + k * step)%Z <$> seqZ 0 ((start - stop - step - 1) `div` (- step))).

Lemma slice_bound_nonneg (n : nat) (i : Z) :
  (0 ≤ i)%Z → slice_bound n i = Z.to_nat i `min` n.
Proof. unfold slice_bound. intros Hi. case_eq (i <? 0)%Z; intros H; lia. Qed.

Lemma slice_bound_le (n : nat) (i : Z) : slice_bound n i ≤ n.
Proof. unfold slice_bound. case_eq (i <? 0)%Z; intros H; lia. Qed.

Lemma slice_inside {A} (l : list A) (lo hi : Z) :
  (0 ≤ lo ≤ hi)%Z → (hi ≤ Z.of_nat (length l))%Z →
  slice l lo hi = take (Z.to_nat (hi - lo)) (drop (Z.to_nat lo) l).
Proof.
  intros Hlo Hhi. unfold slice.
  rewrite !slice_bound_nonneg by lia. f_equal; [lia | f_equal; lia].
Qed.

Lemma slice_length {A} (l : list A) (lo hi : Z) :
  length (slice l lo hi) = slice_bound (length l) hi - slice_bound (length l) lo.
Proof.
  unfold slice. rewrite length_take, length_drop.
  pose proof (slice_bound_le (length l) hi). lia.
Qed.

Lemma slice_split {A} (l : list A) (k : Z) : slice_to l k ++ slice_from l k = l.
Proof. apply take_drop. Qed.

Lemma index_inside {A} (l : list A) (i : Z) :
  (0 ≤ i)%Z → index l i = from_option Ok (Raise IndexError) (l !! Z.to_nat i).
Proof.
  intros Hi. unfold index.
  replace (i <? 0)%Z with false by lia. replace (i <? 0)%Z with false by lia.
  by destruct (l !! Z.to_nat i).
Qed.

Lemma index_elem_of {A} (l : list A) (i : Z) (x : A) : index l i = Ok x → x ∈ l.
Proof.
  unfold index. case_match; [done|].
  destruct (l !! _) as [y|] eqn:E; [|done].
  intros [= <-]. by eapply list_elem_of_lookup_2.
Qed.

Lemma range_length (stop : Z) : length (range stop) = Z.to_nat stop.
Proof. apply length_seqZ. Qed.

Lemma range_lookup (stop : Z) (i : nat) :
  (Z.of_nat i < stop)%Z → range stop !! i = Some (Z.of_nat i).
Proof. intros Hi. unfold range. rewrite lookup_seqZ_lt by lia. f_equal; lia. Qed.

Lemma range3_up (stop step : Z) :
  (0 < step)%Z →
  range3 0 stop step =
    Ok ((λ k : Z, 0 + k * step)%Z <$> seqZ 0 ((stop - 0 + step - 1) `div` step)).
Proof.
  intros Hs. unfold range3.
  replace (step =? 0)%Z with false by lia. by replace (0 <? step)%Z with true by lia.
Qed.

(** How many multiples [k * step] of a positive [step] are at most [d]. *)
Lemma range3_count (d step : Z) (k : nat) :
  (0 < step)%Z →
  (Z.of_nat k < (d + 1 - 0 + step - 1) `div` step)%Z ↔ (Z.of_nat k * step ≤ d)%Z.
Proof.
  intros Hs. replace (d + 1 - 0 + step - 1)%Z with (d + 1 * step)%Z by lia.
  rewrite Z.div_add by lia.
  split; intros H.
  - assert (Z.of_nat k ≤ d `div` step)%Z as Hk by lia.
    pose proof (Z.mul_div_le d step Hs). nia.
  - assert (Z.of_nat k ≤ d `div` step)%Z; [|lia].
    apply Z.div_le_lower_bound; lia.
Qed.

End Py.

(** ** float64 cells

    The arithmetic and the comparisons of numpy's float64, as far as the
    pipeline uses them. [nan] is the missing value and [isna] recognises
    it, [isinf] recognises the two infinities; [fzero], [fone] and [ftwo]
    are the floats of the literals 0, 1 and 2. *)

Class Float (F : Type) : Type := {
  fadd : F → F → F;
  fsub : F → F → F;
  fdiv : F → F → F;
  fle : F → F → bool;
  flt : F → F → bool;
  fzero : F;
  fone : F;
  ftwo : F;
  nan : F;
  isna : F → bool;
  isinf : F → bool;
  fzero_ne_fone : fzero ≠ fone;
}.

(** ** pandas dataframes

    A dataframe is its row index (the row labels, [RangeIndex] by default)
    and its columns in order, each a label with its cells. In a dataframe
    every column has one cell per row ([aligned]); in a table of
    companies the labels are unique as well ([wf]). *)

Record DataFrame (F : Type) : Type := {
  index : list Z;
  data : list (string * list F);
}.
Arguments index {F} _.
Arguments data {F} _.

Section frame.
Context {F : Type}.
Implicit Types (df : DataFrame F) (col : string).

(** [len(df)], [df.columns], [df.shape], [df.values] (by column). *)
Definition len df : nat := length (index df).
Definition columns df : list string := (data df).*1.
Definition shape df : nat * nat := (len df, length (data df)).
Definition values df : list (list F) := (data df).*2.

Definition aligned df : Prop :=
  Forall (λ c, length c.2 = len df) (data df).

Definition wf df : Prop := aligned df ∧ NoDup (columns df).

(** [pd.DataFrame()] *)
Definition DataFrame_empty : DataFrame F := {| index := []; data := [] |}.

(** [assoc col cs] is the column labelled [col]. *)
Fixpoint assoc col (cs : list (string * list F)) : option (list F) :=
  match cs with
  | [] => None
  | (c, v) :: cs => if decide (c = col) then Some v else assoc col cs
  end.

(** [df[col]] *)
Definition getitem df col : result (list F) :=
  match assoc col (data df) with
  | Some v => Ok v
  | None => Raise KeyError
  end.

(** The cell of column [col] at row position [t]. *)
Definition cell df col (t : nat) : option F :=
  assoc col (data df) ≫= (.!! t).

(** [df[lo:hi]], [df[:hi]] and [df[lo:]]: rows by position. *)
Definition row_slice df (lo hi : Z) : DataFrame F :=
  {| index := Py.slice (index df) lo hi;
     data := prod_map id (λ v, Py.slice v lo hi) <$> data df |}.

Definition row_slice_to df (hi : Z) : DataFrame F :=
  {| index := Py.slice_to (index df) hi;
     data := prod_map id (λ v, Py.slice_to v hi) <$> data df |}.

Definition row_slice_from df (lo : Z) : DataFrame F :=
  {| index := Py.slice_from (index df) lo;
     data := prod_map id (λ v, Py.slice_from v lo) <$> data df |}.

(** The [n] rows of [df] from row position [start] on. *)
Definition window df (start n : nat) : DataFrame F :=
  {| index := take n (drop start (index df));
     data := prod_map id (λ v, take n (drop start v)) <$> data df |}.

(** [df] with the cells of its columns replaced by those of [arr]. *)
Definition with_values df (arr : list (list F)) : DataFrame F :=
  {| index := index df;
     data := zip_with (λ c v, (c.1, v)) (data df) arr |}.

(** An array given by columns has the shape [(rows, cols)]. *)
Definition has_shape (arr : list (list F)) (rows cols : nat) : Prop :=
  length arr = cols ∧ Forall (λ v, length v = rows) arr.

Global Instance has_shape_dec arr rows cols : Decision (has_shape arr rows cols).
Proof. unfold has_shape. apply _. Defined.

(** [df[:hi] = arr] and [df[lo:] = arr]: the rows of the slice are
    overwritten in place by the rows of the array, which has the shape
    of the slice; an array of another shape raises (numpy's stretching
    of a one-row array is not modelled). *)
Definition set_rows_to df (hi : Z) (arr : list (list F)) : result (DataFrame F) :=
  let b := Py.slice_bound (len df) hi in
  if decide (has_shape arr b (length (data df))) then
    Ok {| index := index df;
          data := zip_with (λ c v, (c.1, v ++ drop b c.2)) (data df) arr |}
  else Raise ValueError.

Definition set_rows_from df (lo : Z) (arr : list (list F)) : result (DataFrame F) :=
  let a := Py.slice_bound (len df) lo in
  if decide (has_shape arr (len df - a) (length (data df))) then
    Ok {| index := index df;
          data := zip_with (λ c v, (c.1, take a c.2 ++ v)) (data df) arr |}
  else Raise ValueError.

(** [df.iloc[t]] as the list of the row's cells. *)
Definition iloc df (t : nat) : result (list F) :=
  if decide (t < len df) then
    mapM (λ v : list F, from_option Ok (Raise IndexError) (v !! t)) (values df)
  else Raise IndexError.

(** [df.iloc[t] = row]: the cells of row [t] are overwritten in place,
    column by column. *)
Definition set_iloc df (t : nat) (row : list F) : DataFrame F :=
  {| index := index df;
     data := zip_with (λ c x, (c.1, <[t:=x]> c.2)) (data df) row |}.

(** The columns with the column [col] set to [arr]: replaced where it
    stands, or added at the end. *)
Fixpoint set_column col (arr : list F) (cs : list (string * list F))
    : list (string * list F) :=
  match cs with
  | [] => [(col, arr)]
  | (c, v) :: cs =>
      if decide (c = col) then (c, arr) :: cs else (c, v) :: set_column col arr cs
  end.

Lemma row_slice_window df (lo hi : Z) :
  aligned df → (0 ≤ lo ≤ hi)%Z → (hi ≤ Z.of_nat (len df))%Z →
  row_slice df lo hi = window df (Z.to_nat lo) (Z.to_nat (hi - lo)).
Proof.
  intros Hlen Hlo Hhi. unfold row_slice, window. f_equal.
  - by apply Py.slice_inside.
  - apply Forall_fmap_ext. eapply Forall_impl; [exact Hlen|].
    intros [c v] Hv; simpl in *. f_equal.
    apply Py.slice_inside; [done|]. by rewrite Hv.
Qed.

Lemma assoc_elem_of col (cs : list (string * list F)) (v : list F) :
  assoc col cs = Some v → (col, v) ∈ cs.
Proof.
  induction cs as [|[c u] cs IH]; simpl; [done|].
  case_decide as Hc.
  - intros [= ->]. subst. left.
  - intros H. right. by apply IH.
Qed.

Lemma assoc_NoDup col (cs : list (string * list F)) (v : list F) :
  NoDup cs.*1 → (col, v) ∈ cs → assoc col cs = Some v.
Proof.
  induction cs as [|[c u] cs IH]; simpl; [by intros _ ?%elem_of_nil|].
  intros [Hc Hnd]%NoDup_cons [Heq|Hin]%elem_of_cons.
  - injection Heq as <- <-. by rewrite decide_True.
  - rewrite decide_False; [by apply IH|].
    intros ->. apply Hc. apply list_elem_of_fmap. by exists (col, v).
Qed.

Lemma assoc_fmap col (g : list F → list F) (cs : list (string * list F)) :
  assoc col (prod_map id g <$> cs) = g <$> assoc col cs.
Proof.
  induction cs as [|[c u] cs IH]; simpl; [done|]. by case_decide.
Qed.

Lemma assoc_None col (cs : list (string * list F)) :
  col ∉ cs.*1 → assoc col cs = None.
Proof.
  induction cs as [|[c u] cs IH]; simpl; [done|].
  intros [Hne Hnin]%not_elem_of_cons. by rewrite decide_False, IH.
Qed.

Lemma assoc_is_Some col (cs : list (string * list F)) :
  col ∈ cs.*1 → is_Some (assoc col cs).
Proof.
  induction cs as [|[c u] cs IH]; simpl; [by intros ?%elem_of_nil|].
  intros [->|Hin]%elem_of_cons; case_decide; try done; by apply IH.
Qed.

Lemma set_column_fresh col (arr : list F) (cs : list (string * list F)) :
  col ∉ cs.*1 → set_column col arr cs = cs ++ [(col, arr)].
Proof.
  induction cs as [|[c u] cs IH]; simpl; [done|].
  intros [Hne Hnin]%not_elem_of_cons. by rewrite decide_False, IH.
Qed.

Lemma aligned_row_slice df (lo hi : Z) : aligned df → aligned (row_slice df lo hi).
Proof.
  intros Hlen. unfold aligned, len; simpl.
  apply Forall_fmap. eapply Forall_impl; [exact Hlen|].
  intros [c v] Hv; simpl in *. rewrite !Py.slice_length. by rewrite Hv.
Qed.

(** The columns of a dataframe and of an array of its shape, one by one. *)
Lemma shape_Forall2 df (arr : list (list F)) (rows : nat) :
  aligned df → has_shape arr rows (length (data df)) →
  Forall2 (λ c v, length c.2 = len df ∧ length v = rows) (data df) arr.
Proof.
  intros Hlen [Hcols Hrows].
  apply Forall2_same_length_lookup_2; [done|].
  intros i c v Hc Hv. split.
  - by apply (Forall_lookup_1 _ _ _ _ Hlen Hc).
  - by apply (Forall_lookup_1 _ _ _ _ Hrows Hv).
Qed.

Lemma set_rows_to_spec df (hi : Z) (arr : list (list F)) df' :
  aligned df → set_rows_to df hi arr = Ok df' →
  aligned df' ∧
  row_slice_to df' hi = with_values (row_slice_to df hi) arr ∧
  row_slice_from df' hi = row_slice_from df hi.
Proof.
  intros Hal. unfold set_rows_to. case_decide as Hsh; [|done]. intros [= <-].
  pose proof (shape_Forall2 _ _ _ Hal Hsh) as HF. clear Hsh Hal.
  pose proof (Py.slice_bound_le (len df) hi) as Hb.
  set (b := Py.slice_bound (len df) hi) in *.
  unfold aligned, row_slice_to, row_slice_from, with_values, len in *; simpl.
  split; [|split]; [|f_equal..].
  - induction HF as [|[c w] v D arr' [Hw Hv] _ IH]; simpl in *;
      [by constructor|]. constructor; [|done].
    simpl. rewrite length_app, length_drop. lia.
  - induction HF as [|[c w] v D arr' [Hw Hv] _ IH]; simpl in *;
      [done|]. f_equal; [|done]. unfold prod_map, Py.slice_to; simpl. f_equal.
    rewrite length_app, length_drop, Hw, Hv.
    replace (b + (length (index df) - b)) with (length (index df)) by lia.
    fold b. by rewrite take_app_length'.
  - induction HF as [|[c w] v D arr' [Hw Hv] _ IH]; simpl in *;
      [done|]. f_equal; [|done]. unfold prod_map, Py.slice_from; simpl. f_equal.
    rewrite length_app, length_drop, Hw, Hv.
    replace (b + (length (index df) - b)) with (length (index df)) by lia.
    fold b. by rewrite drop_app_length'.
Qed.

Lemma set_rows_from_spec df (lo : Z) (arr : list (list F)) df' :
  aligned df → set_rows_from df lo arr = Ok df' →
  row_slice_from df' lo = with_values (row_slice_from df lo) arr.
Proof.
  intros Hal. unfold set_rows_from. case_decide as Hsh; [|done]. intros [= <-].
  pose proof (shape_Forall2 _ _ _ Hal Hsh) as HF. clear Hsh Hal.
  pose proof (Py.slice_bound_le (len df) lo) as Ha.
  set (a := Py.slice_bound (len df) lo) in *.
  unfold row_slice_from, with_values, len in *; simpl. f_equal.
  induction HF as [|[c w] v D arr' [Hw Hv] _ IH]; simpl in *; [done|].
  f_equal; [|done]. unfold prod_map, Py.slice_from; simpl. f_equal.
  rewrite length_app, length_take, Hw, Hv.
  replace (a `min` length (index df) + (length (index df) - a))
    with (length (index df)) by lia.
  fold a. rewrite drop_app_length'; [done|]. rewrite length_take. lia.
Qed.

Lemma window_len df (start n : nat) :
  start + n ≤ len df → len (window df start n) = n.
Proof. unfold len; simpl. rewrite length_take, length_drop. lia. Qed.
End frame.

(** ** The world of a run

    Dataframes live in a heap and are handed around by reference, so that
    a write through one name is seen through every other; [stdout] is
    what was printed and [files] are the csv files written. *)

Definition loc := nat.

Record world (F : Type) : Type := {
  heap : gmap loc (DataFrame F);
  stdout : list string;
  files : gmap string (DataFrame F);
}.
Arguments heap {F} _.
Arguments stdout {F} _.
Arguments files {F} _.

Definition M (F A : Type) : Type := world F → result A * world F.

Global Instance M_ret {F} : MRet (M F) := λ A a w, (Ok a, w).
Global Instance M_bind {F} : MBind (M F) := λ A B f c w,
  match c w with
  | (Ok a, w') => f a w'
  | (Raise e, w') => (Raise e, w')
  end.

Notation "'let*' x := m 'in' k" := (mbind (M:=M _) (λ x, k) m)
  (at level 10, x pattern, m at level 100, k at level 200,
   format "'[v' 'let*'  x  :=  m  'in' '/' k ']'") : stdpp_scope.

Section world.
Context {F : Type}.

(** A computation that only returns or raises. *)
Definition lift {A} (r : result A) : M F A := λ w, (r, w).

Definition raise {A} (e : exn) : M F A := lift (Raise e).

(** [try: body except ValueError: handler] *)
Definition try_except_ValueError {A} (body handler : M F A) : M F A := λ w,
  match body w with
  | (Raise ValueError, w') => handler w'
  | out => out
  end.

(** [print(line)] and [sys.exit()] *)
Definition print (line : string) : M F () := λ w,
  (Ok (), {| heap := heap w; stdout := stdout w ++ [line]; files := files w |}).

Definition sys_exit {A} : M F A := raise SystemExit.

(** [df.to_csv(name, index=False)] *)
Definition to_csv (df : DataFrame F) (name : string) : M F () := λ w,
  (Ok (), {| heap := heap w; stdout := stdout w; files := <[name:=df]> (files w) |}).

(** The dataframe behind a reference, and a write to it. *)
Definition deref (r : loc) : M F (DataFrame F) := λ w,
  match heap w !! r with
  | Some df => (Ok df, w)
  | None => (Raise ReferenceError, w)
  end.

Definition assign (r : loc) (df : DataFrame F) : M F () := λ w,
  (Ok (), {| heap := <[r:=df]> (heap w); stdout := stdout w; files := files w |}).

(** [for x in xs: body(x)] *)
Fixpoint for_each {A} (xs : list A) (body : A → M F ()) : M F () :=
  match xs with
  | [] => mret ()
  | x :: xs => let* _ := body x in for_each xs body
  end.
Lemma M_bind_run {A B} (c : M F A) (k : A → M F B) (w : world F) :
  (c ≫= k) w =
    match c w with
    | (Ok a, w') => k a w'
    | (Raise e, w') => (Raise e, w')
    end.
Proof. done. Qed.
End world.

(** [for x in xs: acc = body(acc, x)] for a body that only returns or
    raises. *)
Fixpoint fold_result {A B} (body : B → A → result B) (acc : B) (xs : list A)
    : result B :=
  match xs with
  | [] => Ok acc
  | x :: xs => let! acc := body acc x in fold_result body acc xs
  end.

(** ** data_returns.py *)

Module DataReturns.
Section data_returns.
Context {F : Type} {float : Float F}.

(** [a / b] of two one-axis arrays: cell by cell for equal lengths, an
    array of one cell is stretched to the other, everything else does
    not broadcast. *)
Definition np_divide (a b : list F) : result (list F) :=
  if decide (length a = length b) then Ok (zip_with fdiv a b)
  else match a, b with
       | [x], _ => Ok (fdiv x <$> b)
       | _, [y] => Ok ((λ x, fdiv x y) <$> a)
       | _, _ => Raise ValueError
       end.

(** [df[col] = arr] for an array. A dataframe with an empty index takes
    the index of a non-empty array (its columns are then filled with
    [nan]); the array must have one cell per row. *)
Definition setitem (df : DataFrame F) (col : string) (arr : list F)
    : result (DataFrame F) :=
  let df :=
    if bool_decide (len df = 0) && negb (bool_decide (length arr = 0)) then
      {| index := seqZ 0 (Z.of_nat (length arr));
         data := prod_map id (λ _, replicate (length arr) nan) <$> data df |}
    else df in
  if decide (length arr = len df) then
    Ok {| index := index df; data := set_column col arr (data df) |}
  else Raise ValueError.

(** [df.dropna(axis=1)] *)
Definition dropna_columns (df : DataFrame F) : DataFrame F :=
  {| index := index df;
     data := filter (λ c, forallb (λ x, negb (isna x)) c.2 = true) (data df) |}.

Definition invalid_m : string :=
  "Ops! Invalid input, you can't go backward in time: m must be positive.".

(** [get_returns(dataframe, export_returns_csv, m, no_missing)]. The
    handler prints the message of the [ValueError] of the guard, which
    is [invalid_m]. *)
Definition get_returns (dataframe : DataFrame F) (export_returns_csv : bool)
    (m : Z) (no_missing : bool) : M F (DataFrame F) :=
  let* _ :=
    try_except_ValueError
      (if (m <? 0)%Z then raise ValueError else mret ())
      (let* _ := print invalid_m in sys_exit) in
  let* df :=
    lift (fold_result
            (λ df col,
               let! today := getitem dataframe col in
               let tomorrow := Py.slice_from today m in
               let! ratio := np_divide tomorrow (Py.slice_to today (- m)) in
               setitem df col ((λ x, fsub x fone) <$> ratio))
            DataFrame_empty
            (drop 1 (columns dataframe))) in
  let df := if no_missing then dropna_columns df else df in
  let* _ := if export_returns_csv then to_csv df "ReturnsData.csv" else mret () in
  mret df.

(** [sorted(data)] on data that [<] orders, that is without [nan]: the
    stable ascending sort, which compares with [<] only. This is
    Python's result on such data, and on any data of at most two cells
    (two cells are swapped exactly when the second is [<] the first).
    With a [nan] among three or more cells Python's result depends on
    the runs its sort finds, which is not modelled: what is proved
    below of the order of a sorted row is proved for rows without
    [nan] ([all_numbers]). *)
Fixpoint insert_sorted (x : F) (l : list F) : list F :=
  match l with
  | [] => [x]
  | y :: l => if flt x y then x :: y :: l else y :: insert_sorted x l
  end.

Definition sorted (data : list F) : list F :=
  foldl (λ acc x, insert_sorted x acc) [] data.

(** [statistics.median(data)] *)
Definition median (data : list F) : result F :=
  let data := sorted data in
  let n := length data in
  if decide (n = 0) then Raise StatisticsError
  else if decide (n `mod` 2 = 1) then Py.index data (Z.of_nat (n `div` 2))
  else
    let i := n `div` 2 in
    let! lo := Py.index data (Z.of_nat i - 1) in
    let! hi := Py.index data (Z.of_nat i) in
    Ok (fdiv (fadd lo hi) ftwo).

(** [lambda x: 0 if x <= compare_value else 1], the labels written
    into the float cells. *)
Definition label (compare_value x : F) : F :=
  if fle x compare_value then fzero else fone.

(** [binary_targets(dataframe, export_binary_csv, name)]: [df] is
    another name of the dataframe [dataframe] refers to. *)
Definition binary_targets (dataframe : loc) (export_binary_csv : bool)
    (name : string) : M F loc :=
  let df := dataframe in
  let* rows := (let* d := deref dataframe in mret (shape d).1) in
  let* _ :=
    for_each (seq 0 rows) (λ time_idx,
      let* d := deref dataframe in
      let* compare_list := lift (iloc d time_idx) in
      let* compare_value := lift (median compare_list) in
      let* d := deref dataframe in
      let* row := lift (iloc d time_idx) in
      let* target := deref df in
      assign df (set_iloc target time_idx (label compare_value <$> row))) in
  let* _ :=
    if export_binary_csv then
      let* d := deref df in to_csv d (name +:+ ".csv")
    else mret () in
  mret df.

(** Python's floats other than [nan]: [<] orders them, [<=] is "not
    [>]" on them, and the mean of two of them that are finite is not
    [nan]. *)
Record float_order : Prop := {
  flt_asym (x y : F) :
    isna x = false → isna y = false → flt x y = true → flt y x = false;
  flt_neg_trans (x y z : F) :
    isna x = false → isna y = false → isna z = false →
    flt x y = false → flt y z = false → flt x z = false;
  fle_flt (x y : F) :
    isna x = false → isna y = false → fle x y = negb (flt y x);
  mean_number (lo hi : F) :
    isna lo = false → isinf lo = false → isna hi = false → isinf hi = false →
    isna (fdiv (fadd lo hi) ftwo) = false;
}.

(** No cell of the table is [nan]. *)
Definition all_numbers (R : DataFrame F) : Prop :=
  Forall (λ c, Forall (λ x, isna x = false) c.2) (data R).

(** Modelled from the spec: the median of a row across all companies.
    [med] is the middle value of the row put in ascending order, or
    the mean of the two middle values when the row has an even number
    of cells. *)
Definition spec_median (row : list F) (med : F) : Prop :=
  ∃ s,
    s ≡ₚ row ∧ StronglySorted (λ a b, fle a b = true) s ∧
    ((length s `mod` 2 = 1 ∧ s !! (length s `div` 2) = Some med) ∨
     (length s ≠ 0 ∧ length s `mod` 2 = 0 ∧
      ∃ lo hi,
        s !! (length s `div` 2 - 1) = Some lo ∧
        s !! (length s `div` 2) = Some hi ∧
        med = fdiv (fadd lo hi) ftwo)).

(** *** get_returns *)

(** One pass of the loop of [get_returns] over a column label. *)
Definition returns_step (dataframe : DataFrame F) (m : Z)
    (df : DataFrame F) (col : string) : result (DataFrame F) :=
  let! today := getitem dataframe col in
  let tomorrow := Py.slice_from today m in
  let! ratio := np_divide tomorrow (Py.slice_to today (- m)) in
  setitem df col ((λ x, fsub x fone) <$> ratio).

(** With a period that passes the guard, [get_returns] is its loop,
    the filter and the export. *)
Lemma get_returns_unfold (dataframe : DataFrame F) (export_returns_csv : bool)
    (m : Z) (no_missing : bool) (w : world F) :
  (0 ≤ m)%Z →
  get_returns dataframe export_returns_csv m no_missing w =
    match fold_result (returns_step dataframe m) DataFrame_empty
            (drop 1 (columns dataframe)) with
    | Ok df =>
        let df := if no_missing then dropna_columns df else df in
        (Ok df,
         if export_returns_csv then
           {| heap := heap w; stdout := stdout w;
              files := <["ReturnsData.csv":=df]> (files w) |}
         else w)
    | Raise e => (Raise e, w)
    end.
Proof.
  intros Hm. unfold get_returns, try_except_ValueError, mbind, M_bind, lift.
  replace (m <? 0)%Z with false by lia. simpl.
  fold (returns_step dataframe m).
  destruct (fold_result _ _ _) as [df|e]; [|done].
  by destruct export_returns_csv.
Qed.

Lemma fold_result_ext {A B} (f g : B → A → result B) (acc : B) (xs : list A) :
  (∀ b x, x ∈ xs → f b x = g b x) → fold_result f acc xs = fold_result g acc xs.
Proof.
  revert acc; induction xs as [|x xs IH]; intros acc Hfg; simpl; [done|].
  rewrite Hfg by left. destruct (g acc x) as [b|e]; simpl; [|done].
  apply IH. intros b' y Hy. apply Hfg. by right.
Qed.

Lemma setitem_columns (df df' : DataFrame F) (col : string) (arr : list F) :
  setitem df col arr = Ok df' → col ∉ columns df →
  columns df' = columns df ++ [col].
Proof.
  unfold setitem. case_decide as Hlen; [|done]. intros [= <-] Hcol.
  unfold columns in *; simpl.
  destruct (_ && _); simpl in *.
  - rewrite set_column_fresh.
    + rewrite fmap_app, <- list_fmap_compose. simpl. f_equal.
    + rewrite <- list_fmap_compose.
      by rewrite (list_fmap_ext _ fst (data df)) by (by intros _ [] _).
  - rewrite set_column_fresh by done. by rewrite fmap_app.
Qed.

(** The loop adds the labels it runs over, in order. *)
Lemma returns_loop_columns (dataframe : DataFrame F) (m : Z)
    (acc df : DataFrame F) (cols : list string) :
  NoDup (columns acc ++ cols) →
  fold_result (returns_step dataframe m) acc cols = Ok df →
  columns df = columns acc ++ cols.
Proof.
  revert acc; induction cols as [|col cols IH]; intros acc Hnd; simpl.
  - intros [= <-]. by rewrite app_nil_r.
  - intros (acc' & Hstep & Hrest)%result_bind_Ok.
    unfold returns_step in Hstep.
    apply result_bind_Ok in Hstep as (today & _ & Hstep).
    apply result_bind_Ok in Hstep as (ratio & _ & Hstep).
    apply setitem_columns in Hstep.
    + rewrite (IH acc'); [|by rewrite Hstep, <- app_assoc|done].
      by rewrite Hstep, <- app_assoc.
    + apply NoDup_app in Hnd as (_ & Hnd & _). intros Hin.
      apply (Hnd _ Hin). left.
Qed.

Lemma get_returns_negative (dataframe : DataFrame F) (export_returns_csv : bool)
    (m : Z) (no_missing : bool) (w : world F) :
  (m < 0)%Z →
  get_returns dataframe export_returns_csv m no_missing w =
    (Raise SystemExit,
     {| heap := heap w; stdout := stdout w ++ [invalid_m]; files := files w |}).
Proof.
  intros Hm. unfold get_returns, try_except_ValueError, mbind, M_bind.
  by replace (m <? 0)%Z with true by lia.
Qed.

Lemma dropna_columns_sublist (df : DataFrame F) :
  columns (dropna_columns df) `sublist_of` columns df.
Proof. unfold columns; simpl. apply fmap_sublist, sublist_filter. Qed.

(** C10. [get_returns] leaves the first column of its input out,
    whatever that column is: with the labels unique, the call gives
    the same outcome whatever the cells of the first column are, and
    the labels of a table it returns are among those of the columns
    after the first, the first label not being one of them. *)
Theorem get_returns_first_column (idx : list Z) (c : string) (v0 : list F)
    (rest : list (string * list F)) (export_returns_csv : bool) (m : Z)
    (no_missing : bool) (w : world F) :
  NoDup (c :: rest.*1) →
  (∀ v0' : list F,
     get_returns {| index := idx; data := (c, v0) :: rest |}
       export_returns_csv m no_missing w =
     get_returns {| index := idx; data := (c, v0') :: rest |}
       export_returns_csv m no_missing w) ∧
  (∀ df w',
     get_returns {| index := idx; data := (c, v0) :: rest |}
       export_returns_csv m no_missing w = (Ok df, w') →
     columns df `sublist_of` rest.*1 ∧ c ∉ columns df).
Proof.
  intros [Hc Hnd]%NoDup_cons. split.
  - intros v0'. unfold get_returns.
    set (P := {| index := idx; data := (c, v0) :: rest |}).
    set (P' := {| index := idx; data := (c, v0') :: rest |}).
    fold (returns_step P m). fold (returns_step P' m).
    replace (fold_result (returns_step P' m) DataFrame_empty (drop 1 (columns P')))
      with (fold_result (returns_step P m) DataFrame_empty (drop 1 (columns P)));
      [done|].
    apply fold_result_ext. intros acc col Hcol.
    unfold returns_step, getitem; simpl.
    rewrite !decide_False; [done|by intros ->..].
  - intros df w' Hrun.
    assert (columns df `sublist_of` rest.*1) as Hsub.
    { destruct (decide (m < 0)%Z) as [Hm|Hm].
      { by rewrite get_returns_negative in Hrun by done. }
      rewrite get_returns_unfold in Hrun by lia.
      destruct (fold_result _ _ _) as [df0|e] eqn:Hloop; [|done].
      apply returns_loop_columns in Hloop; [|done].
      change (columns df0 = rest.*1) in Hloop. injection Hrun as <- _.
      destruct no_missing; [|by rewrite Hloop].
      rewrite <- Hloop. apply dropna_columns_sublist. }
    split; [done|]. intros Hin. apply Hc.
    by eapply elem_of_sublist.
Qed.

(** The [m]-period returns of one column of prices. *)
Definition period_returns (m : nat) (prices : list F) : list F :=
  (λ x, fsub x fone) <$>
    zip_with fdiv (drop m prices) (take (length prices - m) prices).

Lemma period_returns_length (m : nat) (prices : list F) :
  length (period_returns m prices) = length prices - m.
Proof.
  unfold period_returns.
  rewrite length_fmap, length_zip_with, length_drop, length_take. lia.
Qed.

Lemma period_returns_lookup (m : nat) (prices : list F) (t : nat) (x0 x1 : F) :
  prices !! t = Some x0 → prices !! (t + m) = Some x1 →
  period_returns m prices !! t = Some (fsub (fdiv x1 x0) fone).
Proof.
  intros H0 H1. unfold period_returns.
  apply lookup_lt_Some in H1 as Hlt.
  rewrite list_lookup_fmap, lookup_zip_with, lookup_drop.
  rewrite lookup_take_lt by lia.
  replace (m + t) with (t + m) by lia. by rewrite H0, H1.
Qed.

Lemma returns_step_inside (dataframe df : DataFrame F) (m : Z)
    (col : string) (today : list F) :
  getitem dataframe col = Ok today → (0 < m)%Z →
  returns_step dataframe m df col =
    setitem df col (period_returns (Z.to_nat m) today).
Proof.
  intros Hget Hm. unfold returns_step. rewrite Hget. simpl.
  unfold Py.slice_from, Py.slice_to, Py.slice_bound.
  replace (m <? 0)%Z with false by lia. replace (- m <? 0)%Z with true by lia.
  set (n := length today).
  replace (Z.to_nat (m `min` Z.of_nat n)) with (Z.to_nat m `min` n) by lia.
  replace (Z.to_nat (0 `max` (- m + Z.of_nat n))) with (n - Z.to_nat m) by lia.
  unfold np_divide. rewrite decide_True.
  - simpl. unfold period_returns. fold n. do 2 f_equal.
    destruct (decide (Z.to_nat m ≤ n)) as [Hle|Hgt].
    + by rewrite Nat.min_l by done.
    + rewrite Nat.min_r by lia. rewrite !drop_ge by (fold n; lia). done.
  - rewrite length_drop, length_take. fold n. lia.
Qed.

Lemma setitem_first (col : string) (arr : list F) :
  0 < length arr →
  setitem DataFrame_empty col arr =
    Ok {| index := seqZ 0 (Z.of_nat (length arr)); data := [(col, arr)] |}.
Proof.
  intros Harr. unfold setitem, len. cbn [DataFrame_empty index data length].
  rewrite bool_decide_eq_true_2 by done.
  rewrite bool_decide_eq_false_2 by lia. cbn [negb andb index data fmap list_fmap].
  rewrite length_seqZ, decide_True by lia. done.
Qed.

Lemma setitem_next (df : DataFrame F) (col : string) (arr : list F) :
  col ∉ columns df → length arr = len df → 0 < len df →
  setitem df col arr =
    Ok {| index := index df; data := data df ++ [(col, arr)] |}.
Proof.
  intros Hcol Harr Hlen. unfold setitem.
  rewrite bool_decide_eq_false_2 by lia. cbn [andb].
  rewrite decide_True by done. by rewrite set_column_fresh.
Qed.

(** The loop over the columns [rest] of the prices, started with the
    returns [computed] so far, all of [k] rows. *)
Lemma returns_loop_from (dataframe : DataFrame F) (m : Z) (k : nat)
    (computed rest : list (string * list F)) :
  (0 < m)%Z → 0 < k →
  Forall (λ c, getitem dataframe c.1 = Ok c.2 ∧ length c.2 - Z.to_nat m = k) rest →
  NoDup (computed ++ rest).*1 →
  fold_result (returns_step dataframe m)
    {| index := match computed with [] => [] | _ => seqZ 0 (Z.of_nat k) end;
       data := computed |}
    rest.*1
  = Ok {| index := match computed ++ rest with
                   | [] => []
                   | _ => seqZ 0 (Z.of_nat k)
                   end;
          data := computed ++
                  (prod_map id (period_returns (Z.to_nat m)) <$> rest) |}.
Proof.
  intros Hm Hk Hrest. revert computed.
  induction Hrest as [|[col today] rest [Hget Hlen] _ IH]; intros computed Hnd.
  { simpl. by rewrite !app_nil_r. }
  simpl in Hget, Hlen. rewrite fmap_cons. simpl fold_result.
  rewrite (returns_step_inside _ _ _ _ _ Hget Hm).
  pose proof (period_returns_length (Z.to_nat m) today) as Hplen.
  rewrite Hlen in Hplen.
  assert (col ∉ computed.*1) as Hfresh.
  { rewrite fmap_app in Hnd. apply NoDup_app in Hnd as (_ & Hnd & _).
    intros Hin. apply (Hnd _ Hin). simpl. left. }
  assert (setitem
            {| index := match computed with [] => [] | _ => seqZ 0 (Z.of_nat k) end;
               data := computed |} col (period_returns (Z.to_nat m) today)
          = Ok {| index := seqZ 0 (Z.of_nat k);
                  data := computed ++ [(col, period_returns (Z.to_nat m) today)] |})
    as ->.
  { destruct computed as [|c0 computed0].
    - fold (@DataFrame_empty F). rewrite setitem_first by lia. by rewrite Hplen.
    - rewrite setitem_next; [done|done|..]; unfold len; simpl;
        rewrite length_seqZ; lia. }
  cbn [mbind result_bind].
  assert (∀ (l l' : list (string * list F)) x (a b : list Z),
    match l ++ x :: l' with [] => a | _ :: _ => b end = b) as Hmatch
    by (by intros []).
  specialize (IH (computed ++ [(col, period_returns (Z.to_nat m) today)])).
  rewrite <- !app_assoc in IH. cbn [app] in IH.
  rewrite !Hmatch in IH. rewrite Hmatch, IH; [done|].
  rewrite !fmap_app, !fmap_cons in *. done.
Qed.

(** C2, amended. For a price table with at least one column after the
    first and a period [0 < m < len(P)], [get_returns] returns a
    table with [len(P) - m] rows, whose columns are among those after
    the first, and the cell of each of its columns [c] at each row
    [t < len(P) - m] is [P[c][t + m] / P[c][t] - 1]. *)
Theorem get_returns_spec (P : DataFrame F) (export_returns_csv : bool)
    (m : Z) (no_missing : bool) (w : world F) :
  wf P → 2 ≤ length (data P) →
  (0 < m < Z.of_nat (len P))%Z →
  ∃ df w',
    get_returns P export_returns_csv m no_missing w = (Ok df, w') ∧
    wf df ∧
    len df = len P - Z.to_nat m ∧
    columns df `sublist_of` drop 1 (columns P) ∧
    ∀ c t, c ∈ columns df → t < len P - Z.to_nat m →
      ∃ x0 x1,
        cell P c t = Some x0 ∧
        cell P c (t + Z.to_nat m) = Some x1 ∧
        cell df c t = Some (fsub (fdiv x1 x0) fone).
Proof.
  intros [Hlen Hnd] Hcols Hm.
  destruct P as [idx [|c0 rest]]; [simpl in Hcols; lia|].
  unfold len, columns in *. cbn [index data length fmap list_fmap] in *.
  change (drop 1 (c0.1 :: rest.*1)) with rest.*1.
  change (list_fmap _ _ fst rest) with rest.*1 in Hnd.
  set (k := length idx - Z.to_nat m).
  apply Forall_cons in Hlen as [_ Hlen]. apply NoDup_cons in Hnd as [Hc0 Hnd].
  set (P := {| index := idx; data := c0 :: rest |}).
  assert (∀ c v, (c, v) ∈ rest → assoc c (data P) = Some v) as Hassoc.
  { intros c v Hin. apply assoc_NoDup; [by apply NoDup_cons|]. by right. }
  rewrite get_returns_unfold by lia.
  change (drop 1 (columns P)) with rest.*1.
  pose proof (returns_loop_from P m k [] rest) as Hloop.
  cbn [app] in Hloop. fold (@DataFrame_empty F) in Hloop.
  rewrite Hloop; [|lia|lia| |done]; clear Hloop.
  2:{ apply Forall_forall. intros [c v] Hin. simpl. split.
      - unfold getitem. by rewrite (Hassoc _ _ Hin).
      - unfold k. f_equal. by apply (proj1 (Forall_forall _ _) Hlen (c, v)). }
  set (df0 := {| index := match rest with [] => [] | _ :: _ => seqZ 0 (Z.of_nat k) end;
                 data := prod_map id (period_returns (Z.to_nat m)) <$> rest |}).
  set (df := if no_missing then dropna_columns df0 else df0).
  eexists df, _. split; [done|].
  assert (index df = seqZ 0 (Z.of_nat k)) as Hidx.
  { unfold df. destruct rest; [simpl in Hcols; lia|]. by destruct no_missing. }
  assert (data df `sublist_of` data df0) as Hsub.
  { unfold df. destruct no_missing; [apply sublist_filter|done]. }
  assert (columns df0 = rest.*1) as Hcols0.
  { unfold columns, df0; simpl. rewrite <- list_fmap_compose.
    apply list_fmap_ext. by intros _ [] _. }
  assert (columns df `sublist_of` rest.*1) as Hsubc.
  { rewrite <- Hcols0. by apply fmap_sublist. }
  assert (∀ c v', (c, v') ∈ data df →
            ∃ v, (c, v) ∈ rest ∧ v' = period_returns (Z.to_nat m) v) as Hdata.
  { intros c v' Hin. eapply elem_of_sublist in Hin; [|exact Hsub].
    apply list_elem_of_fmap in Hin as ([c' v] & Heq & Hin).
    injection Heq as -> ->. by exists v. }
  assert (∀ c v, (c, v) ∈ rest → length v = length idx) as Hlenv.
  { intros c v Hin. by apply (proj1 (Forall_forall _ _) Hlen (c, v)). }
  assert (NoDup (columns df)) as Hnddf by (by eapply sublist_NoDup).
  split; [split; [|done]|split; [|split; [done|]]].
  - apply Forall_forall. intros [c v'] Hin. simpl.
    destruct (Hdata _ _ Hin) as (v & Hv & ->).
    rewrite period_returns_length, (Hlenv _ _ Hv).
    unfold len. by rewrite Hidx, length_seqZ, Nat2Z.id.
  - unfold len. by rewrite Hidx, length_seqZ, Nat2Z.id.
  - intros c t Hc Ht.
    apply list_elem_of_fmap in Hc as ([c' v'] & -> & Hin). simpl.
    destruct (Hdata _ _ Hin) as (v & Hv & ->).
    pose proof (Hlenv _ _ Hv) as Hlv.
    destruct (lookup_lt_is_Some_2 v t) as [x0 Hx0]; [lia|].
    destruct (lookup_lt_is_Some_2 v (t + Z.to_nat m)) as [x1 Hx1]; [lia|].
    exists x0, x1. unfold cell.
    rewrite (Hassoc _ _ Hv). simpl.
    rewrite (assoc_NoDup _ _ _ Hnddf Hin). simpl.
    split; [done|]. split; [done|]. by apply period_returns_lookup.
Qed.

(** *** binary_targets *)

Lemma insert_sorted_length (x : F) (l : list F) :
  length (insert_sorted x l) = S (length l).
Proof.
  induction l as [|y l IH]; simpl; [done|].
  destruct (flt x y); simpl; by rewrite ?IH.
Qed.

Lemma sorted_length (data : list F) : length (sorted data) = length data.
Proof.
  unfold sorted. change (length data) with (length (@nil F) + length data).
  generalize (@nil F).
  induction data as [|x data IH]; intros acc; simpl; [lia|].
  rewrite IH, insert_sorted_length. lia.
Qed.

(** The median of a row with a cell exists. *)
Lemma median_total (data : list F) : data ≠ [] → ∃ med, median data = Ok med.
Proof.
  intros Hne. unfold median.
  pose proof (sorted_length data) as Hlen.
  assert (0 < length data) as Hpos by (destruct data; [done|simpl; lia]).
  set (s := sorted data) in *. set (n := length s) in *.
  rewrite decide_False by lia.
  assert (n `div` 2 < n) as Hhalf by (apply Nat.div_lt; lia).
  destruct (lookup_lt_is_Some_2 s (n `div` 2) Hhalf) as [hi Hhi].
  case_decide as Hodd.
  - rewrite Py.index_inside by lia. rewrite Nat2Z.id, Hhi. by eexists.
  - assert (0 < n `div` 2) as Hi.
    { destruct (decide (n `div` 2 = 0)) as [Hz|]; [|lia].
      apply Nat.div_small_iff in Hz; [|done].
      assert (n = 1) as Hn by lia. by rewrite Hn in Hodd. }
    destruct (lookup_lt_is_Some_2 s (n `div` 2 - 1)) as [lo Hlo]; [lia|].
    rewrite !Py.index_inside by lia.
    replace (Z.to_nat (Z.of_nat (n `div` 2) - 1)) with (n `div` 2 - 1) by lia.
    rewrite Nat2Z.id, Hlo, Hhi. simpl. by eexists.
Qed.

(** The row [t] of a dataframe holds the cell at [t] of each column. *)
Lemma iloc_aligned (df : DataFrame F) (t : nat) :
  aligned df → t < len df →
  ∃ row, iloc df t = Ok row ∧
         Forall2 (λ c x, c.2 !! t = Some x) (data df) row.
Proof.
  intros Hlen Ht. unfold iloc. rewrite decide_True by done.
  destruct (Forall_exists_Forall2
              (λ (c : string * list F) x, c.2 !! t = Some x) (data df))
    as [row Hrow].
  { eapply Forall_impl; [exact Hlen|]. intros [c v] Hv; simpl in *.
    apply lookup_lt_is_Some_2. lia. }
  exists row. split; [|done].
  apply mapM_result_Forall2. unfold values. apply Forall2_fmap_l.
  eapply Forall2_impl; [exact Hrow|]. intros [c v] x Hx; simpl in *.
  by rewrite Hx.
Qed.

(** The cells of a column of which the first [k] hold their labels
    for the medians [meds] of their rows. *)
Definition labelled (meds : list F) (k : nat) (v : list F) : list F :=
  zip_with label meds (take k v) ++ drop k v.

Definition labelled_frame (meds : list F) (k : nat) (R : DataFrame F)
    : DataFrame F :=
  {| index := index R; data := prod_map id (labelled meds k) <$> data R |}.

Lemma labelled_lookup_ge (meds : list F) (k t : nat) (v : list F) :
  length meds = k → k ≤ t → k ≤ length v → labelled meds k v !! t = v !! t.
Proof.
  intros Hm Hk Hv. unfold labelled.
  rewrite lookup_app_r; rewrite length_zip_with, length_take; [|lia].
  rewrite lookup_drop. f_equal. lia.
Qed.

Lemma labelled_step (meds : list F) (k : nat) (v : list F) (med x : F) :
  length meds = k → v !! k = Some x →
  <[k:=label med x]> (labelled meds k v) = labelled (meds ++ [med]) (S k) v.
Proof.
  intros Hm Hx. unfold labelled.
  apply lookup_lt_Some in Hx as Hlt.
  rewrite (take_S_r _ _ _ Hx), (drop_S _ _ _ Hx).
  rewrite zip_with_app by (rewrite length_take; lia). simpl.
  rewrite <- app_assoc. simpl.
  rewrite insert_app_r_alt; rewrite length_zip_with, length_take; [|lia].
  by replace (k - length meds `min` (k `min` length v)) with 0 by lia.
Qed.

Lemma labelled_frame_iloc (meds : list F) (k t : nat) (R : DataFrame F) :
  aligned R → length meds = k → k ≤ t → t < len R →
  iloc (labelled_frame meds k R) t = iloc R t.
Proof.
  intros Hwf Hm Hk Ht.
  destruct (iloc_aligned R t Hwf Ht) as (row & -> & Hrow).
  unfold iloc. rewrite decide_True by done.
  apply mapM_result_Forall2. unfold values, labelled_frame; simpl.
  rewrite <- list_fmap_compose. apply Forall2_fmap_l.
  pose proof Hwf as Hlen.
  apply Forall2_same_length_lookup_2; [by eapply Forall2_length|].
  intros i [c v] x Hc Hx. simpl.
  rewrite labelled_lookup_ge; [|done|done|].
  - pose proof (Forall2_lookup_lr _ _ _ _ _ _ Hrow Hc Hx) as Hcx.
    simpl in Hcx. by rewrite Hcx.
  - pose proof (Forall_lookup_1 _ _ _ _ Hlen Hc) as Hv. simpl in Hv. lia.
Qed.

Lemma labelled_frame_step (meds : list F) (k : nat) (R : DataFrame F)
    (row : list F) (med : F) :
  length meds = k →
  Forall2 (λ c x, c.2 !! k = Some x) (data R) row →
  set_iloc (labelled_frame meds k R) k (label med <$> row) =
    labelled_frame (meds ++ [med]) (S k) R.
Proof.
  intros Hm Hrow. unfold set_iloc, labelled_frame; simpl. f_equal.
  induction Hrow as [|[c v] x cs row Hx _ IH]; [done|].
  rewrite !fmap_cons. cbn [zip_with]. rewrite IH. f_equal.
  unfold prod_map; simpl. f_equal. by apply labelled_step.
Qed.

Lemma labelled_frame_start (R : DataFrame F) : labelled_frame [] 0 R = R.
Proof.
  destruct R as [idx cs]. unfold labelled_frame; simpl. f_equal.
  rewrite <- (list_fmap_id cs) at 2. apply list_fmap_ext.
  intros _ [c v] _. unfold prod_map, labelled; simpl. by rewrite drop_0.
Qed.

(** The table of the labels of [R] for the medians [meds] of its rows. *)
Definition label_table (meds : list F) (R : DataFrame F) : DataFrame F :=
  {| index := index R; data := prod_map id (zip_with label meds) <$> data R |}.

Lemma labelled_frame_end (meds : list F) (R : DataFrame F) :
  aligned R → length meds = len R →
  labelled_frame meds (len R) R = label_table meds R.
Proof.
  intros Hlen Hm. unfold labelled_frame, label_table. f_equal.
  apply Forall_fmap_ext. eapply Forall_impl; [exact Hlen|].
  intros [c v] Hv; simpl in *. unfold prod_map, labelled; simpl. f_equal.
  rewrite <- Hv, firstn_all, drop_all. apply app_nil_r.
Qed.

(** One pass of the loop of [binary_targets] over a row. *)
Definition label_row (dataframe df : loc) (time_idx : nat) : M F () :=
  let* d := deref dataframe in
  let* compare_list := lift (iloc d time_idx) in
  let* compare_value := lift (median compare_list) in
  let* d := deref dataframe in
  let* row := lift (iloc d time_idx) in
  let* target := deref df in
  assign df (set_iloc target time_idx (label compare_value <$> row)).

Lemma label_row_run (r : loc) (t : nat) (d : DataFrame F) (row : list F)
    (med : F) (w : world F) :
  heap w !! r = Some d → iloc d t = Ok row → median row = Ok med →
  label_row r r t w =
    (Ok (), {| heap := <[r:=set_iloc d t (label med <$> row)]> (heap w);
               stdout := stdout w; files := files w |}).
Proof.
  intros Hr Hrow Hmed.
  unfold label_row, mbind, M_bind, deref, lift, assign.
  rewrite Hr. cbn beta iota. rewrite Hrow. cbn beta iota.
  rewrite Hmed. cbn beta iota. rewrite Hr. cbn beta iota.
  rewrite Hrow. cbn beta iota. by rewrite Hr.
Qed.

(** The median of the row [t] of [R] is [med]. *)
Definition row_median (R : DataFrame F) (t : nat) (med : F) : Prop :=
  ∃ row, iloc R t = Ok row ∧ median row = Ok med.

(** The loop over the rows from [k] on, the rows before [k] holding
    their labels already. *)
Lemma label_loop (r : loc) (R : DataFrame F) (n' : nat) :
  aligned R → data R ≠ [] →
  ∀ (k : nat) (meds : list F) (w : world F),
    k + n' = len R → length meds = k →
    heap w !! r = Some (labelled_frame meds k R) →
    ∃ meds',
      Forall2 (row_median R) (seq k n') meds' ∧
      for_each (seq k n') (label_row r r) w =
        (Ok (), {| heap := <[r:=labelled_frame (meds ++ meds') (k + n') R]> (heap w);
                   stdout := stdout w; files := files w |}).
Proof.
  intros Hwf Hne. induction n' as [|n' IH]; intros k meds w Hk Hm Hr.
  - exists []. split; [constructor|]. simpl.
    rewrite app_nil_r, Nat.add_0_r, insert_id by done. by destruct w.
  - destruct (iloc_aligned R k Hwf) as (row & Hrow & HF); [lia|].
    destruct (median_total row) as [med Hmed].
    { destruct (data R); [done|]. by inversion HF. }
    pose proof (labelled_frame_iloc meds k k R Hwf Hm) as Hiloc.
    rewrite Hrow in Hiloc.
    cbn [seq for_each]. unfold mbind at 1, M_bind at 1.
    rewrite (label_row_run r k _ row med w Hr) by (done || apply Hiloc; lia).
    rewrite labelled_frame_step by done.
    set (w1 := {| heap := _; stdout := _; files := _ |}).
    destruct (IH (S k) (meds ++ [med]) w1) as (meds' & Hmeds' & Hrun).
    { lia. }
    { rewrite length_app. simpl. lia. }
    { unfold w1; simpl. apply lookup_insert_eq. }
    exists (med :: meds'). split.
    + constructor; [by exists row|done].
    + rewrite Hrun. unfold w1; simpl.
      rewrite insert_insert_eq, <- app_assoc. simpl.
      by replace (S (k + n')) with (k + S n') by lia.
Qed.

(** What a call of [binary_targets] does to a table with a column, or
    without rows. *)
Lemma binary_targets_run (r : loc) (R : DataFrame F)
    (export_binary_csv : bool) (name : string) (w : world F) :
  heap w !! r = Some R → aligned R → len R = 0 ∨ data R ≠ [] →
  ∃ meds,
    Forall2 (row_median R) (seq 0 (len R)) meds ∧
    binary_targets r export_binary_csv name w =
      (Ok r,
       {| heap := <[r:=label_table meds R]> (heap w);
          stdout := stdout w;
          files := if export_binary_csv
                   then <[name +:+ ".csv":=label_table meds R]> (files w)
                   else files w |}).
Proof.
  intros Hr Hwf Hcase.
  assert (∃ meds,
    Forall2 (row_median R) (seq 0 (len R)) meds ∧
    for_each (seq 0 (len R)) (label_row r r) w =
      (Ok (), {| heap := <[r:=label_table meds R]> (heap w);
                 stdout := stdout w; files := files w |})) as (meds & Hmeds & Hloop).
  { destruct Hcase as [Hz|Hne].
    - exists []. rewrite Hz. split; [constructor|]. simpl.
      rewrite <- (labelled_frame_end [] R), Hz, labelled_frame_start by done.
      rewrite insert_id by done. by destruct w.
    - destruct (label_loop r R (len R) Hwf Hne 0 [] w) as (meds & Hmeds & Hloop);
        [done|done|by rewrite labelled_frame_start|].
      exists meds. split; [done|]. rewrite Hloop. simpl.
      rewrite labelled_frame_end; [done|done|].
      apply Forall2_length in Hmeds. by rewrite length_seq in Hmeds. }
  exists meds. split; [done|].
  unfold binary_targets. fold (label_row r r).
  rewrite !M_bind_run. unfold deref at 1. rewrite Hr.
  unfold mret at 1, M_ret at 1. cbn [shape fst].
  rewrite M_bind_run, Hloop.
  destruct export_binary_csv; [|done].
  rewrite !M_bind_run. unfold deref, to_csv; simpl.
  by rewrite lookup_insert_eq.
Qed.

Lemma label_table_cell (meds : list F) (R : DataFrame F) (col : string)
    (t : nat) (med x : F) :
  meds !! t = Some med → cell R col t = Some x →
  cell (label_table meds R) col t = Some (label med x).
Proof.
  unfold cell, label_table; simpl. rewrite assoc_fmap.
  destruct (assoc col (data R)) as [v|]; simpl; [|done].
  intros Hm Hx. by rewrite lookup_zip_with, Hm, Hx.
Qed.

Lemma label_table_binary (meds : list F) (R : DataFrame F) :
  Forall (λ c, Forall (λ b, b = fzero ∨ b = fone) c.2) (data (label_table meds R)).
Proof.
  unfold label_table; simpl. apply Forall_fmap, Forall_forall.
  intros [c v] _. simpl. apply Forall_forall.
  intros b (med & x & -> & _)%elem_of_zip_with.
  unfold label. destruct (fle x med); auto.
Qed.

Lemma label_zero (med x : F) : label med x = fzero ↔ fle x med = true.
Proof.
  unfold label. destruct (fle x med); [done|].
  split; [|done]. intros H. by destruct fzero_ne_fone.
Qed.

Lemma label_one (med x : F) : label med x = fone ↔ fle x med = false.
Proof.
  unfold label. destruct (fle x med); [|done].
  split; [|done]. intros H. by destruct fzero_ne_fone.
Qed.

(** *** The sorted row and its median *)

Lemma insert_sorted_perm (x : F) (l : list F) : insert_sorted x l ≡ₚ x :: l.
Proof.
  induction l as [|y l IH]; simpl; [done|].
  destruct (flt x y); [done|]. rewrite IH. apply Permutation_swap.
Qed.

Lemma sorted_perm (data : list F) : sorted data ≡ₚ data.
Proof.
  unfold sorted.
  assert (∀ acc, foldl (λ acc x, insert_sorted x acc) acc data ≡ₚ acc ++ data)
    as H; [|by apply (H [])].
  induction data as [|x data IH]; intros acc; simpl; [by rewrite app_nil_r|].
  rewrite IH, insert_sorted_perm. by rewrite <- Permutation_middle.
Qed.

Lemma insert_sorted_ascending (x : F) (l : list F) :
  float_order → isna x = false → Forall (λ y, isna y = false) l →
  StronglySorted (λ a b, flt b a = false) l →
  StronglySorted (λ a b, flt b a = false) (insert_sorted x l).
Proof.
  intros Hord Hx Hl Hs. induction Hs as [|y l Hs IH Hy]; simpl.
  - repeat constructor.
  - apply Forall_cons in Hl as [Hny Hl].
    destruct (flt x y) eqn:Hxy.
    + assert (flt y x = false) as Hyx by (by apply (flt_asym Hord)).
      constructor; [by constructor|]. constructor; [done|].
      apply Forall_forall. intros b Hb.
      pose proof (proj1 (Forall_forall _ _) Hy _ Hb) as Hby.
      pose proof (proj1 (Forall_forall _ _) Hl _ Hb) as Hnb. simpl in *.
      by apply (flt_neg_trans Hord b y x).
    + constructor; [by apply IH|].
      rewrite insert_sorted_perm. by constructor.
Qed.

Lemma sorted_ascending (data : list F) :
  float_order → Forall (λ x, isna x = false) data →
  StronglySorted (λ a b, flt b a = false) (sorted data).
Proof.
  intros Hord. unfold sorted.
  assert (∀ acc,
            Forall (λ x, isna x = false) acc →
            StronglySorted (λ a b, flt b a = false) acc →
            Forall (λ x, isna x = false) data →
            StronglySorted (λ a b, flt b a = false)
              (foldl (λ acc x, insert_sorted x acc) acc data)) as H.
  { induction data as [|x data IH]; intros acc Hacc Hs Hdata; simpl; [done|].
    apply Forall_cons in Hdata as [Hx Hdata]. apply IH; [|by apply insert_sorted_ascending|done].
    rewrite insert_sorted_perm. by constructor. }
  intros Hdata. apply H; [constructor|constructor|done].
Qed.

Lemma ascending_fle (s : list F) :
  float_order → Forall (λ x, isna x = false) s →
  StronglySorted (λ a b, flt b a = false) s →
  StronglySorted (λ a b, fle a b = true) s.
Proof.
  intros Hord Hn Hs. induction Hs as [|y l Hs IH Hy]; [constructor|].
  apply Forall_cons in Hn as [Hny Hl]. constructor; [by apply IH|].
  apply Forall_forall. intros b Hb.
  pose proof (proj1 (Forall_forall _ _) Hy _ Hb) as Hby.
  pose proof (proj1 (Forall_forall _ _) Hl _ Hb) as Hnb. simpl in *.
  by rewrite (fle_flt Hord), Hby.
Qed.

Lemma index_Ok_lookup {A} (l : list A) (i : nat) (x : A) :
  Py.index l (Z.of_nat i) = Ok x → l !! i = Some x.
Proof.
  rewrite Py.index_inside by lia. rewrite Nat2Z.id.
  by destruct (l !! i) as [y|]; intros [= ->].
Qed.

(** On a row without [nan], the median the code computes is the
    median of the row. *)
Lemma median_spec (row : list F) (med : F) :
  float_order → Forall (λ x, isna x = false) row →
  median row = Ok med → spec_median row med.
Proof.
  intros Hord Hrow Hmed. exists (sorted row).
  split; [apply sorted_perm|]. split.
  { apply ascending_fle; [done| |by apply sorted_ascending].
    by rewrite sorted_perm. }
  unfold median in Hmed. set (s := sorted row) in *.
  case_decide as Hz; [done|]. case_decide as Hodd.
  - left. split; [done|]. by apply index_Ok_lookup.
  - right. split; [done|]. split; [pose proof (Nat.mod_upper_bound (length s) 2); lia|].
    assert (0 < length s `div` 2) as Hi.
    { destruct (decide (length s `div` 2 = 0)) as [Hd|]; [|lia].
      apply Nat.div_small_iff in Hd; [|done].
      assert (length s = 1) as Hone by lia. by rewrite Hone in Hodd. }
    apply result_bind_Ok in Hmed as (lo & Hlo & Hmed).
    apply result_bind_Ok in Hmed as (hi & Hhi & [= <-]).
    exists lo, hi. split; [|split; [|done]].
    + apply index_Ok_lookup.
      by replace (Z.of_nat (length s `div` 2 - 1))
        with (Z.of_nat (length s `div` 2) - 1)%Z by lia.
    + by apply index_Ok_lookup.
Qed.

(** The median of a row without [nan] is not [nan], when the row has
    an odd number of cells or no infinite cell. *)
Lemma spec_median_number (row : list F) (med : F) :
  float_order → Forall (λ x, isna x = false) row →
  spec_median row med →
  length row `mod` 2 = 1 ∨ Forall (λ x, isinf x = false) row →
  isna med = false.
Proof.
  intros Hord Hrow (s & Hperm & _ & Hmid) Hcase.
  rewrite <- Hperm in Hrow, Hcase.
  destruct Hmid as [[_ Hmed]|(_ & Heven & lo & hi & Hlo & Hhi & ->)].
  - apply list_elem_of_lookup_2 in Hmed.
    exact (proj1 (Forall_forall _ _) Hrow _ Hmed).
  - destruct Hcase as [Hodd|Hfin]; [lia|].
    apply list_elem_of_lookup_2 in Hlo, Hhi.
    apply (mean_number Hord).
    + exact (proj1 (Forall_forall _ _) Hrow _ Hlo).
    + exact (proj1 (Forall_forall _ _) Hfin _ Hlo).
    + exact (proj1 (Forall_forall _ _) Hrow _ Hhi).
    + exact (proj1 (Forall_forall _ _) Hfin _ Hhi).
Qed.

(** The cells of a row of a table without [nan]. *)
Lemma iloc_numbers (R : DataFrame F) (t : nat) (row : list F) :
  all_numbers R → iloc R t = Ok row → Forall (λ x, isna x = false) row.
Proof.
  intros Hnum. unfold iloc. case_decide; [|done].
  intros HF%mapM_result_Forall2. unfold values in HF.
  apply Forall2_fmap_l in HF.
  apply Forall_forall. intros x [j Hx]%list_elem_of_lookup.
  destruct (Forall2_lookup_r _ _ _ _ _ HF Hx) as ([c v] & Hc & Hv).
  simpl in Hv. destruct (v !! t) as [y|] eqn:Hy; [|done].
  injection Hv as ->.
  apply list_elem_of_lookup_2 in Hc, Hy.
  pose proof (proj1 (Forall_forall _ _) Hnum _ Hc) as Hcol. simpl in Hcol.
  exact (proj1 (Forall_forall _ _) Hcol _ Hy).
Qed.

Lemma cell_number (R : DataFrame F) (col : string) (t : nat) (x : F) :
  all_numbers R → cell R col t = Some x → isna x = false.
Proof.
  intros Hnum Hx. unfold cell in Hx.
  destruct (assoc col (data R)) as [v|] eqn:Hv; [|done]. simpl in Hx.
  apply assoc_elem_of in Hv. apply list_elem_of_lookup_2 in Hx.
  pose proof (proj1 (Forall_forall _ _) Hnum _ Hv) as Hcol. simpl in Hcol.
  exact (proj1 (Forall_forall _ _) Hcol _ Hx).
Qed.


(** C3, amended. For a return table with a company column (or
    without rows) and without [nan], [binary_targets] leaves a table
    of the same shape, labels and index whose cells are all 0 or 1.
    The cell of row [t] is 0 exactly when the original return is [<=]
    the median of the row [t] of the original table across all its
    columns (the middle value of the row in ascending order, or the
    mean of its two middle values), and 1 exactly when it is not,
    which is exactly when the return is strictly greater, the median
    being a number; it is one when the row has an odd number of cells
    or no infinite cell. No other row enters the label. *)
Theorem binary_targets_labels (r : loc) (R : DataFrame F)
    (export_binary_csv : bool) (name : string) (w : world F) :
  float_order →
  heap w !! r = Some R → aligned R → all_numbers R →
  len R = 0 ∨ data R ≠ [] →
  ∃ w' B,
    binary_targets r export_binary_csv name w = (Ok r, w') ∧
    heap w' !! r = Some B ∧
    shape B = shape R ∧ columns B = columns R ∧ index B = index R ∧
    Forall (λ c, Forall (λ b, b = fzero ∨ b = fone) c.2) (data B) ∧
    ∀ t, t < len R →
      ∃ row med,
        iloc R t = Ok row ∧ median row = Ok med ∧ spec_median row med ∧
        (length row `mod` 2 = 1 ∨ Forall (λ x, isinf x = false) row →
         isna med = false) ∧
        ∀ col x, cell R col t = Some x →
          ∃ b, cell B col t = Some b ∧
               (b = fzero ↔ fle x med = true) ∧
               (b = fone ↔ fle x med = false) ∧
               (isna med = false → (b = fone ↔ flt med x = true)).
Proof.
  intros Hord Hr Hwf Hnum Hcase.
  destruct (binary_targets_run r R export_binary_csv name w Hr Hwf Hcase)
    as (meds & Hmeds & Hrun).
  eexists _, (label_table meds R). split; [exact Hrun|].
  split; [apply lookup_insert_eq|].
  split; [|split; [|split; [done|split; [apply label_table_binary|]]]].
  - unfold shape, len; simpl. by rewrite length_fmap.
  - unfold columns; simpl. rewrite <- list_fmap_compose.
    apply list_fmap_ext. by intros _ [] _.
  - intros t Ht.
    destruct (Forall2_lookup_l _ _ _ t t Hmeds) as (med & Hmed & row & Hrow & Hmedian).
    { by apply lookup_seq_lt. }
    pose proof (iloc_numbers R t row Hnum Hrow) as Hrown.
    pose proof (median_spec row med Hord Hrown Hmedian) as Hspec.
    exists row, med. split; [done|]. split; [done|]. split; [done|].
    split; [by apply spec_median_number|].
    intros col x Hx. exists (label med x).
    split; [by apply label_table_cell|].
    split; [apply label_zero|]. split; [apply label_one|].
    intros Hnmed. rewrite label_one.
    rewrite (fle_flt Hord) by (done || by eapply cell_number).
    by destruct (flt med x).
Qed.


(** *** More on get_returns *)

(** X1. A negative period is refused before the table is looked at:
    whatever the table and the flags, the message is printed once, the
    call exits, and no file is written. *)
Theorem get_returns_negative_period (dataframe : DataFrame F)
    (export_returns_csv : bool) (m : Z) (no_missing : bool) (w : world F) :
  (m < 0)%Z →
  ∃ w',
    get_returns dataframe export_returns_csv m no_missing w = (Raise SystemExit, w') ∧
    stdout w' = stdout w ++ [invalid_m] ∧
    files w' = files w ∧ heap w' = heap w.
Proof.
  intros Hm. eexists. split; [by apply get_returns_negative|]. done.
Qed.

(** X5. What a call of [get_returns] leaves behind. A call that returns
    a table had a period [m >= 0], printed nothing, touched no
    dataframe of the heap, and wrote the file ReturnsData.csv, holding
    the very table it returns, exactly when [export_returns_csv] is
    set. A call that raises wrote no file. *)
Theorem get_returns_effects (dataframe : DataFrame F)
    (export_returns_csv : bool) (m : Z) (no_missing : bool) (w w' : world F) :
  (∀ df,
     get_returns dataframe export_returns_csv m no_missing w = (Ok df, w') →
     (0 ≤ m)%Z ∧ heap w' = heap w ∧ stdout w' = stdout w ∧
     files w' = if export_returns_csv
                then <["ReturnsData.csv":=df]> (files w)
                else files w) ∧
  (∀ e,
     get_returns dataframe export_returns_csv m no_missing w = (Raise e, w') →
     heap w' = heap w ∧ files w' = files w).
Proof.
  destruct (decide (m < 0)%Z) as [Hm|Hm].
  { rewrite get_returns_negative by done. split; [done|]. by intros e [= <- <-]. }
  rewrite get_returns_unfold by lia.
  destruct (fold_result _ _ _) as [df0|e0]; split; try done.
  - intros df [= <- <-]. split; [lia|]. by destruct export_returns_csv.
  - by intros e [= <- <-].
Qed.

(** X2. A period of zero passes the guard, and on a table with two or
    more rows and a column after the first the division of a whole
    column by an empty one does not broadcast: the [ValueError] leaves
    the call, nothing is printed and no file is written. *)
Theorem get_returns_zero_period_raises (P : DataFrame F)
    (export_returns_csv no_missing : bool) (w : world F) :
  aligned P → 2 ≤ length (data P) → 2 ≤ len P →
  get_returns P export_returns_csv 0 no_missing w = (Raise ValueError, w).
Proof.
  intros Hal Hcols Hrows. rewrite get_returns_unfold by lia.
  destruct P as [idx [|c0 [|[c1 v1] rest]]]; [simpl in Hcols; lia..|].
  unfold columns. cbn [data fmap list_fmap drop fst fold_result].
  assert (∃ today, getitem {| index := idx; data := c0 :: (c1, v1) :: rest |} c1
                   = Ok today ∧ 2 ≤ length today) as (today & Hget & Hlen).
  { unfold getitem. cbn [data].
    destruct (assoc c1 (c0 :: (c1, v1) :: rest)) as [today|] eqn:Hassoc.
    - exists today. split; [done|]. apply assoc_elem_of in Hassoc.
      pose proof (proj1 (Forall_forall _ _) Hal _ Hassoc) as Hl. simpl in Hl.
      unfold len in *. simpl in *. lia.
    - exfalso. simpl in Hassoc. destruct c0 as [c0 v0].
      case_decide; [done|]. by rewrite decide_True in Hassoc. }
  assert (returns_step {| index := idx; data := c0 :: (c1, v1) :: rest |} 0
            DataFrame_empty c1 = Raise ValueError) as ->; [|done].
  unfold returns_step. rewrite Hget. cbn [mbind result_bind].
  assert (np_divide (Py.slice_from today 0) (Py.slice_to today (- 0)) = Raise ValueError)
    as ->; [|done].
  unfold Py.slice_from, Py.slice_to, Py.slice_bound.
  change (- 0)%Z with 0%Z. cbn [Z.ltb Z.compare].
  replace (Z.to_nat (0 `min` Z.of_nat (length today))) with 0 by lia.
  rewrite take_0, drop_0.
  unfold np_divide. rewrite decide_False by (simpl; lia).
  by destruct today as [|x [|y today]]; [simpl in Hlen; lia..|].
Qed.

Lemma period_returns_short (m : nat) (prices : list F) :
  length prices ≤ m → period_returns m prices = [].
Proof. intros Hm. unfold period_returns. by rewrite drop_ge. Qed.

(** The loop over columns no longer than the period: every column is
    set to an array without cells. *)
Lemma returns_loop_empty (dataframe : DataFrame F) (m : Z)
    (computed rest : list (string * list F)) :
  (0 < m)%Z →
  Forall (λ c, getitem dataframe c.1 = Ok c.2 ∧ length c.2 ≤ Z.to_nat m) rest →
  NoDup (computed ++ rest).*1 →
  fold_result (returns_step dataframe m) {| index := []; data := computed |} rest.*1
  = Ok {| index := [];
          data := computed ++ (prod_map id (λ _, []) <$> rest) |}.
Proof.
  intros Hm Hrest. revert computed.
  induction Hrest as [|[col today] rest [Hget Hlen] _ IH]; intros computed Hnd.
  { simpl. by rewrite app_nil_r. }
  simpl in Hget, Hlen. rewrite fmap_cons. simpl fold_result.
  rewrite (returns_step_inside _ _ _ _ _ Hget Hm), period_returns_short by done.
  assert (col ∉ computed.*1) as Hfresh.
  { rewrite fmap_app in Hnd. apply NoDup_app in Hnd as (_ & Hnd & _).
    intros Hin. apply (Hnd _ Hin). simpl. left. }
  unfold setitem, len. cbn [index data length].
  rewrite bool_decide_eq_true_2 by done. cbn [negb andb index data length].
  rewrite decide_True by done. rewrite set_column_fresh by done.
  cbn [mbind result_bind]. rewrite IH.
  - by rewrite <- app_assoc.
  - rewrite <- app_assoc. simpl. rewrite !fmap_app, !fmap_cons in *. done.
Qed.

(** X3. A period that is at least the number of rows is no error: the
    table returned has no rows, and keeps every column after the first,
    without cells, whatever [no_missing] is. *)
Theorem get_returns_long_period (P : DataFrame F) (export_returns_csv : bool)
    (m : Z) (no_missing : bool) (w : world F) :
  wf P → (0 < m)%Z → (Z.of_nat (len P) ≤ m)%Z →
  ∃ df w',
    get_returns P export_returns_csv m no_missing w = (Ok df, w') ∧
    len df = 0 ∧
    columns df = drop 1 (columns P) ∧
    Forall (λ c, c.2 = []) (data df).
Proof.
  intros [Hal Hnd] Hm Hlen. rewrite get_returns_unfold by lia.
  set (rest := drop 1 (data P)).
  assert (drop 1 (columns P) = rest.*1) as Hcols.
  { unfold columns, rest. by rewrite fmap_drop. }
  assert (rest `sublist_of` data P) as Hsub by apply sublist_drop.
  assert (NoDup rest.*1) as Hndr.
  { pose proof (fmap_sublist fst _ _ Hsub) as Hs. by eapply sublist_NoDup. }
  pose proof (returns_loop_empty P m [] rest Hm) as Hloop.
  cbn [app] in Hloop. fold (@DataFrame_empty F) in Hloop.
  assert (Forall (λ c, getitem P c.1 = Ok c.2 ∧ length c.2 ≤ Z.to_nat m) rest)
    as Hrest.
  { apply Forall_forall. intros [c v] Hin. simpl.
    eapply elem_of_sublist in Hin; [|exact Hsub]. split.
    - unfold getitem. by rewrite (assoc_NoDup _ _ _ Hnd Hin).
    - pose proof (proj1 (Forall_forall _ _) Hal _ Hin) as Hl. simpl in Hl. lia. }
  rewrite Hcols, (Hloop Hrest Hndr).
  set (df0 := {| index := []; data := prod_map id (λ _ : list F, []) <$> rest |}).
  assert (dropna_columns df0 = df0) as Hdrop.
  { unfold dropna_columns, df0; simpl. f_equal.
    clear. induction rest as [|[c v] rest IH]; [done|].
    rewrite fmap_cons, filter_cons_True by done. by rewrite IH. }
  eexists (if no_missing then dropna_columns df0 else df0), _.
  split; [done|]. rewrite Hdrop.
  assert ((if no_missing then df0 else df0) = df0) as -> by (by destruct no_missing).
  split; [done|]. split.
  - unfold columns, df0; simpl. rewrite <- list_fmap_compose.
    apply list_fmap_ext. by intros _ [] _.
  - unfold df0; simpl. apply Forall_fmap, Forall_forall. by intros [].
Qed.

(** The table of [get_returns] for a period inside the table. *)
Lemma get_returns_closed (P : DataFrame F) (export_returns_csv : bool)
    (m : Z) (no_missing : bool) (w : world F) :
  wf P → 2 ≤ length (data P) → (0 < m < Z.of_nat (len P))%Z →
  ∃ df0,
    index df0 = seqZ 0 (Z.of_nat (len P - Z.to_nat m)) ∧
    data df0 = prod_map id (period_returns (Z.to_nat m)) <$> drop 1 (data P) ∧
    get_returns P export_returns_csv m no_missing w =
      (Ok (if no_missing then dropna_columns df0 else df0),
       if export_returns_csv then
         {| heap := heap w; stdout := stdout w;
            files := <["ReturnsData.csv":=if no_missing then dropna_columns df0 else df0]>
                       (files w) |}
       else w).
Proof.
  intros [Hal Hnd] Hcols Hm.
  set (rest := drop 1 (data P)). set (k := len P - Z.to_nat m).
  assert (drop 1 (columns P) = rest.*1) as Hnames.
  { unfold columns, rest. by rewrite fmap_drop. }
  assert (rest `sublist_of` data P) as Hsub by apply sublist_drop.
  assert (NoDup rest.*1) as Hndr.
  { pose proof (fmap_sublist fst _ _ Hsub) as Hs. by eapply sublist_NoDup. }
  assert (Forall (λ c, getitem P c.1 = Ok c.2 ∧ length c.2 - Z.to_nat m = k) rest)
    as Hrest.
  { apply Forall_forall. intros [c v] Hin. simpl.
    eapply elem_of_sublist in Hin; [|exact Hsub]. split.
    - unfold getitem. by rewrite (assoc_NoDup _ _ _ Hnd Hin).
    - pose proof (proj1 (Forall_forall _ _) Hal _ Hin) as Hl. simpl in Hl.
      unfold k. by rewrite Hl. }
  pose proof (returns_loop_from P m k [] rest) as Hloop.
  cbn [app] in Hloop. fold (@DataFrame_empty F) in Hloop.
  assert (rest ≠ []) as Hne.
  { unfold rest. destruct (data P) as [|c0 [|c1 cs]]; simpl in *; [lia..|done]. }
  eexists {| index := seqZ 0 (Z.of_nat k);
             data := prod_map id (period_returns (Z.to_nat m)) <$> rest |}.
  split; [done|]. split; [done|].
  rewrite get_returns_unfold by lia.
  rewrite Hnames, Hloop; [|lia|unfold k; lia|done|done].
  by destruct rest.
Qed.

(** X4. The missing-value policy of [get_returns], for a period inside
    the table. With [no_missing] a company after the first column is
    kept exactly when none of its [m]-period returns is missing, and no
    cell of the table returned is missing; without it every company
    after the first column is kept. A company is kept or dropped as a
    whole, and the kept ones stay in their order. *)
Theorem get_returns_missing_values (P : DataFrame F) (export_returns_csv : bool)
    (m : Z) (no_missing : bool) (w : world F) :
  wf P → 2 ≤ length (data P) → (0 < m < Z.of_nat (len P))%Z →
  ∃ df w',
    get_returns P export_returns_csv m no_missing w = (Ok df, w') ∧
    columns df `sublist_of` drop 1 (columns P) ∧
    (no_missing = true →
     Forall (λ c, Forall (λ x, isna x = false) c.2) (data df)) ∧
    (no_missing = false → columns df = drop 1 (columns P)) ∧
    ∀ c v, (c, v) ∈ drop 1 (data P) →
      (c ∈ columns df ↔
       no_missing = false ∨
       Forall (λ x, isna x = false) (period_returns (Z.to_nat m) v)).
Proof.
  intros Hwf Hcols Hm.
  destruct (get_returns_closed P export_returns_csv m no_missing w Hwf Hcols Hm)
    as (df0 & Hidx & Hdata & Hrun).
  eexists _, _. split; [exact Hrun|]. clear Hrun.
  destruct Hwf as [Hal Hnd].
  set (rest := drop 1 (data P)) in *.
  assert (NoDup rest.*1) as Hndr.
  { pose proof (fmap_sublist fst _ _ (sublist_drop (data P) 1)) as Hs.
    by eapply sublist_NoDup. }
  assert (columns df0 = rest.*1) as Hc0.
  { unfold columns. rewrite Hdata, <- list_fmap_compose.
    apply list_fmap_ext. by intros _ [] _. }
  assert (drop 1 (columns P) = rest.*1) as ->.
  { unfold columns, rest. by rewrite fmap_drop. }
  assert (∀ x : F, negb (isna x) = true ↔ isna x = false) as Hneg
    by (intros x; by destruct (isna x)).
  assert (∀ l : list F,
    forallb (λ x, negb (isna x)) l = true ↔ Forall (λ x, isna x = false) l) as Hall.
  { intros l. rewrite forallb_forall, Forall_forall.
    split; intros H x Hx; apply Hneg, H; by apply list_elem_of_In. }
  destruct no_missing; (split; [|split; [|split]]).
  - rewrite <- Hc0. apply dropna_columns_sublist.
  - intros _. apply Forall_forall. intros c [Hc _]%list_elem_of_filter.
    by apply Hall.
  - done.
  - intros c v Hin. split.
    + intros ([c' v'] & -> & [Hkeep Hin']%list_elem_of_filter)%list_elem_of_fmap.
      right. rewrite Hdata in Hin'.
      apply list_elem_of_fmap in Hin' as ([c'' v''] & [= -> ->] & Hin'').
      simpl in Hin, Hkeep.
      assert (v'' = v) as <-.
      { pose proof (assoc_NoDup _ _ _ Hndr Hin) as H1.
        pose proof (assoc_NoDup _ _ _ Hndr Hin'') as H2. congruence. }
      by apply Hall.
    + intros [?|Hv]; [done|].
      apply list_elem_of_fmap. exists (c, period_returns (Z.to_nat m) v).
      split; [done|]. apply list_elem_of_filter. split; [by apply Hall|].
      rewrite Hdata. apply list_elem_of_fmap. by exists (c, v).
  - by rewrite Hc0.
  - done.
  - done.
  - intros c v Hin. split; [by left|]. intros _.
    rewrite Hc0. apply list_elem_of_fmap. by exists (c, v).
Qed.

(** *** More on binary_targets *)

(** The median of an empty first row. *)
Lemma binary_targets_empty_row (r : loc) (R : DataFrame F)
    (export_binary_csv : bool) (name : string) (w : world F) :
  heap w !! r = Some R → data R = [] → 0 < len R →
  binary_targets r export_binary_csv name w = (Raise StatisticsError, w).
Proof.
  intros Hr Hdata Hlen. unfold binary_targets. fold (label_row r r).
  rewrite !M_bind_run. unfold deref at 1. rewrite Hr.
  unfold mret at 1, M_ret at 1. cbn [shape fst].
  rewrite M_bind_run.
  destruct (len R) as [|n] eqn:Hn; [lia|].
  cbn [seq for_each]. rewrite M_bind_run.
  assert (label_row r r 0 w = (Raise StatisticsError, w)) as ->; [|done].
  unfold label_row. rewrite M_bind_run. unfold deref at 1. rewrite Hr.
  rewrite M_bind_run. unfold lift at 1.
  assert (iloc R 0 = Ok []) as ->.
  { unfold iloc, values. rewrite decide_True by lia. by rewrite Hdata. }
  rewrite M_bind_run. by unfold lift at 1.
Qed.

(** X6. A table with rows and no column is not labelled: the median of
    its first, empty, row raises [StatisticsError]; the table, the
    files and the output are as before, also when the export is asked
    for. *)
Theorem binary_targets_no_columns (r : loc) (R : DataFrame F)
    (export_binary_csv : bool) (name : string) (w : world F) :
  heap w !! r = Some R → data R = [] → 0 < len R →
  binary_targets r export_binary_csv name w = (Raise StatisticsError, w).
Proof. apply binary_targets_empty_row. Qed.

(** X7. What a call of [binary_targets] leaves behind, on a table with
    a column (or without rows): nothing is printed, no other dataframe
    of the heap changes, and the file [name].csv is written exactly
    when [export_binary_csv] is set; it holds the labels the table
    itself holds after the call. No other file is written. *)
Theorem binary_targets_effects (r : loc) (R : DataFrame F)
    (export_binary_csv : bool) (name : string) (w : world F) :
  heap w !! r = Some R → aligned R → len R = 0 ∨ data R ≠ [] →
  ∃ w' B,
    binary_targets r export_binary_csv name w = (Ok r, w') ∧
    heap w' !! r = Some B ∧
    (∀ r', r' ≠ r → heap w' !! r' = heap w !! r') ∧
    stdout w' = stdout w ∧
    files w' = (if export_binary_csv
                then <[name +:+ ".csv":=B]> (files w)
                else files w).
Proof.
  intros Hr Hal Hcase.
  destruct (binary_targets_run r R export_binary_csv name w Hr Hal Hcase)
    as (meds & _ & Hrun).
  eexists _, _. split; [exact Hrun|]. simpl.
  split; [apply lookup_insert_eq|]. split; [|done].
  intros r' Hne. by apply lookup_insert_ne.
Qed.

Lemma median_singleton (x : F) : median [x] = Ok x.
Proof. done. Qed.

(** X8. A table with one company only: the median of every row is its
    single return, so every return that is [<=] itself (every return
    that is a number) gets the label 0, and the table left behind
    holds nothing but 0. *)
Theorem binary_targets_single_company (r : loc) (idx : list Z) (c : string)
    (v : list F) (export_binary_csv : bool) (name : string) (w : world F) :
  heap w !! r = Some {| index := idx; data := [(c, v)] |} →
  length v = length idx →
  Forall (λ x, fle x x = true) v →
  ∃ w',
    binary_targets r export_binary_csv name w = (Ok r, w') ∧
    heap w' !! r =
      Some {| index := idx; data := [(c, replicate (length v) fzero)] |}.
Proof.
  intros Hr Hlen Hrefl.
  set (R := {| index := idx; data := [(c, v)] |}) in *.
  assert (aligned R) as Hal by (by constructor).
  destruct (binary_targets_run r R export_binary_csv name w Hr Hal)
    as (meds & Hmeds & Hrun); [by right|].
  eexists. split; [exact Hrun|]. simpl. rewrite lookup_insert_eq. f_equal.
  unfold label_table, R; simpl. do 3 f_equal.
  assert (meds = v) as ->.
  { apply list_eq_same_length with (length v).
    - done.
    - apply Forall2_length in Hmeds. rewrite length_seq in Hmeds.
      unfold len, R in Hmeds; simpl in Hmeds. lia.
    - intros t med x Ht Hmed Hx.
      destruct (Forall2_lookup_r _ _ _ _ _ Hmeds Hmed) as (t' & Ht' & row & Hrow & Hmedian).
      apply lookup_seq in Ht' as [-> _]. simpl in Hrow.
      unfold iloc, values, R in Hrow; simpl in Hrow.
      case_decide; [|done]. rewrite Hx in Hrow. simpl in Hrow.
      injection Hrow as <-. rewrite median_singleton in Hmedian. congruence. }
  clear -Hrefl. induction Hrefl as [|x v Hx _ IH]; [done|].
  simpl. unfold label at 1. by rewrite Hx, IH.
Qed.

Lemma get_returns_closed_aligned (P df0 : DataFrame F) (m : Z) :
  aligned P →
  index df0 = seqZ 0 (Z.of_nat (len P - Z.to_nat m)) →
  data df0 = prod_map id (period_returns (Z.to_nat m)) <$> drop 1 (data P) →
  ∀ no_missing : bool, aligned (if no_missing then dropna_columns df0 else df0).
Proof.
  intros Hal Hidx Hdata no_missing.
  assert (aligned df0) as Hal0.
  { unfold aligned, len. rewrite Hdata, Hidx, length_seqZ, Nat2Z.id.
    apply Forall_fmap, Forall_forall. intros [c v] Hin. simpl.
    eapply elem_of_sublist in Hin; [|apply sublist_drop].
    pose proof (proj1 (Forall_forall _ _) Hal _ Hin) as Hl. simpl in Hl.
    by rewrite period_returns_length, Hl. }
  destruct no_missing; [|done].
  unfold aligned, dropna_columns, len in *; simpl.
  apply Forall_forall. intros c [_ Hin]%list_elem_of_filter.
  by apply (proj1 (Forall_forall _ _) Hal0).
Qed.

(** X9. The two stages one after the other: the table of
    [get_returns], exported, is handed to [binary_targets], exported
    under the default name. If a company is left in
    it, the labels are written into that very table and into
    ReturnsBinary.csv, while ReturnsData.csv still holds the returns.
    If [no_missing] has dropped every company, the labelling raises
    [StatisticsError]. *)
Theorem returns_then_targets (r : loc) (P : DataFrame F) (m : Z)
    (no_missing : bool) (w : world F) :
  wf P → 2 ≤ length (data P) → (0 < m < Z.of_nat (len P))%Z →
  ∃ df w1,
    get_returns P true m no_missing w = (Ok df, w1) ∧
    let pipeline :=
      let* df := get_returns P true m no_missing in
      let* _ := assign r df in
      binary_targets r true "ReturnsBinary" in
    (data df ≠ [] →
     ∃ w2 B,
       pipeline w = (Ok r, w2) ∧
       heap w2 !! r = Some B ∧
       Forall (λ c, Forall (λ b, b = fzero ∨ b = fone) c.2) (data B) ∧
       files w2 !! "ReturnsBinary.csv" = Some B ∧
       files w2 !! "ReturnsData.csv" = Some df) ∧
    (data df = [] →
     ∃ w2, pipeline w = (Raise StatisticsError, w2) ∧
           files w2 !! "ReturnsData.csv" = Some df).
Proof.
  intros Hwf Hcols Hm.
  destruct (get_returns_closed P true m no_missing w Hwf Hcols Hm)
    as (df0 & Hidx & Hdata & Hrun).
  pose proof (get_returns_closed_aligned P df0 m (proj1 Hwf) Hidx Hdata no_missing)
    as Hal.
  set (df := if no_missing then dropna_columns df0 else df0) in *.
  eexists df, _. split; [exact Hrun|]. cbv zeta.
  rewrite M_bind_run, Hrun, M_bind_run. unfold assign at 1.
  set (w1 := {| heap := <[r:=df]> _; stdout := _; files := _ |}).
  assert (heap w1 !! r = Some df) as Hr by apply lookup_insert_eq.
  assert (0 < len df) as Hlen.
  { unfold len, df. assert (index (dropna_columns df0) = index df0) as Hi by done.
    destruct no_missing; rewrite ?Hi, Hidx, length_seqZ; lia. }
  split.
  - intros Hne.
    destruct (binary_targets_run r df true "ReturnsBinary" w1 Hr Hal)
      as (meds & _ & Hrun2); [by right|].
    eexists _, _. split; [exact Hrun2|]. simpl.
    split; [apply lookup_insert_eq|]. split; [apply label_table_binary|].
    split; [apply lookup_insert_eq|].
    rewrite lookup_insert_ne by done. apply lookup_insert_eq.
  - intros Hnone. eexists. split.
    + by apply (binary_targets_empty_row r df).
    + apply lookup_insert_eq.
Qed.

End data_returns.
End DataReturns.

(** ** split.py: sequence windows *)

Module Split.

(** ** sklearn's StandardScaler

    The statistics [fit] computes from an array (given by columns) and
    the array [transform] makes of another with them are sklearn's.
    The scaler object holds the statistics of its last fit. *)
Class StandardScaler (F : Type) : Type := {
  stats : Type;
  fit : list (list F) → stats;
  transform : stats → list (list F) → list (list F);
}.

Section split.
Context {F : Type} {float : Float F} {standard_scaler : StandardScaler F}.

(** [split_Tperiod(df_returns, df_binary, len_period, len_test)]; the
    callers in this file leave the defaults 1308 and 327. *)
Definition split_Tperiod (df_returns df_binary : DataFrame F)
    (len_period len_test : Z)
    : result (list (DataFrame F) * list (DataFrame F)) :=
  let len_total_leave := (Z.of_nat (len df_returns) - len_period)%Z in
  let! starts_ret := Py.range3 0 (len_total_leave + 1) len_test in
  let periods_ret :=
    (λ i : Z, row_slice df_returns i (len_period + i)) <$> starts_ret in
  let! starts_bin := Py.range3 0 (len_total_leave + 1) len_test in
  let periods_bin :=
    (λ i : Z, row_slice df_binary i (len_period + i)) <$> starts_bin in
  Ok (periods_ret, periods_bin).

(** [get_sequences(returns, targets, n_steps)] on the two series as
    arrays ([to_numpy]). The list [X] is built first and cannot raise;
    an index outside [targets] raises [IndexError]. *)
Definition get_sequences (returns targets : list F) (n_steps : Z)
    : result (list (list F) * list F) :=
  let X := (λ i : Z, Py.slice returns i (i + n_steps)) <$>
             Py.range (Z.of_nat (length returns) - n_steps) in
  let! y := mapM (λ i : Z, Py.index targets (i + n_steps))
                 (Py.range (Z.of_nat (length targets) - n_steps)) in
  Ok (X, y).

(** [scaler.fit_transform(X)]: the scaler is fit on [X] (forgetting an
    earlier fit) and [X] is transformed with the new statistics. An
    array without rows or columns, or with an infinite cell, raises. *)
Definition fit_transform (scaler : option stats) (X : DataFrame F)
    : result (option stats * list (list F)) :=
  if bool_decide (len X = 0) || bool_decide (data X = [])
     || existsb (existsb isinf) (values X)
  then Raise ValueError
  else
    let fitted := fit (values X) in
    Ok (Some fitted, transform fitted (values X)).

(** [a.shape] of the array [np.array(a)] of a nested list, as far as
    [get_train_set] reads it: an axis the array does not have raises.
    The lists of [a] have one length, as the columns of a dataframe do. *)
Definition np_shape2 {A} (a : list (list A)) : result (nat * nat) :=
  match a with
  | [] => Raise IndexError
  | r :: _ => Ok (length a, length r)
  end.

Definition np_shape3 {A} (a : list (list (list A))) : result (nat * nat * nat) :=
  match a with
  | [] => Raise IndexError
  | [] :: _ => Raise IndexError
  | (w :: r) :: _ => Ok (length a, S (length r), length w)
  end.

(** [get_train_set(df_returns1, df_binary1)]. Both arguments are
    dataframes here, which [pd.DataFrame] leaves as they are; the two
    [np.reshape] merge the two leading axes. *)
Definition get_train_set (df_returns1 df_binary1 : DataFrame F)
    : result (list (list F) * list F) :=
  let! seqs :=
    mapM (λ comp,
            let! r := getitem df_returns1 comp in
            let! b := getitem df_binary1 comp in
            get_sequences r b 240)
         (columns df_returns1) in
  let list_tot_X := seqs.*1 in
  let list_tot_y := seqs.*2 in
  let! _ := np_shape3 list_tot_X in
  let list_tot_X := concat list_tot_X in
  let! _ := np_shape2 list_tot_y in
  let list_tot_y := concat list_tot_y in
  Ok (list_tot_X, list_tot_y).

(** [np.reshape(X, (X.shape[0], X.shape[1], 1))] *)
Definition add_channel (X : list (list F)) : list (list (list F)) :=
  (λ r : list F, (λ x : F, [x]) <$> r) <$> X.

(** [all_data_LSTM(df_returns, df_binary, period, len_train)] *)
Definition all_data_LSTM (df_returns df_binary : DataFrame F)
    (period len_train : Z)
    : result (list (list (list F)) * list F * list (list (list F)) * list F) :=
  let scaler : option stats := None in
  let! (periods_returns, periods_binary) :=
    split_Tperiod df_returns df_binary 1308 327 in
  let! T1_input := Py.index periods_returns period in
  let! T1_target := Py.index periods_binary period in
  let! (scaler, scaled) := fit_transform scaler (row_slice_to T1_input len_train) in
  let! T1_input := set_rows_to T1_input len_train scaled in
  let X_input_train := row_slice_to T1_input len_train in
  let y_input_train := row_slice_to T1_target len_train in
  let! (scaler, scaled) := fit_transform scaler (row_slice_from T1_input len_train) in
  let! T1_input := set_rows_from T1_input len_train scaled in
  let X_test := row_slice_from T1_input len_train in
  let y_test := row_slice_from T1_target len_train in
  let! (X_train, y_train) := get_train_set X_input_train y_input_train in
  let! (X_test, y_test) := get_train_set X_test y_test in
  let X_train := add_channel X_train in
  let X_test := add_channel X_test in
  Ok (X_train, y_train, X_test, y_test).

(** [X.shape[1]] of a three-axis array with at least one row, which
    the arrays of [all_data_LSTM] have. *)
Definition shape1 {A} (X : list (list A)) : nat :=
  match X with
  | [] => 0
  | r :: _ => length r
  end.

(** [X[:, m, :]] *)
Definition take_along_axis1 {A} (X : list (list A)) (m : list Z)
    : result (list (list A)) :=
  mapM (λ r, mapM (Py.index r) m) X.

(** The rows of a flat array cut into [n] rows of [k] cells. *)
Fixpoint chunks {A} (n k : nat) (flat : list A) : list (list A) :=
  match n with
  | 0 => []
  | S n => take k flat :: chunks n k (drop k flat)
  end.

(** [np.reshape(X, (X.shape[0], k))] of a three-axis array. *)
Definition reshape_rows (X : list (list (list F))) (k : nat)
    : result (list (list F)) :=
  let flat := concat (concat X) in
  if decide (length flat = length X * k) then Ok (chunks (length X) k flat)
  else Raise ValueError.

(** [all_data_DNN(df_returns, df_binary, period, len_train)]; its
    [len_train] is not handed on to [all_data_LSTM]. *)
Definition all_data_DNN (df_returns df_binary : DataFrame F)
    (period len_train : Z)
    : result (list (list F) * list F * list (list F) * list F) :=
  let! (X_train, y_train, X_test, y_test) :=
    all_data_LSTM df_returns df_binary period 981 in
  let! m1 := Py.range3 0 (Z.of_nat (shape1 X_train)) 20 in
  let m := m1 ++ Py.range2 221 (Z.of_nat (shape1 X_train)) in
  let! X_train := take_along_axis1 X_train m in
  let! X_train := reshape_rows X_train 31 in
  let! X_test := take_along_axis1 X_test m in
  let! X_test := reshape_rows X_test 31 in
  Ok (X_train, y_train, X_test, y_test).

(** [zip] of four lists under [f]. *)
Definition zip_with4 {A B} (f : A → A → A → A → B) (l1 l2 l3 l4 : list A)
    : list B :=
  zip_with (λ p q, f p.1 p.2 q.1 q.2) (zip l1 l2) (zip l3 l4).

(** [np.stack((a1, a2, a3, a4), axis=-1).reshape(a1.shape[0], steps, 4)]
    of four arrays of [all_data_LSTM], which have at least one row and
    one cell a step: the cells of the four arrays at one row and step
    are put side by side. Arrays of different shapes raise in
    [np.stack], and the reshape raises when [steps] is not the number of
    steps of the arrays. *)
Definition stack_channels (a1 a2 a3 a4 : list (list (list F))) (steps : nat)
    : result (list (list (list F))) :=
  if decide (length a2 = length a1 ∧ length a3 = length a1 ∧
             length a4 = length a1 ∧ shape1 a2 = shape1 a1 ∧
             shape1 a3 = shape1 a1 ∧ shape1 a4 = shape1 a1)
  then
    if decide (shape1 a1 = steps) then
      Ok (zip_with4 (zip_with4 (λ x1 x2 x3 x4 : list F, x1 ++ x2 ++ x3 ++ x4))
            a1 a2 a3 a4)
    else Raise ValueError
  else Raise ValueError.

(** [all_multidata_LSTM(df_multidim_list, df_binary, period)]; the
    targets of each call replace those of the call before. *)
Definition all_multidata_LSTM (df_multidim_list : list (DataFrame F))
    (df_binary : DataFrame F) (period : Z)
    : result (list (list (list F)) * list F * list (list (list F)) * list F) :=
  let! df_multireturns1 := Py.index df_multidim_list 0 in
  let! df_multireturns2 := Py.index df_multidim_list 1 in
  let! df_multireturns3 := Py.index df_multidim_list 2 in
  let! df_multireturns4 := Py.index df_multidim_list 3 in
  let! (X_train1, y_train, X_test1, y_test) :=
    all_data_LSTM df_multireturns1 df_binary period 981 in
  let! (X_train2, y_train, X_test2, y_test) :=
    all_data_LSTM df_multireturns2 df_binary period 981 in
  let! (X_train3, y_train, X_test3, y_test) :=
    all_data_LSTM df_multireturns3 df_binary period 981 in
  let! (X_train4, y_train, X_test4, y_test) :=
    all_data_LSTM df_multireturns4 df_binary period 981 in
  let! X_train :=
    stack_channels X_train1 X_train2 X_train3 X_train4 (shape1 X_train1) in
  let! X_test :=
    stack_channels X_test1 X_test2 X_test3 X_test4 (shape1 X_train1) in
  Ok (X_train, y_train, X_test, y_test).

(** The time indices 0, 20, ..., 220 followed by 221, ..., 239. *)
Definition dnn_time_indices : list nat :=
  ((λ k, 20 * k) <$> seq 0 12) ++ seq 221 19.

(** Row by row, [X'] holds 31 features, which are the cells of the
    sequence of [X] at the time indices [dnn_time_indices], in order. *)
Definition subsampled (X : list (list (list F))) (X' : list (list F)) : Prop :=
  Forall2 (λ (s : list (list F)) (r : list F),
             length r = 31 ∧
             Forall2 (λ (j : nat) (x : F), s !! j = Some [x]) dnn_time_indices r)
          X X'.

(** C4. For two tables of one length and positive [len_period] and
    [len_test], [split_Tperiod] returns two lists of
    one length; there is a [k]-th pair exactly for the start offsets
    [k * len_test <= len(table) - len_period], and its two elements
    are the [len_period] rows from row [k * len_test] on of the two
    tables. A table shorter than [len_period] gives two empty lists. *)
Theorem split_Tperiod_spec (df_returns df_binary : DataFrame F)
    (len_period len_test : Z) :
  aligned df_returns → aligned df_binary →
  len df_returns = len df_binary →
  (0 < len_period)%Z → (0 < len_test)%Z →
  ∃ periods_ret periods_bin,
    split_Tperiod df_returns df_binary len_period len_test
      = Ok (periods_ret, periods_bin) ∧
    length periods_ret = length periods_bin ∧
    (∀ k : nat,
       k < length periods_ret ↔
       (Z.of_nat k * len_test ≤ Z.of_nat (len df_returns) - len_period)%Z) ∧
    (∀ k : nat, k < length periods_ret →
       let start := k * Z.to_nat len_test in
       periods_ret !! k = Some (window df_returns start (Z.to_nat len_period)) ∧
       periods_bin !! k = Some (window df_binary start (Z.to_nat len_period)) ∧
       len (window df_returns start (Z.to_nat len_period)) = Z.to_nat len_period ∧
       len (window df_binary start (Z.to_nat len_period)) = Z.to_nat len_period) ∧
    ((Z.of_nat (len df_returns) < len_period)%Z →
       periods_ret = [] ∧ periods_bin = []).
Proof.
  intros Hwr Hwb Hlen Hp Ht. unfold split_Tperiod.
  rewrite Py.range3_up by done. simpl.
  set (L := len df_returns) in *.
  set (cnt := ((Z.of_nat L - len_period + 1 - 0 + len_test - 1) `div` len_test)%Z).
  eexists _, _. split; [done|].
  rewrite !length_fmap, length_seqZ.
  assert (∀ k : nat,
    k < Z.to_nat cnt ↔ (Z.of_nat k * len_test ≤ Z.of_nat L - len_period)%Z) as Hcnt.
  { intros k. rewrite <- (Py.range3_count _ _ k Ht). fold cnt. lia. }
  split; [done|]. split; [done|]. split.
  - intros k Hk. apply Hcnt in Hk as Hk'.
    assert (k * Z.to_nat len_test + Z.to_nat len_period ≤ L) as Hin by nia.
    rewrite !list_lookup_fmap, !lookup_seqZ_lt by lia. simpl.
    rewrite !row_slice_window by (first [done | rewrite <- ?Hlen; lia]).
    replace (Z.to_nat (0 + (0 + Z.of_nat k) * len_test))
      with (k * Z.to_nat len_test) by nia.
    replace (len_period + (0 + (0 + Z.of_nat k) * len_test)
             - (0 + (0 + Z.of_nat k) * len_test))%Z with len_period by lia.
    split; [done|]. split; [done|].
    split; apply window_len; rewrite <- ?Hlen; lia.
  - intros Hshort.
    assert (Z.to_nat cnt = 0) as Hz.
    { destruct (decide (Z.to_nat cnt = 0)) as [|Hne]; [done|].
      assert (0 < Z.to_nat cnt) as H0 by lia. apply Hcnt in H0. lia. }
    fold cnt. rewrite seqZ_nil by lia. done.
Qed.



Lemma fit_transform_Ok (scaler scaler' : option stats) (X : DataFrame F)
    (scaled : list (list F)) :
  fit_transform scaler X = Ok (scaler', scaled) →
  scaler' = Some (fit (values X)) ∧
  scaled = transform (fit (values X)) (values X).
Proof. unfold fit_transform. case_match; [done|]. by intros [= <- <-]. Qed.

Lemma split_Tperiod_aligned (df_returns df_binary : DataFrame F)
    (len_period len_test : Z) periods_ret periods_bin (p : DataFrame F) :
  aligned df_returns →
  split_Tperiod df_returns df_binary len_period len_test
    = Ok (periods_ret, periods_bin) →
  p ∈ periods_ret → aligned p.
Proof.
  intros Hwf. unfold split_Tperiod.
  intros (starts & _ & H)%result_bind_Ok.
  apply result_bind_Ok in H as (starts' & _ & [= <- _]).
  intros (i & -> & _)%list_elem_of_fmap. by apply aligned_row_slice.
Qed.

(** C7. Whenever [all_data_LSTM] succeeds, the training prefix
    [T1_input[:len_train]] and the test suffix [T1_input[len_train:]]
    of the selected study period are each standardised with the
    statistics fit on that very segment: the sequences of [X_test]
    are cut from the test suffix transformed with [fit] of the test
    suffix, not with the statistics of the training prefix. *)
Theorem all_data_LSTM_scaling (df_returns df_binary : DataFrame F)
    (period len_train : Z) X_train y_train X_test y_test :
  aligned df_returns →
  all_data_LSTM df_returns df_binary period len_train
    = Ok (X_train, y_train, X_test, y_test) →
  ∃ periods_returns periods_binary T1_input T1_target,
    split_Tperiod df_returns df_binary 1308 327
      = Ok (periods_returns, periods_binary) ∧
    Py.index periods_returns period = Ok T1_input ∧
    Py.index periods_binary period = Ok T1_target ∧
    let train := row_slice_to T1_input len_train in
    let test := row_slice_from T1_input len_train in
    index train ++ index test = index T1_input ∧
    ∃ X_train2 X_test2,
      get_train_set
        (with_values train (transform (fit (values train)) (values train)))
        (row_slice_to T1_target len_train) = Ok (X_train2, y_train) ∧
      get_train_set
        (with_values test (transform (fit (values test)) (values test)))
        (row_slice_from T1_target len_train) = Ok (X_test2, y_test) ∧
      X_train = add_channel X_train2 ∧
      X_test = add_channel X_test2.
Proof.
  intros Hwf H. unfold all_data_LSTM in H.
  apply result_bind_Ok in H as ([prs pbs] & Hsplit & H).
  apply result_bind_Ok in H as (T0 & Hin & H).
  apply result_bind_Ok in H as (B0 & Htg & H).
  apply result_bind_Ok in H as ([sc1 arr1] & Hfit1 & H).
  apply result_bind_Ok in H as (T1 & Hset1 & H).
  apply result_bind_Ok in H as ([sc2 arr2] & Hfit2 & H).
  apply result_bind_Ok in H as (T2 & Hset2 & H).
  apply result_bind_Ok in H as ([Xtr ytr] & Htrain & H).
  apply result_bind_Ok in H as ([Xte yte] & Htest & H).
  injection H as <- <- <- <-.
  assert (aligned T0) as HwT0.
  { eapply split_Tperiod_aligned; [done..|]. by eapply Py.index_elem_of. }
  destruct (set_rows_to_spec _ _ _ _ HwT0 Hset1) as (HwT1 & Hpre & Hsuf).
  pose proof (set_rows_from_spec _ _ _ _ HwT1 Hset2) as Hsuf2.
  apply fit_transform_Ok in Hfit1 as [_ ->].
  rewrite Hsuf in Hfit2. apply fit_transform_Ok in Hfit2 as [_ ->].
  rewrite Hpre in Htrain. rewrite Hsuf2, Hsuf in Htest.
  exists prs, pbs, T0, B0. repeat (split; [done|]).
  split; [by apply Py.slice_split|].
  by exists Xtr, Xte.
Qed.

Lemma get_sequences_windows (returns targets : list F) (n_steps : Z) X y :
  (0 ≤ n_steps)%Z →
  get_sequences returns targets n_steps = Ok (X, y) →
  Forall (λ w, length w = Z.to_nat n_steps) X.
Proof.
  intros Hn. unfold get_sequences.
  intros (y' & _ & [= <- _])%result_bind_Ok.
  apply Forall_fmap, Forall_forall. intros i Hi. simpl.
  unfold Py.range in Hi. apply list_elem_of_lookup in Hi as [j Hj].
  apply lookup_seqZ in Hj as [-> Hj].
  rewrite Py.slice_inside by lia. rewrite length_take, length_drop. lia.
Qed.

(** The array [X] of [get_train_set] has a row, and 240 cells a row. *)
Lemma get_train_set_rows (df_returns1 df_binary1 : DataFrame F) X y :
  get_train_set df_returns1 df_binary1 = Ok (X, y) →
  X ≠ [] ∧ Forall (λ w, length w = 240) X.
Proof.
  unfold get_train_set.
  intros (seqs & Hseqs & H)%result_bind_Ok.
  apply result_bind_Ok in H as (sh3 & Hsh3 & H).
  apply result_bind_Ok in H as (sh2 & _ & [= <- _]).
  split.
  - unfold np_shape3 in Hsh3. destruct (seqs.*1) as [|[|w r] rest]; done.
  - apply Forall_concat, Forall_fmap, Forall_forall.
    intros [Xc yc] Hin. simpl.
    apply mapM_result_Forall2 in Hseqs.
    apply list_elem_of_lookup in Hin as [i Hi].
    destruct (Forall2_lookup_r _ _ _ _ _ Hseqs Hi) as (comp & _ & Hc).
    apply result_bind_Ok in Hc as (r & _ & Hc).
    apply result_bind_Ok in Hc as (b & _ & Hc).
    by apply get_sequences_windows in Hc.
Qed.

Lemma chunks_concat {A} (k : nat) (rows : list (list A)) :
  Forall (λ r, length r = k) rows →
  chunks (length rows) k (concat rows) = rows.
Proof.
  induction 1 as [|r rows Hr _ IH]; simpl; [done|].
  rewrite take_app_length', drop_app_length' by done. by rewrite IH.
Qed.

Lemma concat_concat {A} (X : list (list (list A))) :
  concat (concat X) = concat ((λ r, concat r) <$> X).
Proof.
  induction X as [|r X IH]; simpl; [done|]. by rewrite concat_app, IH.
Qed.

(** The cells of one sequence at the indices [m], all within it. *)
Lemma select_cells (flat : list F) (m : list nat) :
  Forall (λ j, j < length flat) m →
  ∃ r, mapM (Py.index ((λ x : F, [x]) <$> flat)) (Z.of_nat <$> m)
         = Ok ((λ x : F, [x]) <$> r) ∧
       Forall2 (λ (j : nat) (x : F), flat !! j = Some x) m r.
Proof.
  induction 1 as [|j m Hj _ (r & Hr & HF)].
  - by exists [].
  - destruct (lookup_lt_is_Some_2 flat j Hj) as [x Hx].
    exists (x :: r). split; [|by constructor].
    apply mapM_result_Forall2 in Hr. apply mapM_result_Forall2.
    rewrite !fmap_cons. constructor; [|done].
    rewrite Py.index_inside by lia.
    by rewrite Nat2Z.id, list_lookup_fmap, Hx.
Qed.

(** [X[:, m, :]] and the reshape to [k] features, for an array with
    a channel axis whose sequences hold the indices [m]. *)
Lemma subsample_rows (X2 : list (list F)) (m : list nat) (n : nat) :
  Forall (λ w, length w = n) X2 →
  Forall (λ j, j < n) m →
  ∃ X1 X', take_along_axis1 (add_channel X2) (Z.of_nat <$> m) = Ok X1 ∧
        reshape_rows X1 (length m) = Ok X' ∧
        Forall2 (λ (s : list (list F)) (r : list F),
                   length r = length m ∧
                   Forall2 (λ (j : nat) (x : F), s !! j = Some [x]) m r)
                (add_channel X2) X'.
Proof.
  intros Hlen Hm.
  destruct (Forall_exists_Forall2
    (λ (flat r : list F), Forall2 (λ (j : nat) (x : F), flat !! j = Some x) m r ∧
       mapM (Py.index ((λ x : F, [x]) <$> flat)) (Z.of_nat <$> m)
         = Ok ((λ x : F, [x]) <$> r)) X2) as [X' HX'].
  { eapply Forall_impl; [exact Hlen|]. intros flat Hflat. simpl in Hflat.
    destruct (select_cells flat m) as (r & Hr & HF); [by rewrite Hflat|].
    by exists r. }
  exists (add_channel X'), X'.
  assert (Forall (λ r : list F, length r = length m) X') as HlenX'.
  { apply Forall_forall. intros r [i Hi]%list_elem_of_lookup.
    destruct (Forall2_lookup_r _ _ _ _ _ HX' Hi) as (flat & _ & HF & _).
    symmetry. by eapply Forall2_length. }
  split; [|split].
  - unfold take_along_axis1. apply mapM_result_Forall2.
    unfold add_channel. apply Forall2_fmap.
    eapply Forall2_impl; [exact HX'|]. by intros flat r [_ Hr].
  - unfold reshape_rows.
    assert (concat (concat (add_channel X')) = concat X') as ->.
    { rewrite concat_concat. f_equal. unfold add_channel.
      rewrite <- list_fmap_compose. rewrite <- (list_fmap_id X') at 2.
      apply list_fmap_ext. intros _ r _. simpl.
      induction r as [|x r IH]; simpl; by f_equal. }
    assert (length (add_channel X') = length X') as ->
      by apply length_fmap.
    rewrite decide_True.
    + by rewrite chunks_concat.
    + clear HX'. induction HlenX' as [|r X'' Hr _ IH]; simpl; [done|].
      rewrite length_app, IH, Hr. lia.
  - unfold add_channel. apply Forall2_fmap_l.
    eapply Forall2_impl; [exact HX'|]. intros flat r [HF _]. simpl.
    split; [symmetry; by eapply Forall2_length|].
    eapply Forall2_impl; [exact HF|]. intros j x Hjx. simpl.
    by rewrite list_lookup_fmap, Hjx.
Qed.

(** The arrays of [all_data_LSTM] are those of [get_train_set] with a
    channel axis. *)
Lemma all_data_LSTM_arrays (df_returns df_binary : DataFrame F)
    (period len_train : Z) X_train y_train X_test y_test :
  all_data_LSTM df_returns df_binary period len_train
    = Ok (X_train, y_train, X_test, y_test) →
  ∃ train target_train test target_test X_train2 X_test2,
    get_train_set train target_train = Ok (X_train2, y_train) ∧
    get_train_set test target_test = Ok (X_test2, y_test) ∧
    X_train = add_channel X_train2 ∧ X_test = add_channel X_test2.
Proof.
  intros H. unfold all_data_LSTM in H.
  apply result_bind_Ok in H as ([prs pbs] & _ & H).
  apply result_bind_Ok in H as (T0 & _ & H).
  apply result_bind_Ok in H as (B0 & _ & H).
  apply result_bind_Ok in H as ([sc1 arr1] & _ & H).
  apply result_bind_Ok in H as (T1 & _ & H).
  apply result_bind_Ok in H as ([sc2 arr2] & _ & H).
  apply result_bind_Ok in H as (T2 & _ & H).
  apply result_bind_Ok in H as ([Xtr ytr] & Htrain & H).
  apply result_bind_Ok in H as ([Xte yte] & Htest & H).
  injection H as <- <- <- <-. by eexists _, _, _, _, _, _.
Qed.

(** C8. Whenever the call [all_data_LSTM(df_returns, df_binary,
    period)] that [all_data_DNN] makes succeeds, [all_data_DNN]
    succeeds with the same targets, and every row of its [X_train]
    and [X_test] has exactly 31 features, however many companies the
    tables hold: the cells of the corresponding 240-step sequence at
    the time indices 0, 20, ..., 220 followed by 221, ..., 239. *)
Theorem all_data_DNN_features (df_returns df_binary : DataFrame F)
    (period len_train : Z) X_train y_train X_test y_test :
  all_data_LSTM df_returns df_binary period 981
    = Ok (X_train, y_train, X_test, y_test) →
  ∃ X_train' X_test',
    all_data_DNN df_returns df_binary period len_train
      = Ok (X_train', y_train, X_test', y_test) ∧
    Forall (λ s, length s = 240) X_train ∧
    Forall (λ s, length s = 240) X_test ∧
    subsampled X_train X_train' ∧
    subsampled X_test X_test'.
Proof.
  intros H. unfold all_data_DNN. rewrite H. simpl.
  apply all_data_LSTM_arrays in H
    as (? & ? & ? & ? & Xtr & Xte & Htrain & Htest & -> & ->).
  apply get_train_set_rows in Htrain as [Hne1 Hl1].
  apply get_train_set_rows in Htest as [Hne2 Hl2].
  assert (shape1 (add_channel Xtr) = 240) as ->.
  { destruct Xtr as [|w Xtr]; [done|]. simpl. rewrite length_fmap.
    by apply Forall_cons in Hl1 as [-> _]. }
  assert (Forall (λ j, j < 240) dnn_time_indices) as Hidx.
  { compute_done. }
  destruct (subsample_rows Xtr dnn_time_indices 240 Hl1 Hidx)
    as (X1 & X1' & Hsel1 & Hre1 & HF1).
  destruct (subsample_rows Xte dnn_time_indices 240 Hl2 Hidx)
    as (X3 & X3' & Hsel2 & Hre2 & HF2).
  change (length dnn_time_indices) with 31 in Hre1, Hre2, HF1, HF2.
  replace (_ ++ Py.range2 221 (Z.of_nat 240)) with (Z.of_nat <$> dnn_time_indices)
    by (by vm_compute).
  rewrite Hsel1. cbn [mbind result_bind]. rewrite Hre1. cbn [mbind result_bind].
  rewrite Hsel2. cbn [mbind result_bind]. rewrite Hre2. cbn [mbind result_bind].
  exists X1', X3'. split; [done|].
  split; [|split]; [| |done].
  - unfold add_channel. apply Forall_fmap. eapply Forall_impl; [exact Hl1|].
    intros w Hw. simpl. by rewrite length_fmap.
  - unfold add_channel. apply Forall_fmap. eapply Forall_impl; [exact Hl2|].
    intros w Hw. simpl. by rewrite length_fmap.
Qed.

(** C1. For equal-length series and a positive [n_steps],
    [get_sequences] returns (it does not raise) lists [X] and [y] of
    the same length [len(returns) - n_steps], which is zero when
    [len(returns) <= n_steps]; [X[i]] is the contiguous slice
    [returns[i : i + n_steps]] and [y[i]] is [targets[i + n_steps]],
    in temporal order. *)
Theorem get_sequences_spec (returns targets : list F) (n_steps : Z) :
  length returns = length targets →
  (0 < n_steps)%Z →
  ∃ X y,
    get_sequences returns targets n_steps = Ok (X, y) ∧
    length X = length returns - Z.to_nat n_steps ∧
    length y = length returns - Z.to_nat n_steps ∧
    ((Z.of_nat (length returns) ≤ n_steps)%Z → X = [] ∧ y = []) ∧
    ∀ i : nat, i < length returns - Z.to_nat n_steps →
      X !! i = Some (take (Z.to_nat n_steps) (drop i returns)) ∧
      length (take (Z.to_nat n_steps) (drop i returns)) = Z.to_nat n_steps ∧
      (∃ t, y !! i = Some t ∧ targets !! (i + Z.to_nat n_steps) = Some t).
Proof.
  intros Hlen Hn. unfold get_sequences.
  set (n := length returns) in *. rewrite <- Hlen.
  destruct (mapM_result_total
              (λ i : Z, Py.index targets (i + n_steps))
              (Py.range (Z.of_nat n - n_steps))) as [y Hy].
  { apply Forall_forall. intros i Hi. unfold Py.range in Hi.
    apply list_elem_of_lookup in Hi as [j Hj].
    apply lookup_seqZ in Hj as [-> Hj].
    rewrite Py.index_inside by lia.
    destruct (lookup_lt_is_Some_2 targets (Z.to_nat (0 + Z.of_nat j + n_steps)))
      as [t Ht]; [lia|].
    rewrite Ht. by eexists. }
  exists ((λ i : Z, Py.slice returns i (i + n_steps)) <$>
            Py.range (Z.of_nat n - n_steps)), y.
  rewrite Hy. split; [done|].
  pose proof (mapM_result_length _ _ _ Hy) as Hly.
  rewrite Py.range_length in Hly.
  rewrite length_fmap, Py.range_length.
  split; [lia|]. split; [lia|]. split.
  { intros Hle. split.
    - unfold Py.range. by rewrite seqZ_nil by lia.
    - apply nil_length_inv. lia. }
  intros i Hi. split; [|split].
  - rewrite list_lookup_fmap, Py.range_lookup by lia. simpl.
    rewrite Py.slice_inside by (fold n; lia).
    rewrite Nat2Z.id. do 2 f_equal. lia.
  - rewrite length_take, length_drop. fold n. lia.
  - destruct (mapM_result_lookup _ _ _ i (Z.of_nat i) Hy) as (t & Ht & Hidx).
    { apply Py.range_lookup. lia. }
    exists t. split; [done|].
    rewrite Py.index_inside in Hidx by lia.
    replace (Z.to_nat (Z.of_nat i + n_steps)) with (i + Z.to_nat n_steps) in Hidx by lia.
    destruct (targets !! (i + Z.to_nat n_steps)); simpl in Hidx; congruence.
Qed.
(** *** More on get_sequences and split_Tperiod *)

(** The lists of [get_sequences] in closed form: the windows of
    [returns], and [targets[n_steps:]]. *)
Lemma get_sequences_closed (returns targets : list F) (n_steps : Z) :
  (0 ≤ n_steps)%Z →
  get_sequences returns targets n_steps =
    Ok ((λ i : nat, take (Z.to_nat n_steps) (drop i returns)) <$>
          seq 0 (length returns - Z.to_nat n_steps),
        drop (Z.to_nat n_steps) targets).
Proof.
  intros Hn. unfold get_sequences.
  assert (mapM (λ i : Z, Py.index targets (i + n_steps))
               (Py.range (Z.of_nat (length targets) - n_steps))
          = Ok (drop (Z.to_nat n_steps) targets)) as ->.
  { apply mapM_result_Forall2. unfold Py.range.
    apply Forall2_same_length_lookup_2.
    - rewrite length_seqZ, length_drop. lia.
    - intros i z t [-> Hz]%lookup_seqZ Ht. rewrite lookup_drop in Ht.
      rewrite Py.index_inside by lia.
      replace (Z.to_nat (0 + Z.of_nat i + n_steps)) with (Z.to_nat n_steps + i) by lia.
      by rewrite Ht. }
  cbn [mbind result_bind]. do 2 f_equal.
  unfold Py.range, seqZ. rewrite <- list_fmap_compose.
  replace (Z.to_nat (Z.of_nat (length returns) - n_steps))
    with (length returns - Z.to_nat n_steps) by lia.
  apply list_fmap_ext. intros j i [-> Hi]%lookup_seq. simpl.
  rewrite Py.slice_inside by lia. f_equal; [lia|f_equal; lia].
Qed.

(** X10. [get_sequences] does not compare the lengths of its two
    series and, for [n_steps >= 0], never raises: [X] holds the
    [len(returns) - n_steps] windows of [returns], each of [n_steps]
    cells, and [y] is [targets[n_steps:]], so that [y] has another
    length than [X] when the series have. *)
Theorem get_sequences_unequal (returns targets : list F) (n_steps : Z) :
  (0 ≤ n_steps)%Z →
  ∃ X,
    get_sequences returns targets n_steps
      = Ok (X, drop (Z.to_nat n_steps) targets) ∧
    length X = length returns - Z.to_nat n_steps ∧
    Forall (λ w, length w = Z.to_nat n_steps) X ∧
    (length X = length (drop (Z.to_nat n_steps) targets) ↔
     length returns - Z.to_nat n_steps = length targets - Z.to_nat n_steps).
Proof.
  intros Hn. eexists. split; [by apply get_sequences_closed|].
  rewrite length_fmap, length_seq, length_drop. split; [done|]. split; [|done].
  apply Forall_fmap, Forall_forall. intros i [j [-> Hj]%lookup_seq]%list_elem_of_lookup.
  simpl. rewrite length_take, length_drop. lia.
Qed.

(** X11. The windows slide by one step: the window after a window is
    that window without its first cell, followed by the next return. *)
Theorem get_sequences_sliding (returns targets : list F) (n_steps : Z)
    (X : list (list F)) (y : list F) (i : nat) (a b : list F) :
  (0 < n_steps)%Z →
  get_sequences returns targets n_steps = Ok (X, y) →
  X !! i = Some a → X !! (S i) = Some b →
  ∃ x, returns !! (i + Z.to_nat n_steps) = Some x ∧ b = drop 1 a ++ [x].
Proof.
  intros Hn Hrun. rewrite get_sequences_closed in Hrun by lia.
  injection Hrun as <- _. rewrite !list_lookup_fmap.
  intros Ha Hb.
  destruct (seq 0 _ !! i) as [i'|] eqn:Hi; [|done].
  destruct (seq 0 _ !! S i) as [j'|] eqn:Hj; [|done].
  apply lookup_seq in Hi as [-> _]. apply lookup_seq in Hj as [-> Hj].
  simpl in Ha, Hb. injection Ha as <-. injection Hb as <-.
  destruct (Z.to_nat n_steps) as [|n'] eqn:En; [lia|].
  destruct (lookup_lt_is_Some_2 returns (i + S n')) as [x Hx]; [lia|].
  exists x. split; [done|].
  assert (drop (S i) returns !! n' = Some x) as Hx'.
  { rewrite lookup_drop. rewrite <- Hx. f_equal. lia. }
  rewrite (take_S_r _ _ _ Hx'). f_equal.
  replace (S i) with (i + 1) by lia. rewrite <- (drop_drop returns 1 i).
  by rewrite take_drop_commute.
Qed.

(** X12. [split_Tperiod] does not compare the lengths of its two
    tables: with a positive step it never raises, the number of
    periods is decided by [df_returns] alone, and a period of a
    shorter [df_binary] is cut short, down to no rows, where that table
    ends. *)
Theorem split_Tperiod_unequal (df_returns df_binary : DataFrame F)
    (len_period len_test : Z) :
  (0 < len_period)%Z → (0 < len_test)%Z →
  ∃ periods_ret periods_bin,
    split_Tperiod df_returns df_binary len_period len_test
      = Ok (periods_ret, periods_bin) ∧
    length periods_bin = length periods_ret ∧
    (∀ k : nat,
       k < length periods_ret ↔
       (Z.of_nat k * len_test ≤ Z.of_nat (len df_returns) - len_period)%Z) ∧
    ∀ (k : nat) (p : DataFrame F),
      periods_bin !! k = Some p →
      len p = Z.to_nat len_period `min` (len df_binary - k * Z.to_nat len_test).
Proof.
  intros Hp Ht. unfold split_Tperiod. rewrite Py.range3_up by done. simpl.
  eexists _, _. split; [done|]. rewrite !length_fmap, length_seqZ.
  split; [done|]. split.
  - intros k. rewrite <- (Py.range3_count _ _ k Ht). lia.
  - intros k p. rewrite !list_lookup_fmap.
    destruct (seqZ 0 _ !! k) as [z|] eqn:Hz; [|done].
    apply lookup_seqZ in Hz as [-> _]. simpl. intros [= <-].
    unfold len; simpl. rewrite Py.slice_length.
    rewrite !Py.slice_bound_nonneg by lia. nia.
Qed.

(** *** More on get_train_set *)

Lemma lookup_concat_uniform {A} (k : nat) (ls : list (list A)) (j i : nat)
    (l : list A) :
  Forall (λ l, length l = k) ls → ls !! j = Some l → i < k →
  concat ls !! (j * k + i) = l !! i.
Proof.
  intros Hls. revert j. induction Hls as [|l0 ls Hl0 _ IH]; intros j; [done|].
  destruct j as [|j]; simpl.
  - intros [= ->] Hi. by rewrite lookup_app_l by lia.
  - intros Hj Hi. rewrite lookup_app_r by lia. rewrite <- (IH j Hj Hi).
    f_equal. lia.
Qed.

Lemma length_concat_uniform {A} (k : nat) (ls : list (list A)) :
  Forall (λ l, length l = k) ls → length (concat ls) = length ls * k.
Proof.
  induction 1 as [|l ls Hl _ IH]; simpl; [done|].
  rewrite length_app, IH, Hl. lia.
Qed.

(** The sequences of one company, as [get_train_set] collects them. *)
Definition company_sequences (df_returns1 df_binary1 : DataFrame F)
    (comp : string) : result (list (list F) * list F) :=
  let! r := getitem df_returns1 comp in
  let! b := getitem df_binary1 comp in
  get_sequences r b 240.

(** The windows of 240 cells of a column. *)
Definition windows (v : list F) : list (list F) :=
  (λ i : nat, take 240 (drop i v)) <$> seq 0 (length v - 240).

Lemma company_sequences_Ok (df_returns1 df_binary1 : DataFrame F)
    (comp : string) (v b : list F) :
  assoc comp (data df_returns1) = Some v →
  assoc comp (data df_binary1) = Some b →
  company_sequences df_returns1 df_binary1 comp = Ok (windows v, drop 240 b).
Proof.
  intros Hv Hb. unfold company_sequences, getitem. rewrite Hv, Hb.
  cbn [mbind result_bind]. by rewrite get_sequences_closed.
Qed.

Lemma mapM_result_raise {A B} (f : A → result B) (l : list A) (e : exn) :
  Forall (λ x, is_Ok (f x) = true ∨ f x = Raise e) l →
  Exists (λ x, f x = Raise e) l →
  mapM f l = Raise e.
Proof.
  induction 1 as [|x l Hx _ IH]; [by intros ?%Exists_nil|].
  intros Hex. cbn [mapM]. destruct (f x) as [y|e'] eqn:Hfx.
  - apply Exists_cons in Hex as [?|Hex]; [congruence|].
    cbn [mbind result_bind]. by rewrite (IH Hex).
  - by destruct Hx as [?|[= ->]].
Qed.

(** What [get_train_set] collects, company by company, when every label
    of the returns is a label of the targets. *)
Lemma get_train_set_seqs (df_returns1 df_binary1 : DataFrame F) :
  NoDup (columns df_returns1) →
  columns df_returns1 ⊆ columns df_binary1 →
  ∃ seqs,
    mapM (company_sequences df_returns1 df_binary1) (columns df_returns1)
      = Ok seqs ∧
    Forall2 (λ (c : string * list F) (s : list (list F) * list F),
               ∃ b, assoc c.1 (data df_binary1) = Some b ∧
                    s = (windows c.2, drop 240 b))
            (data df_returns1) seqs.
Proof.
  intros Hnd Hsub.
  destruct (Forall_exists_Forall2
    (λ (c : string * list F) (s : list (list F) * list F),
       ∃ b, assoc c.1 (data df_binary1) = Some b ∧ s = (windows c.2, drop 240 b))
    (data df_returns1)) as [seqs Hseqs].
  { apply Forall_forall. intros [c v] Hin. simpl.
    destruct (assoc_is_Some c (data df_binary1)) as [b Hb].
    - apply Hsub. apply list_elem_of_fmap. by exists (c, v).
    - by exists (windows v, drop 240 b), b. }
  exists seqs. split; [|done].
  apply mapM_result_Forall2. unfold columns. apply Forall2_fmap_l.
  apply Forall2_same_length_lookup_2; [by eapply Forall2_length|].
  intros j [c v] s Hc Hs.
  destruct (Forall2_lookup_lr _ _ _ _ _ _ Hseqs Hc Hs) as (b & Hb & ->).
  simpl in *. apply company_sequences_Ok; [|done].
  apply assoc_NoDup; [done|]. by eapply list_elem_of_lookup_2.
Qed.

(** The arrays of [get_train_set] in closed form. *)
Lemma get_train_set_closed (df_returns1 df_binary1 : DataFrame F) :
  wf df_returns1 → aligned df_binary1 →
  len df_binary1 = len df_returns1 →
  240 < len df_returns1 → data df_returns1 ≠ [] →
  columns df_returns1 ⊆ columns df_binary1 →
  ∃ X y,
    get_train_set df_returns1 df_binary1 = Ok (X, y) ∧
    length X = length (data df_returns1) * (len df_returns1 - 240) ∧
    length y = length (data df_returns1) * (len df_returns1 - 240) ∧
    ∀ (j : nat) (c : string) (v b : list F) (i : nat),
      data df_returns1 !! j = Some (c, v) →
      assoc c (data df_binary1) = Some b →
      i < len df_returns1 - 240 →
      X !! (j * (len df_returns1 - 240) + i) = Some (take 240 (drop i v)) ∧
      y !! (j * (len df_returns1 - 240) + i) = b !! (i + 240).
Proof.
  intros [Hal Hnd] Halb Hlen Hrows Hne Hsub.
  set (n := len df_returns1 - 240).
  destruct (get_train_set_seqs df_returns1 df_binary1 Hnd Hsub)
    as (seqs & Hmap & Hseqs).
  assert (Forall (λ l : list (list F), length l = n) seqs.*1) as HX.
  { apply Forall_fmap, Forall_forall. intros s [j Hs]%list_elem_of_lookup.
    destruct (Forall2_lookup_r _ _ _ _ _ Hseqs Hs) as ([c v] & Hc & b & _ & ->).
    simpl. unfold windows. rewrite length_fmap, length_seq.
    apply list_elem_of_lookup_2 in Hc.
    pose proof (proj1 (Forall_forall _ _) Hal _ Hc) as Hl. simpl in Hl.
    unfold n. by rewrite Hl. }
  assert (Forall (λ l : list F, length l = n) seqs.*2) as Hy.
  { apply Forall_fmap, Forall_forall. intros s [j Hs]%list_elem_of_lookup.
    destruct (Forall2_lookup_r _ _ _ _ _ Hseqs Hs) as ([c v] & Hc & b & Hb & ->).
    simpl in *. rewrite length_drop. apply assoc_elem_of in Hb.
    pose proof (proj1 (Forall_forall _ _) Halb _ Hb) as Hl. simpl in Hl.
    unfold n. by rewrite Hl, Hlen. }
  assert (length seqs = length (data df_returns1)) as Hcount
    by (symmetry; by eapply Forall2_length).
  exists (concat seqs.*1), (concat seqs.*2). split; [|split; [|split]].
  - unfold get_train_set. fold (company_sequences df_returns1 df_binary1).
    rewrite Hmap. cbn [mbind result_bind].
    destruct seqs as [|[X0 y0] seqs'].
    { destruct (data df_returns1); [done|]. by inversion Hseqs. }
    apply Forall_cons in HX as [HX0 _]. cbn [fmap list_fmap fst] in *.
    destruct X0 as [|w X0]; [simpl in HX0; lia|]. done.
  - rewrite (length_concat_uniform n) by done. by rewrite length_fmap, Hcount.
  - rewrite (length_concat_uniform n) by done. by rewrite length_fmap, Hcount.
  - intros j c v b i Hc Hb Hi.
    destruct (Forall2_lookup_l _ _ _ _ _ Hseqs Hc) as (s & Hs & b' & Hb' & ->).
    simpl in Hb'. assert (b' = b) as -> by congruence.
    split.
    + rewrite (lookup_concat_uniform n _ j i (windows v)); [|done| |done].
      * unfold windows. rewrite list_lookup_fmap, lookup_seq_lt; [done|].
        apply list_elem_of_lookup_2 in Hc.
        pose proof (proj1 (Forall_forall _ _) Hal _ Hc) as Hl. simpl in Hl.
        rewrite Hl. exact Hi.
      * rewrite list_lookup_fmap, Hs. done.
    + rewrite (lookup_concat_uniform n _ j i (drop 240 b)); [|done| |done].
      * rewrite lookup_drop. f_equal. lia.
      * rewrite list_lookup_fmap, Hs. done.
Qed.

(** X13. [get_train_set] stacks the companies one after the other, not
    interleaved. For a table of more than 240 rows and at least one
    company, whose labels are all in the table of targets (of the same
    length), each company gives [len - 240] sequences; the sequence
    [i] of the company at column position [j] is row
    [j * (len - 240) + i] of [X], and holds the returns [i] to
    [i + 239] of that company; the same row of [y] is the company's
    target of day [i + 240]. *)
Theorem get_train_set_company_major (df_returns1 df_binary1 : DataFrame F) :
  wf df_returns1 → wf df_binary1 →
  len df_binary1 = len df_returns1 →
  240 < len df_returns1 → data df_returns1 ≠ [] →
  columns df_returns1 ⊆ columns df_binary1 →
  ∃ X y,
    get_train_set df_returns1 df_binary1 = Ok (X, y) ∧
    length X = length (data df_returns1) * (len df_returns1 - 240) ∧
    length y = length (data df_returns1) * (len df_returns1 - 240) ∧
    ∀ (j : nat) (c : string) (v b : list F) (i : nat),
      data df_returns1 !! j = Some (c, v) →
      assoc c (data df_binary1) = Some b →
      i < len df_returns1 - 240 →
      X !! (j * (len df_returns1 - 240) + i) = Some (take 240 (drop i v)) ∧
      y !! (j * (len df_returns1 - 240) + i) = b !! (i + 240).
Proof. intros Hwf [Halb _]. by apply get_train_set_closed. Qed.

(** X14. A table of returns of 240 rows or fewer gives no sequence, and
    [get_train_set] does not return empty arrays for it: reading the
    shape of the stacked sequences raises [IndexError]. So does a table
    without a column. *)
Theorem get_train_set_too_short (df_returns1 df_binary1 : DataFrame F) :
  wf df_returns1 → wf df_binary1 →
  columns df_returns1 ⊆ columns df_binary1 →
  len df_returns1 ≤ 240 ∨ data df_returns1 = [] →
  get_train_set df_returns1 df_binary1 = Raise IndexError.
Proof.
  intros [Hal Hnd] _ Hsub Hshort.
  destruct (get_train_set_seqs df_returns1 df_binary1 Hnd Hsub)
    as (seqs & Hmap & Hseqs).
  unfold get_train_set. fold (company_sequences df_returns1 df_binary1).
  rewrite Hmap. cbn [mbind result_bind].
  unfold aligned in Hal.
  destruct Hseqs as [|[c v] [X0 y0] D seqs' (b & _ & [= -> ->]) _]; [done|].
  destruct Hshort as [Hshort|?]; [|done].
  apply Forall_cons in Hal as [Hv _]. simpl in Hv.
  rewrite fmap_cons. cbn [fst]. unfold windows.
  replace (length v - 240) with 0 by lia. done.
Qed.

(** X15. A company of the returns that the table of targets does not
    hold stops [get_train_set] with [KeyError], whatever the other
    companies are. *)
Theorem get_train_set_missing_label (df_returns1 df_binary1 : DataFrame F)
    (c : string) :
  wf df_returns1 → wf df_binary1 →
  c ∈ columns df_returns1 → c ∉ columns df_binary1 →
  get_train_set df_returns1 df_binary1 = Raise KeyError.
Proof.
  intros [_ Hnd] _ Hin Hnin.
  unfold get_train_set. fold (company_sequences df_returns1 df_binary1).
  rewrite (mapM_result_raise _ _ KeyError); [done| |].
  - apply Forall_forall. intros c' Hc'. unfold company_sequences, getitem.
    destruct (assoc_is_Some c' (data df_returns1) Hc') as [v ->].
    cbn [mbind result_bind].
    destruct (assoc c' (data df_binary1)) as [b|]; [|by right].
    left. cbn [mbind result_bind]. by rewrite get_sequences_closed.
  - apply Exists_exists. exists c. split; [done|].
    unfold company_sequences, getitem.
    destruct (assoc_is_Some c (data df_returns1) Hin) as [v ->].
    cbn [mbind result_bind]. by rewrite (assoc_None _ _ Hnin).
Qed.

(** *** More on all_data_LSTM *)

(** The number of study periods of a table, and its period [k]. *)
Definition n_periods (df : DataFrame F) : nat :=
  Z.to_nat ((Z.of_nat (len df) - 1308 + 327) `div` 327).

Definition period_at (df : DataFrame F) (k : nat) : DataFrame F :=
  row_slice df (Z.of_nat k * 327) (1308 + Z.of_nat k * 327).

Lemma n_periods_spec (df : DataFrame F) (k : nat) :
  k < n_periods df ↔ 1308 + 327 * k ≤ len df.
Proof.
  unfold n_periods.
  pose proof (Py.range3_count (Z.of_nat (len df) - 1308) 327 k) as H.
  replace (Z.of_nat (len df) - 1308 + 1 - 0 + 327 - 1)%Z
    with (Z.of_nat (len df) - 1308 + 327)%Z in H by lia.
  lia.
Qed.

Lemma split_Tperiod_default (df_returns df_binary : DataFrame F) :
  split_Tperiod df_returns df_binary 1308 327 =
    Ok (period_at df_returns <$> seq 0 (n_periods df_returns),
        period_at df_binary <$> seq 0 (n_periods df_returns)).
Proof.
  unfold split_Tperiod. rewrite Py.range3_up by lia. cbn [mbind result_bind].
  unfold n_periods, seqZ.
  replace (Z.of_nat (len df_returns) - 1308 + 1 - 0 + 327 - 1)%Z
    with (Z.of_nat (len df_returns) - 1308 + 327)%Z by lia.
  rewrite <- !list_fmap_compose.
  assert (∀ df : DataFrame F,
            (λ i : Z, row_slice df i (1308 + i)) ∘ (λ k : Z, 0 + k * 327)%Z
              ∘ (λ i : nat, Z.of_nat i + 0)%Z <$>
              seq 0 (Z.to_nat ((Z.of_nat (len df_returns) - 1308 + 327) `div` 327))
            = period_at df <$>
              seq 0 (Z.to_nat ((Z.of_nat (len df_returns) - 1308 + 327) `div` 327)))
    as Heq.
  { intros df. apply list_fmap_ext. intros _ k _. unfold period_at. simpl.
    f_equal; lia. }
  by rewrite !Heq.
Qed.

Lemma index_outside {A} (l : list A) (i : Z) :
  (i < - Z.of_nat (length l) ∨ Z.of_nat (length l) ≤ i)%Z →
  Py.index l i = Raise IndexError.
Proof.
  intros Hi. unfold Py.index. destruct (Z.ltb_spec i 0).
  - replace (i + Z.of_nat (length l) <? 0)%Z with true by lia. done.
  - replace (i <? 0)%Z with false by lia.
    rewrite lookup_ge_None_2; [done|lia].
Qed.

Lemma index_negative {A} (l : list A) (i : Z) :
  (- Z.of_nat (length l) ≤ i < 0)%Z →
  Py.index l i = Py.index l (i + Z.of_nat (length l)).
Proof.
  intros Hi. unfold Py.index.
  destruct (Z.ltb_spec i 0); [|lia].
  destruct (Z.ltb_spec (i + Z.of_nat (length l)) 0); [lia|].
  destruct (Z.ltb_spec (i + Z.of_nat (length l)) 0); [lia|]. done.
Qed.

(** X16. [all_data_LSTM] does not check its [period]: a period that the
    table is too short for raises [IndexError]. Period [k >= 0] needs
    [1308 + 327 * k] rows of returns, and period [-k], counted from the
    last one, needs [1308 + 327 * (k - 1)]; a table of fewer than 1308
    rows has no period at all. *)
Theorem all_data_LSTM_no_such_period (df_returns df_binary : DataFrame F)
    (period len_train : Z) :
  (0 ≤ period ∧ Z.of_nat (len df_returns) < 1308 + 327 * period)%Z ∨
  (period < 0 ∧ Z.of_nat (len df_returns) < 1308 + 327 * (- period - 1))%Z →
  all_data_LSTM df_returns df_binary period len_train = Raise IndexError.
Proof.
  intros Hp. unfold all_data_LSTM. rewrite split_Tperiod_default.
  cbn [mbind result_bind].
  rewrite (index_outside (period_at df_returns <$> _)); [done|].
  rewrite length_fmap, length_seq.
  destruct Hp as [[Hp Hl]|[Hp Hl]].
  - right. pose proof (n_periods_spec df_returns (Z.to_nat period)). lia.
  - left. pose proof (n_periods_spec df_returns (Z.to_nat (- period - 1))). lia.
Qed.

(** X17. A negative [period] counts the study periods from the last
    one: where [k] is the last period the table has, the periods
    [-1], ..., [-(k + 1)] give what the periods [k], ..., [0] give. *)
Theorem all_data_LSTM_negative_period (df_returns df_binary : DataFrame F)
    (period len_train : Z) (k : nat) :
  1308 + 327 * k ≤ len df_returns < 1308 + 327 * (k + 1) →
  (- Z.of_nat (k + 1) ≤ period < 0)%Z →
  all_data_LSTM df_returns df_binary period len_train =
  all_data_LSTM df_returns df_binary (period + Z.of_nat (k + 1)) len_train.
Proof.
  intros Hk Hp. unfold all_data_LSTM. rewrite split_Tperiod_default.
  cbn [mbind result_bind].
  assert (n_periods df_returns = k + 1) as Hn.
  { pose proof (n_periods_spec df_returns k).
    pose proof (n_periods_spec df_returns (k + 1)). lia. }
  rewrite Hn.
  rewrite (index_negative (period_at df_returns <$> _))
    by (rewrite length_fmap, length_seq; lia).
  rewrite (index_negative (period_at df_binary <$> _))
    by (rewrite length_fmap, length_seq; lia).
  by rewrite !length_fmap, !length_seq.
Qed.

(** Slices as windows. *)
Lemma take_min_length {A} (n : nat) (l : list A) :
  take (n `min` length l) l = take n l.
Proof.
  destruct (decide (n ≤ length l)).
  - by replace (n `min` length l) with n by lia.
  - replace (n `min` length l) with (length l) by lia.
    by rewrite !take_ge by lia.
Qed.

Lemma take_drop_window {A} (a n b m : nat) (l : list A) :
  b + m ≤ n → take m (drop b (take n (drop a l))) = take m (drop (a + b) l).
Proof.
  intros Hb. rewrite (take_drop_commute (take n (drop a l))), take_take.
  replace ((b + m) `min` n) with (b + m) by lia.
  by rewrite <- take_drop_commute, drop_drop.
Qed.

Lemma row_slice_to_window (df : DataFrame F) (hi : Z) :
  (0 ≤ hi)%Z → row_slice_to df hi = window df 0 (Z.to_nat hi).
Proof.
  intros Hhi. unfold row_slice_to, window, Py.slice_to. f_equal.
  - rewrite Py.slice_bound_nonneg by done. by rewrite take_min_length.
  - apply list_fmap_ext. intros _ [c v] _. unfold prod_map; simpl. f_equal.
    rewrite Py.slice_bound_nonneg by done. by rewrite take_min_length.
Qed.

Lemma row_slice_from_window (df : DataFrame F) (lo : Z) :
  aligned df → (0 ≤ lo ≤ Z.of_nat (len df))%Z →
  row_slice_from df lo = window df (Z.to_nat lo) (len df - Z.to_nat lo).
Proof.
  intros Hal Hlo. unfold row_slice_from, window, Py.slice_from. f_equal.
  - rewrite Py.slice_bound_nonneg by lia. fold (len df).
    replace (Z.to_nat lo `min` len df) with (Z.to_nat lo) by lia.
    rewrite take_ge; [done|]. rewrite length_drop. unfold len. lia.
  - apply Forall_fmap_ext. eapply Forall_impl; [exact Hal|].
    intros [c v] Hv; simpl in *. unfold prod_map; simpl. f_equal.
    rewrite Py.slice_bound_nonneg, Hv by lia.
    replace (Z.to_nat lo `min` len df) with (Z.to_nat lo) by lia.
    rewrite take_ge; [done|]. rewrite length_drop. lia.
Qed.

Lemma window_window (df : DataFrame F) (a n b m : nat) :
  b + m ≤ n → window (window df a n) b m = window df (a + b) m.
Proof.
  intros Hb. unfold window; simpl. f_equal.
  - by apply take_drop_window.
  - rewrite <- list_fmap_compose. apply list_fmap_ext. intros _ [c v] _.
    unfold prod_map; simpl. f_equal. by apply take_drop_window.
Qed.

Lemma window_aligned (df : DataFrame F) (a n : nat) :
  aligned df → a + n ≤ len df → aligned (window df a n).
Proof.
  intros Hal Hn. unfold aligned. rewrite window_len by done. simpl.
  apply Forall_fmap. eapply Forall_impl; [exact Hal|].
  intros [c v] Hv; simpl in *. rewrite length_take, length_drop. lia.
Qed.

Lemma window_columns (df : DataFrame F) (a n : nat) :
  columns (window df a n) = columns df.
Proof.
  unfold columns; simpl. rewrite <- list_fmap_compose.
  apply list_fmap_ext. by intros _ [c v] _.
Qed.

Lemma window_values (df : DataFrame F) (a n : nat) :
  values (window df a n) = (λ v, take n (drop a v)) <$> values df.
Proof.
  unfold values; simpl. rewrite <- !list_fmap_compose.
  apply list_fmap_ext. by intros _ [c v] _.
Qed.

Lemma window_assoc (df : DataFrame F) (a n : nat) (c : string) :
  assoc c (data (window df a n)) = (λ v, take n (drop a v)) <$> assoc c (data df).
Proof. apply assoc_fmap. Qed.

(** [with_values] with an array of the shape of the table. *)
Lemma with_values_shape (R : DataFrame F) (arr : list (list F)) :
  Forall2 (λ u v : list F, length u = length v) arr (values R) →
  columns (with_values R arr) = columns R ∧
  (aligned R → aligned (with_values R arr)).
Proof.
  unfold values, columns, aligned, with_values, len; simpl.
  intros H%Forall2_fmap_r. generalize (length (index R)). intros n.
  induction H as [|u [c v] arr' D Hu _ IH]; [done|]. simpl in *.
  destruct IH as [IH1 IH2]. split; [by f_equal|].
  intros [Hv HD]%Forall_cons. constructor; [simpl in *; lia|by apply IH2].
Qed.

Lemma fit_transform_run (scaler : option stats) (X : DataFrame F) :
  len X ≠ 0 → data X ≠ [] →
  Forall (Forall (λ x, isinf x = false)) (values X) →
  fit_transform scaler X
    = Ok (Some (fit (values X)), transform (fit (values X)) (values X)).
Proof.
  intros Hlen Hdata Hfin. unfold fit_transform.
  rewrite !bool_decide_eq_false_2 by done. simpl.
  replace (existsb (existsb isinf) (values X)) with false; [done|].
  symmetry. apply not_true_is_false. intros (v & Hv & (x & Hx & Hinf)%existsb_exists)%existsb_exists.
  apply list_elem_of_In in Hv, Hx.
  pose proof (proj1 (Forall_forall _ _) Hfin _ Hv) as Hfv.
  pose proof (proj1 (Forall_forall _ _) Hfv _ Hx) as Hfx. simpl in Hfx. congruence.
Qed.

Lemma set_rows_to_run (df : DataFrame F) (hi : Z) (arr : list (list F)) :
  has_shape arr (Py.slice_bound (len df) hi) (length (data df)) →
  ∃ df', set_rows_to df hi arr = Ok df' ∧
         len df' = len df ∧ length (data df') = length (data df).
Proof.
  intros Hsh. unfold set_rows_to. rewrite decide_True by done.
  eexists. split; [done|]. split; [done|]. simpl.
  destruct Hsh as [Hl _]. rewrite length_zip_with. lia.
Qed.

Lemma set_rows_from_run (df : DataFrame F) (lo : Z) (arr : list (list F)) :
  has_shape arr (len df - Py.slice_bound (len df) lo) (length (data df)) →
  ∃ df', set_rows_from df lo arr = Ok df'.
Proof. intros Hsh. unfold set_rows_from. rewrite decide_True by done. eauto. Qed.

(** The scaler returns an array of the shape of the array it is fit on
    and given, as sklearn's does. *)
Definition shape_preserving : Prop :=
  ∀ X : list (list F),
    Forall2 (λ u v : list F, length u = length v) (transform (fit X) X) X.

Lemma scaled_shape (R : DataFrame F) :
  shape_preserving → aligned R →
  has_shape (transform (fit (values R)) (values R)) (len R) (length (data R)).
Proof.
  intros Hsh Hal. specialize (Hsh (values R)). split.
  - rewrite (Forall2_length _ _ _ Hsh). unfold values. by rewrite length_fmap.
  - apply Forall_forall. intros u [j Hu]%list_elem_of_lookup.
    destruct (Forall2_lookup_l _ _ _ _ _ Hsh Hu) as (v & Hv & ->).
    unfold values in Hv. rewrite list_lookup_fmap in Hv.
    destruct (data R !! j) as [[c v']|] eqn:Hc; [|done]. injection Hv as <-.
    apply list_elem_of_lookup_2 in Hc.
    exact (proj1 (Forall_forall _ _) Hal _ Hc).
Qed.

(** The sequences of one segment of a study period, scaled. *)
Lemma segment_train_set (R B : DataFrame F) :
  shape_preserving →
  wf R → aligned B → len B = len R → 240 < len R → data R ≠ [] →
  columns R ⊆ columns B →
  ∃ X y,
    get_train_set (with_values R (transform (fit (values R)) (values R))) B
      = Ok (X, y) ∧
    length X = length (data R) * (len R - 240) ∧
    length y = length (data R) * (len R - 240) ∧
    ∀ (j : nat) (c : string) (b : list F) (i : nat),
      columns R !! j = Some c → assoc c (data B) = Some b → i < len R - 240 →
      y !! (j * (len R - 240) + i) = b !! (i + 240).
Proof.
  intros Hsh [Hal Hnd] HalB Hlen Hrows Hne Hsub.
  set (arr := transform (fit (values R)) (values R)).
  destruct (with_values_shape R arr (Hsh _)) as [Hcols Hal'].
  assert (length (data (with_values R arr)) = length (data R)) as Hcount.
  { apply (f_equal length) in Hcols. unfold columns in Hcols.
    by rewrite !length_fmap in Hcols. }
  destruct (get_train_set_closed (with_values R arr) B)
    as (X & y & Hrun & HX & Hy & Hcells).
  - split; [by apply Hal'|by rewrite Hcols].
  - done.
  - done.
  - done.
  - intros Hnil. rewrite Hnil in Hcount. by destruct (data R).
  - by rewrite Hcols.
  - exists X, y. rewrite Hcount in HX, Hy.
    change (len (with_values R arr)) with (len R) in *.
    split; [done|]. split; [done|]. split; [done|].
    intros j c b i Hc Hb Hi. rewrite <- Hcols in Hc.
    unfold columns in Hc. rewrite list_lookup_fmap in Hc.
    destruct (data (with_values R arr) !! j) as [[c' v']|] eqn:Hj; [|done].
    injection Hc as ->.
    by destruct (Hcells j c v' b i Hj Hb Hi) as [_ ?].
Qed.

(** [all_data_LSTM] on a period the table holds, in closed form. *)
Lemma all_data_LSTM_closed (df_returns df_binary : DataFrame F)
    (period len_train : Z) :
  shape_preserving →
  wf df_returns → wf df_binary →
  len df_binary = len df_returns →
  data df_returns ≠ [] →
  columns df_returns ⊆ columns df_binary →
  Forall (Forall (λ x, isinf x = false)) (values df_returns) →
  (0 ≤ period)%Z →
  (1308 + 327 * period ≤ Z.of_nat (len df_returns))%Z →
  (240 < len_train < 1068)%Z →
  ∃ X_train y_train X_test y_test,
    all_data_LSTM df_returns df_binary period len_train
      = Ok (X_train, y_train, X_test, y_test) ∧
    length X_train = length (data df_returns) * (Z.to_nat len_train - 240) ∧
    length y_train = length (data df_returns) * (Z.to_nat len_train - 240) ∧
    length X_test = length (data df_returns) * (1068 - Z.to_nat len_train) ∧
    length y_test = length (data df_returns) * (1068 - Z.to_nat len_train) ∧
    ∀ (j : nat) (c : string) (b : list F) (i : nat),
      columns df_returns !! j = Some c →
      assoc c (data df_binary) = Some b →
      (i < Z.to_nat len_train - 240 →
       y_train !! (j * (Z.to_nat len_train - 240) + i)
         = b !! (327 * Z.to_nat period + i + 240)) ∧
      (i < 1068 - Z.to_nat len_train →
       y_test !! (j * (1068 - Z.to_nat len_train) + i)
         = b !! (327 * Z.to_nat period + Z.to_nat len_train + i + 240)).
Proof.
  intros Hsh [Hal Hnd] [Halb Hndb] Hlen Hne Hsub Hfin Hp Hrows Hlt.
  set (k := Z.to_nat period). set (lt := Z.to_nat len_train).
  assert (k < n_periods df_returns) as Hk by (apply n_periods_spec; lia).
  unfold all_data_LSTM. rewrite split_Tperiod_default. cbn [mbind result_bind].
  rewrite !Py.index_inside by done. fold k.
  rewrite !list_lookup_fmap, !lookup_seq_lt by done.
  cbn [fmap option_fmap option_map from_option mbind result_bind].
  assert (∀ df : DataFrame F, aligned df → len df = len df_returns →
            period_at df (0 + k) = window df (327 * k) 1308) as Hperiod.
  { intros df Hdf Hl. unfold period_at. rewrite row_slice_window by (done || lia).
    f_equal; lia. }
  rewrite !Hperiod by done. clear Hperiod.
  set (T0 := window df_returns (327 * k) 1308).
  set (B0 := window df_binary (327 * k) 1308).
  set (Rtr := window df_returns (327 * k) lt).
  set (Rte := window df_returns (327 * k + lt) (1068 - lt + 240)).
  set (Btr := window df_binary (327 * k) lt).
  set (Bte := window df_binary (327 * k + lt) (1068 - lt + 240)).
  assert (aligned T0) as HalT0 by (apply window_aligned; [done|lia]).
  assert (len T0 = 1308) as HlenT0 by (apply window_len; lia).
  assert (aligned B0) as HalB0 by (apply window_aligned; [done|lia]).
  assert (len B0 = 1308) as HlenB0 by (apply window_len; lia).
  assert (∀ df : DataFrame F,
            row_slice_to (window df (327 * k) 1308) len_train
              = window df (327 * k) lt) as Hto0.
  { intros df. rewrite row_slice_to_window by lia. rewrite window_window by lia.
    f_equal. lia. }
  assert (∀ df : DataFrame F, aligned df → len df = len df_returns →
            row_slice_from (window df (327 * k) 1308) len_train
              = window df (327 * k + lt) (1068 - lt + 240)) as Hfrom0.
  { intros df Hdf Hl.
    assert (len (window df (327 * k) 1308) = 1308) as Hw by (apply window_len; lia).
    rewrite row_slice_from_window; [|apply window_aligned; [done|lia]|lia].
    rewrite Hw, window_window by lia. f_equal. lia. }
  assert (∀ a n, a + n ≤ len df_returns → 0 < n →
            wf (window df_returns a n) ∧ len (window df_returns a n) = n ∧
            data (window df_returns a n) ≠ [] ∧
            length (data (window df_returns a n)) = length (data df_returns) ∧
            columns (window df_returns a n) ⊆ columns (window df_binary a n) ∧
            aligned (window df_binary a n) ∧ len (window df_binary a n) = n ∧
            Forall (Forall (λ x, isinf x = false)) (values (window df_returns a n)))
    as Hwin.
  { intros a n Han Hn. split; [|split; [|split; [|split; [|split; [|split; [|split]]]]]].
    - split; [by apply window_aligned|by rewrite window_columns].
    - by apply window_len.
    - simpl. by destruct (data df_returns).
    - simpl. by rewrite length_fmap.
    - by rewrite !window_columns.
    - apply window_aligned; [done|lia].
    - apply window_len. lia.
    - rewrite window_values. apply Forall_fmap. eapply Forall_impl; [exact Hfin|].
      intros v Hv. simpl. by apply Forall_take, Forall_drop. }
  destruct (Hwin (327 * k) lt) as (HwfRtr & HlenRtr & HneRtr & HcntRtr & HsubRtr
    & HalBtr & HlenBtr & HfinRtr); [lia..|].
  destruct (Hwin (327 * k + lt) (1068 - lt + 240)) as (HwfRte & HlenRte & HneRte
    & HcntRte & HsubRte & HalBte & HlenBte & HfinRte); [lia..|].
  fold Rtr Btr in HwfRtr, HlenRtr, HneRtr, HcntRtr, HsubRtr, HalBtr, HlenBtr, HfinRtr.
  fold Rte Bte in HwfRte, HlenRte, HneRte, HcntRte, HsubRte, HalBte, HlenBte, HfinRte.
  clear Hwin.
  assert (length (data T0) = length (data df_returns)) as HcntT0
    by (simpl; by rewrite length_fmap).
  assert (row_slice_to T0 len_train = Rtr) as HRtr by apply Hto0.
  assert (row_slice_to B0 len_train = Btr) as HBtr by apply Hto0.
  assert (row_slice_from T0 len_train = Rte) as HRte by by apply Hfrom0.
  assert (row_slice_from B0 len_train = Bte) as HBte by by apply Hfrom0.
  clear Hto0 Hfrom0.
  (* the training rows *)
  rewrite HRtr.
  rewrite fit_transform_run by (done || lia). cbn [mbind result_bind].
  destruct (set_rows_to_run T0 len_train (transform (fit (values Rtr)) (values Rtr)))
    as (T1 & HT1 & HlenT1 & HcntT1).
  { rewrite HlenT0, Py.slice_bound_nonneg by lia.
    replace (Z.to_nat len_train `min` 1308) with (len Rtr) by (rewrite HlenRtr; lia).
    rewrite HcntT0, <- HcntRtr. apply scaled_shape; [done|]. by destruct HwfRtr. }
  rewrite HT1. cbn [mbind result_bind].
  destruct (set_rows_to_spec T0 len_train _ T1 HalT0 HT1) as (HalT1 & Hto & Hfrom).
  (* the test rows *)
  rewrite Hfrom, HRte.
  rewrite fit_transform_run by (done || lia). cbn [mbind result_bind].
  destruct (set_rows_from_run T1 len_train (transform (fit (values Rte)) (values Rte)))
    as (T2 & HT2).
  { rewrite HlenT1, HlenT0, Py.slice_bound_nonneg by lia.
    replace (1308 - Z.to_nat len_train `min` 1308) with (len Rte)
      by (rewrite HlenRte; lia).
    rewrite HcntT1, HcntT0, <- HcntRte. apply scaled_shape; [done|]. by destruct HwfRte. }
  rewrite HT2. cbn [mbind result_bind].
  rewrite (set_rows_from_spec T1 len_train _ T2 HalT1 HT2), Hfrom, Hto.
  rewrite HRtr, HRte, HBtr, HBte.
  destruct (segment_train_set Rtr Btr) as (Xtr & ytr & Htr & HXtr & Hytr & Hcelltr);
    [done|done|done|lia|lia|done|done|].
  destruct (segment_train_set Rte Bte) as (Xte & yte & Hte & HXte & Hyte & Hcellte);
    [done|done|done|lia|lia|done|done|].
  rewrite Htr. cbn [mbind result_bind]. rewrite Hte. cbn [mbind result_bind].
  exists (add_channel Xtr), ytr, (add_channel Xte), yte.
  rewrite HcntRtr, HlenRtr in HXtr, Hytr. rewrite HcntRte, HlenRte in HXte, Hyte.
  rewrite HlenRtr in Hcelltr. rewrite HlenRte in Hcellte.
  replace (1068 - lt + 240 - 240) with (1068 - lt) in * by lia.
  split; [done|]. unfold add_channel. rewrite !length_fmap.
  split; [done|]. split; [done|]. split; [done|]. split; [done|].
  intros j c b i Hc Hb. split; intros Hi.
  - rewrite (Hcelltr j c (take lt (drop (327 * k) b)) i).
    + rewrite lookup_take_lt, lookup_drop by lia. f_equal. lia.
    + unfold Rtr. by rewrite window_columns.
    + unfold Btr. by rewrite window_assoc, Hb.
    + lia.
  - rewrite (Hcellte j c (take (1068 - lt + 240) (drop (327 * k + lt) b)) i).
    + rewrite lookup_take_lt, lookup_drop by lia. f_equal. lia.
    + unfold Rte. by rewrite window_columns.
    + unfold Bte. by rewrite window_assoc, Hb.
    + lia.
Qed.

(** X18. When [all_data_LSTM] returns, and what the arrays hold. With a
    scaler that keeps the shape of its array, tables of returns and
    targets of one length with at least one company, every company of
    the returns among the targets, no infinite return, a period
    [period >= 0] that the table is long enough for and a [len_train]
    that leaves more than 240 rows on both sides, the call returns;
    each company gives [len_train - 240] training sequences and
    [1068 - len_train] test sequences (741 and 87 for the default
    981), company after company. The targets are not scaled: the
    target of training sequence [i] of a company is its target of row
    [327 * period + i + 240] of the table, and the target of test
    sequence [i] is the one of row
    [327 * period + len_train + i + 240], so that the first 240 days
    of the test segment are the target of no sequence. *)
Theorem all_data_LSTM_shapes (df_returns df_binary : DataFrame F)
    (period len_train : Z) :
  shape_preserving →
  wf df_returns → wf df_binary →
  len df_binary = len df_returns →
  data df_returns ≠ [] →
  columns df_returns ⊆ columns df_binary →
  Forall (Forall (λ x, isinf x = false)) (values df_returns) →
  (0 ≤ period)%Z →
  (1308 + 327 * period ≤ Z.of_nat (len df_returns))%Z →
  (240 < len_train < 1068)%Z →
  ∃ X_train y_train X_test y_test,
    all_data_LSTM df_returns df_binary period len_train
      = Ok (X_train, y_train, X_test, y_test) ∧
    length X_train = length (data df_returns) * (Z.to_nat len_train - 240) ∧
    length y_train = length (data df_returns) * (Z.to_nat len_train - 240) ∧
    length X_test = length (data df_returns) * (1068 - Z.to_nat len_train) ∧
    length y_test = length (data df_returns) * (1068 - Z.to_nat len_train) ∧
    ∀ (j : nat) (c : string) (b : list F) (i : nat),
      columns df_returns !! j = Some c →
      assoc c (data df_binary) = Some b →
      (i < Z.to_nat len_train - 240 →
       y_train !! (j * (Z.to_nat len_train - 240) + i)
         = b !! (327 * Z.to_nat period + i + 240)) ∧
      (i < 1068 - Z.to_nat len_train →
       y_test !! (j * (1068 - Z.to_nat len_train) + i)
         = b !! (327 * Z.to_nat period + Z.to_nat len_train + i + 240)).
Proof. apply all_data_LSTM_closed. Qed.

(** X19. The targets of [all_data_LSTM] do not depend on the returns:
    two tables of returns with the same companies and the same number
    of rows give the same [y_train] and the same [y_test], whatever
    their cells are. *)
Theorem all_data_LSTM_targets_ignore_returns
    (df_returns df_returns' df_binary : DataFrame F) (period len_train : Z) :
  shape_preserving →
  wf df_returns → wf df_returns' → wf df_binary →
  columns df_returns' = columns df_returns →
  len df_returns' = len df_returns →
  len df_binary = len df_returns →
  data df_returns ≠ [] →
  columns df_returns ⊆ columns df_binary →
  Forall (Forall (λ x, isinf x = false)) (values df_returns) →
  Forall (Forall (λ x, isinf x = false)) (values df_returns') →
  (0 ≤ period)%Z →
  (1308 + 327 * period ≤ Z.of_nat (len df_returns))%Z →
  (240 < len_train < 1068)%Z →
  ∃ X_train y_train X_test y_test X_train' X_test',
    all_data_LSTM df_returns df_binary period len_train
      = Ok (X_train, y_train, X_test, y_test) ∧
    all_data_LSTM df_returns' df_binary period len_train
      = Ok (X_train', y_train, X_test', y_test).
Proof.
  intros Hsh Hwf Hwf' Hwfb Hcols Hlen' Hlen Hne Hsub Hfin Hfin' Hp Hrows Hlt.
  assert (length (data df_returns') = length (data df_returns)) as Hcount.
  { apply (f_equal length) in Hcols. unfold columns in Hcols.
    by rewrite !length_fmap in Hcols. }
  destruct (all_data_LSTM_closed df_returns df_binary period len_train)
    as (X1 & y1 & X2 & y2 & Hrun & _ & Hy1 & _ & Hy2 & Hcell); [done..|].
  destruct (all_data_LSTM_closed df_returns' df_binary period len_train)
    as (X1' & y1' & X2' & y2' & Hrun' & _ & Hy1' & _ & Hy2' & Hcell');
    [done|done|done|congruence| |by rewrite Hcols|done|done|lia|done|].
  { intros Hnil. rewrite Hnil in Hcount. by destruct (data df_returns). }
  rewrite Hcols, Hcount in *.
  assert (∀ (n : nat) (y y' : list F) (g : nat → nat),
            length y = length (data df_returns) * n →
            length y' = length (data df_returns) * n →
            (∀ j c b i, columns df_returns !! j = Some c →
                        assoc c (data df_binary) = Some b → i < n →
                        y !! (j * n + i) = b !! g i ∧ y' !! (j * n + i) = b !! g i) →
            y = y') as Heq.
  { intros n y y' g Hy Hy' Hc.
    apply (list_eq_same_length _ _ (length (data df_returns) * n)); [done..|].
    intros q x x' Hq Hx Hx'.
    assert (0 < n) as Hn by nia.
    assert (q `div` n < length (data df_returns)) as Hj
      by (apply Nat.Div0.div_lt_upper_bound; lia).
    assert (q `mod` n < n) as Hi by (apply Nat.mod_upper_bound; lia).
    assert (q = q `div` n * n + q `mod` n) as Hdecomp
      by (rewrite (Nat.div_mod_eq q n) at 1; lia).
    destruct (lookup_lt_is_Some_2 (columns df_returns) (q `div` n)) as [c Hcj].
    { unfold columns. by rewrite length_fmap. }
    destruct (assoc_is_Some c (data df_binary)) as [b Hb].
    { apply Hsub. by eapply list_elem_of_lookup_2. }
    destruct (Hc _ _ _ _ Hcj Hb Hi) as [H1 H2].
    rewrite <- Hdecomp in H1, H2. congruence. }
  assert (y1 = y1') as <-.
  { apply (Heq (Z.to_nat len_train - 240) _ _
             (λ i, 327 * Z.to_nat period + i + 240)); [done..|].
    intros j c b i Hc Hb Hi.
    destruct (Hcell j c b i Hc Hb) as [H1 _].
    destruct (Hcell' j c b i Hc Hb) as [H1' _]. by split; [apply H1|apply H1']. }
  assert (y2 = y2') as <-.
  { apply (Heq (1068 - Z.to_nat len_train) _ _
             (λ i, 327 * Z.to_nat period + Z.to_nat len_train + i + 240));
      [done..|].
    intros j c b i Hc Hb Hi.
    destruct (Hcell j c b i Hc Hb) as [_ H2].
    destruct (Hcell' j c b i Hc Hb) as [_ H2']. by split; [apply H2|apply H2']. }
  by exists X1, y1, X2, y2, X1', X2'.
Qed.


(** *** all_multidata_LSTM *)

Lemma lookup_zip_with4 {A B} (f : A → A → A → A → B) (l1 l2 l3 l4 : list A)
    (i : nat) (x1 x2 x3 x4 : A) :
  l1 !! i = Some x1 → l2 !! i = Some x2 → l3 !! i = Some x3 → l4 !! i = Some x4 →
  zip_with4 f l1 l2 l3 l4 !! i = Some (f x1 x2 x3 x4).
Proof.
  intros H1 H2 H3 H4.
  change (zip_with4 f l1 l2 l3 l4)
    with (zip_with (λ p q, f p.1 p.2 q.1 q.2) (zip l1 l2) (zip l3 l4)).
  by rewrite !lookup_zip_with, H1, H2, H3, H4.
Qed.

Lemma length_zip_with4 {A B} (f : A → A → A → A → B) (l1 l2 l3 l4 : list A) :
  length l2 = length l1 → length l3 = length l1 → length l4 = length l1 →
  length (zip_with4 f l1 l2 l3 l4) = length l1.
Proof.
  intros H2 H3 H4.
  change (zip_with4 f l1 l2 l3 l4)
    with (zip_with (λ p q, f p.1 p.2 q.1 q.2) (zip l1 l2) (zip l3 l4)).
  rewrite !length_zip_with. lia.
Qed.

(** The arrays of [all_data_LSTM] have 240 steps of one cell. *)
Lemma all_data_LSTM_steps (df_returns df_binary : DataFrame F)
    (period len_train : Z) X_train y_train X_test y_test :
  all_data_LSTM df_returns df_binary period len_train
    = Ok (X_train, y_train, X_test, y_test) →
  (shape1 X_train = 240 ∧ Forall (λ s, length s = 240) X_train) ∧
  (shape1 X_test = 240 ∧ Forall (λ s, length s = 240) X_test).
Proof.
  intros H. apply all_data_LSTM_arrays in H
    as (? & ? & ? & ? & Xtr & Xte & Htrain & Htest & -> & ->).
  apply get_train_set_rows in Htrain as [Hne1 Hl1].
  apply get_train_set_rows in Htest as [Hne2 Hl2].
  assert (∀ X : list (list F), X ≠ [] → Forall (λ w, length w = 240) X →
            shape1 (add_channel X) = 240 ∧
            Forall (λ s, length s = 240) (add_channel X)) as Hsteps.
  { intros X Hne Hl. split.
    - destruct X as [|w X]; [done|]. simpl. rewrite length_fmap.
      by apply Forall_cons in Hl as [-> _].
    - unfold add_channel. apply Forall_fmap. eapply Forall_impl; [exact Hl|].
      intros w Hw. simpl. by rewrite length_fmap. }
  split; by apply Hsteps.
Qed.

(** X20. [all_multidata_LSTM] reads the tables 0 to 3 of its list
    before anything else: a list of fewer than four tables raises
    [IndexError], whatever the tables, the targets and the period
    are. *)
Theorem all_multidata_LSTM_four_tables (df_multidim_list : list (DataFrame F))
    (df_binary : DataFrame F) (period : Z) :
  length df_multidim_list < 4 →
  all_multidata_LSTM df_multidim_list df_binary period = Raise IndexError.
Proof.
  intros Hlen. unfold all_multidata_LSTM.
  destruct df_multidim_list as [|d1 [|d2 [|d3 [|d4 rest]]]]; try done.
  simpl in Hlen. lia.
Qed.

(** X21. Four channels. When the four calls of [all_data_LSTM] on the
    tables 0 to 3 succeed with as many sequences each, for training and
    for test, [all_multidata_LSTM] succeeds; its targets are those of
    the call on table 3; its arrays have the rows of the arrays of one
    call and 240 steps a row, and the step [t] of row [i] holds four
    cells: the cells at row [i] and step [t] of the arrays of the calls
    on the tables 0, 1, 2 and 3, in this order. Tables after the fourth
    are not read. *)
Theorem all_multidata_LSTM_channels (d1 d2 d3 d4 : DataFrame F)
    (rest : list (DataFrame F)) (df_binary : DataFrame F) (period : Z)
    X1 y1 T1 z1 X2 y2 T2 z2 X3 y3 T3 z3 X4 y4 T4 z4 :
  all_data_LSTM d1 df_binary period 981 = Ok (X1, y1, T1, z1) →
  all_data_LSTM d2 df_binary period 981 = Ok (X2, y2, T2, z2) →
  all_data_LSTM d3 df_binary period 981 = Ok (X3, y3, T3, z3) →
  all_data_LSTM d4 df_binary period 981 = Ok (X4, y4, T4, z4) →
  length X2 = length X1 → length X3 = length X1 → length X4 = length X1 →
  length T2 = length T1 → length T3 = length T1 → length T4 = length T1 →
  ∃ X_train X_test,
    all_multidata_LSTM (d1 :: d2 :: d3 :: d4 :: rest) df_binary period
      = Ok (X_train, y4, X_test, z4) ∧
    length X_train = length X1 ∧ length X_test = length T1 ∧
    (∀ (i t : nat) (x1 x2 x3 x4 : F),
       X1 !! i ≫= (.!! t) = Some [x1] → X2 !! i ≫= (.!! t) = Some [x2] →
       X3 !! i ≫= (.!! t) = Some [x3] → X4 !! i ≫= (.!! t) = Some [x4] →
       X_train !! i ≫= (.!! t) = Some [x1; x2; x3; x4]) ∧
    (∀ (i t : nat) (x1 x2 x3 x4 : F),
       T1 !! i ≫= (.!! t) = Some [x1] → T2 !! i ≫= (.!! t) = Some [x2] →
       T3 !! i ≫= (.!! t) = Some [x3] → T4 !! i ≫= (.!! t) = Some [x4] →
       X_test !! i ≫= (.!! t) = Some [x1; x2; x3; x4]).
Proof.
  intros H1 H2 H3 H4 HX2 HX3 HX4 HT2 HT3 HT4.
  destruct (all_data_LSTM_steps _ _ _ _ _ _ _ _ H1) as [[HsX1 _] [HsT1 _]].
  destruct (all_data_LSTM_steps _ _ _ _ _ _ _ _ H2) as [[HsX2 _] [HsT2 _]].
  destruct (all_data_LSTM_steps _ _ _ _ _ _ _ _ H3) as [[HsX3 _] [HsT3 _]].
  destruct (all_data_LSTM_steps _ _ _ _ _ _ _ _ H4) as [[HsX4 _] [HsT4 _]].
  assert (∀ (a1 a2 a3 a4 : list (list (list F))) (i t : nat) (x1 x2 x3 x4 : F),
            a1 !! i ≫= (.!! t) = Some [x1] → a2 !! i ≫= (.!! t) = Some [x2] →
            a3 !! i ≫= (.!! t) = Some [x3] → a4 !! i ≫= (.!! t) = Some [x4] →
            zip_with4 (zip_with4 (λ x1 x2 x3 x4 : list F, x1 ++ x2 ++ x3 ++ x4))
              a1 a2 a3 a4 !! i ≫= (.!! t) = Some [x1; x2; x3; x4]) as Hcell.
  { intros a1 a2 a3 a4 i t x1 x2 x3 x4 Ha1 Ha2 Ha3 Ha4.
    destruct (a1 !! i) as [r1|] eqn:Hr1; [|done].
    destruct (a2 !! i) as [r2|] eqn:Hr2; [|done].
    destruct (a3 !! i) as [r3|] eqn:Hr3; [|done].
    destruct (a4 !! i) as [r4|] eqn:Hr4; [|done].
    rewrite (lookup_zip_with4 _ _ _ _ _ _ _ _ _ _ Hr1 Hr2 Hr3 Hr4).
    simpl in *. by rewrite (lookup_zip_with4 _ _ _ _ _ _ _ _ _ _ Ha1 Ha2 Ha3 Ha4). }
  unfold all_multidata_LSTM.
  change (Py.index (d1 :: d2 :: d3 :: d4 :: rest) 0) with (Ok (A:=DataFrame F) d1).
  change (Py.index (d1 :: d2 :: d3 :: d4 :: rest) 1) with (Ok (A:=DataFrame F) d2).
  change (Py.index (d1 :: d2 :: d3 :: d4 :: rest) 2) with (Ok (A:=DataFrame F) d3).
  change (Py.index (d1 :: d2 :: d3 :: d4 :: rest) 3) with (Ok (A:=DataFrame F) d4).
  cbn [mbind result_bind]. rewrite H1. cbn [mbind result_bind].
  rewrite H2. cbn [mbind result_bind]. rewrite H3. cbn [mbind result_bind].
  rewrite H4. cbn [mbind result_bind].
  unfold stack_channels.
  rewrite (decide_True (P := _ ∧ _)) by (repeat split; congruence).
  rewrite (decide_True (P := shape1 X1 = shape1 X1)) by done.
  cbn [mbind result_bind].
  rewrite (decide_True (P := _ ∧ _)) by (repeat split; congruence).
  rewrite (decide_True (P := shape1 T1 = shape1 X1)) by congruence.
  cbn [mbind result_bind].
  eexists _, _. split; [done|].
  split; [by apply length_zip_with4|]. split; [by apply length_zip_with4|].
  split; intros i t x1 x2 x3 x4; apply Hcell.
Qed.

End split.
End Split.

(** ** A model of the cells: exact rationals with a missing value

    The concrete inputs below are tables of rationals; [None] is the
    missing value, which is also what a division by zero gives here. *)

Module Sample.

Definition qcell : Type := option Q.

Definition lift2 (f : Q → Q → Q) (x y : qcell) : qcell :=
  match x, y with
  | Some a, Some b => Some (Qred (f a b))
  | _, _ => None
  end.

Definition cell_div (x y : qcell) : qcell :=
  match x, y with
  | Some a, Some b => if Qeq_bool b 0 then None else Some (Qred (a / b))
  | _, _ => None
  end.

Definition cell_le (x y : qcell) : bool :=
  match x, y with
  | Some a, Some b => Qle_bool a b
  | _, _ => false
  end.

Definition cell_lt (x y : qcell) : bool :=
  match x, y with
  | Some a, Some b => negb (Qle_bool b a)
  | _, _ => false
  end.

Lemma cell_zero_ne_one : Some 0%Q ≠ Some 1%Q.
Proof. discriminate. Qed.

Global Instance cell_float : Float qcell := {|
  fadd := lift2 Qplus;
  fsub := lift2 Qminus;
  fdiv := cell_div;
  fle := cell_le;
  flt := cell_lt;
  fzero := Some 0%Q;
  fone := Some 1%Q;
  ftwo := Some 2%Q;
  nan := None;
  isna := λ x, bool_decide (x = None);
  isinf := λ _, false;
  fzero_ne_fone := cell_zero_ne_one;
|}.

(** The cell of an integer, and a column of integers. *)
Definition int (z : Z) : qcell := Some (inject_Z z).
Definition ints (zs : list Z) : list qcell := int <$> zs.

Definition world0 : world qcell := {| heap := ∅; stdout := []; files := ∅ |}.

(** A scaler that centres each column on its mean. *)
Definition mean (v : list qcell) : qcell :=
  fdiv (foldr fadd fzero v) (int (Z.of_nat (length v))).

Global Instance centring : Split.StandardScaler qcell := {|
  Split.stats := list qcell;
  Split.fit := λ X, mean <$> X;
  Split.transform := λ st X, zip_with (λ mu v, (λ x, fsub x mu) <$> v) st X;
|}.

(** Five days of prices of one company after a date column. *)
Definition prices : DataFrame qcell :=
  {| index := seqZ 0 5;
     data := [("Date", ints [1; 2; 3; 4; 5]%Z);
              ("A", ints [100; 101; 102; 99; 105]%Z)] |}.

(** Two days of a table that holds its date column only. *)
Definition dates_only : DataFrame qcell :=
  {| index := seqZ 0 2; data := [("Date", ints [1; 2]%Z)] |}.

(** One day of prices of one company after a date column. *)
Definition one_day : DataFrame qcell :=
  {| index := seqZ 0 1; data := [("Date", ints [1]%Z); ("A", ints [100]%Z)] |}.

(** One row of returns of four companies. *)
Definition one_row : DataFrame qcell :=
  {| index := seqZ 0 1;
     data := [("A", [Some (1 # 100)]); ("B", [Some (- 2 # 100)]);
              ("C", [Some (3 # 100)]); ("D", [Some 0])]%Q |}.

(** One row without a column, as [dropna] leaves it when it drops
    every company. *)
Definition no_company : DataFrame qcell := {| index := seqZ 0 1; data := [] |}.

(** One row of returns of which the first is missing. *)
Definition missing_return : DataFrame qcell :=
  {| index := seqZ 0 1; data := [("A", [None]); ("B", [Some 1])]%Q |}.

(** One row of returns that are their own labels. *)
Definition labels_already : DataFrame qcell :=
  {| index := seqZ 0 1; data := [("A", [Some 0]); ("B", [Some 1])]%Q |}.

(** Four days of returns and targets of one company. *)
Definition four_days : DataFrame qcell :=
  {| index := seqZ 0 4; data := [("A", ints [10; 20; 30; 40]%Z)] |}.

Definition four_targets : DataFrame qcell :=
  {| index := seqZ 0 4; data := [("A", ints [0; 1; 0; 1]%Z)] |}.

Definition world_of (df : DataFrame qcell) : world qcell :=
  {| heap := {[ 0 := df ]}; stdout := []; files := ∅ |}.

(** 1308 days of returns and targets of one company: one study period. *)
Definition long_returns : DataFrame qcell :=
  {| index := seqZ 0 1308;
     data := [("A", (λ i, int (i `mod` 7 - 3)) <$> seqZ 0 1308)] |}.

Definition long_targets : DataFrame qcell :=
  {| index := seqZ 0 1308;
     data := [("A", (λ i, int (i `mod` 2)) <$> seqZ 0 1308)] |}.

(** Alignment and unique labels of a concrete table, by evaluation. *)
Lemma aligned_by_evaluation (df : DataFrame qcell) :
  bool_decide (Forall (λ c, length c.2 = len df) (data df)) = true →
  aligned df.
Proof. by intros Hlen%bool_decide_eq_true. Qed.

Lemma wf_by_evaluation (df : DataFrame qcell) :
  bool_decide (Forall (λ c, length c.2 = len df) (data df)) = true →
  bool_decide (NoDup (columns df)) = true →
  wf df.
Proof. intros Hlen%bool_decide_eq_true Hnd%bool_decide_eq_true. by split. Qed.

Import DataReturns Split.

Lemma wf_prices : wf prices.
Proof. by apply wf_by_evaluation; vm_compute. Qed.

Lemma aligned_one_row : aligned one_row.
Proof. by apply aligned_by_evaluation; vm_compute. Qed.

Lemma aligned_four_days : aligned four_days.
Proof. by apply aligned_by_evaluation; vm_compute. Qed.

Lemma aligned_four_targets : aligned four_targets.
Proof. by apply aligned_by_evaluation; vm_compute. Qed.

Lemma aligned_long_returns : aligned long_returns.
Proof. by apply aligned_by_evaluation; vm_compute. Qed.

(** The cells that are not missing are rationals, which [<] orders. *)
Lemma number_Some (x : qcell) : isna x = false → ∃ a, x = Some a.
Proof.
  destruct x as [a|]; [by exists a|].
  intros H. by apply bool_decide_eq_false_1 in H.
Qed.

Lemma cell_float_order : float_order (F := qcell).
Proof.
  split.
  - intros x y [a ->]%number_Some [b ->]%number_Some. simpl.
    intros H%negb_true_iff. apply negb_false_iff, Qle_bool_iff.
    destruct (Qlt_le_dec a b) as [Hlt|Hle]; [by apply Qlt_le_weak|].
    apply Qle_bool_iff in Hle. congruence.
  - intros x y z [a ->]%number_Some [b ->]%number_Some [c ->]%number_Some. simpl.
    intros Hba%negb_false_iff%Qle_bool_iff Hcb%negb_false_iff%Qle_bool_iff.
    apply negb_false_iff, Qle_bool_iff. by apply (Qle_trans _ b).
  - intros x y [a ->]%number_Some [b ->]%number_Some. simpl.
    by rewrite negb_involutive.
  - intros lo hi [a ->]%number_Some _ [b ->]%number_Some _. reflexivity.
Qed.

Lemma numbers_one_row : all_numbers one_row.
Proof. repeat constructor. Qed.

(** *** get_sequences *)

Lemma get_sequences_spec_witness :
  ∃ X y,
    get_sequences (ints [1; 2; 3; 4; 5]%Z) (ints [0; 1; 0; 1; 1]%Z) 2 = Ok (X, y) ∧
    length X = 3 ∧ length y = 3 ∧
    X !! 0 = Some (ints [1; 2]%Z) ∧
    y !! 0 = Some (int 0).
Proof.
  destruct (get_sequences_spec (ints [1; 2; 3; 4; 5]%Z) (ints [0; 1; 0; 1; 1]%Z) 2)
    as (X & y & Hrun & HX & Hy & _ & Hrows); [reflexivity|lia|].
  exists X, y. split; [exact Hrun|]. split; [exact HX|]. split; [exact Hy|].
  destruct (Hrows 0) as (HX0 & _ & t & Hy0 & Ht); [vm_compute; lia|].
  split; [exact HX0|].
  rewrite Hy0. rewrite <- Ht. reflexivity.
Defined.

(** *** split_Tperiod *)

Lemma split_Tperiod_spec_witness :
  ∃ periods_ret periods_bin,
    split_Tperiod four_days four_targets 3 1 = Ok (periods_ret, periods_bin) ∧
    length periods_ret = length periods_bin ∧
    periods_ret !! 1 = Some (window four_days 1 3) ∧
    periods_bin !! 1 = Some (window four_targets 1 3).
Proof.
  destruct (split_Tperiod_spec four_days four_targets 3 1)
    as (pr & pb & Hrun & Hlen & Hcount & Hrows & _);
    [exact aligned_four_days|exact aligned_four_targets|reflexivity|lia|lia|].
  exists pr, pb. split; [exact Hrun|]. split; [exact Hlen|].
  destruct (Hrows 1) as (Hr & Hb & _).
  - apply Hcount. vm_compute. discriminate.
  - split; [exact Hr|exact Hb].
Defined.



(** *** all_data_LSTM and all_data_DNN *)

Lemma all_data_LSTM_scaling_witness :
  ∃ X_train y_train X_test y_test,
    all_data_LSTM long_returns long_targets 0 981
      = Ok (X_train, y_train, X_test, y_test) ∧
    ∃ T1_input T1_target X_test2,
      get_train_set
        (with_values (row_slice_from T1_input 981)
           (transform (fit (values (row_slice_from T1_input 981)))
              (values (row_slice_from T1_input 981))))
        (row_slice_from T1_target 981) = Ok (X_test2, y_test) ∧
      X_test = add_channel X_test2.
Proof.
  destruct (all_data_LSTM long_returns long_targets 0 981)
    as [[[[X_train y_train] X_test] y_test]|e] eqn:E.
  - exists X_train, y_train, X_test, y_test. split; [reflexivity|].
    destruct (all_data_LSTM_scaling _ _ _ _ _ _ _ _ aligned_long_returns E)
      as (prs & pbs & T & B & _ & _ & _ & _ & Xtr2 & Xte2 & _ & Hte & _ & HX).
    exists T, B, Xte2. split; [exact Hte|exact HX].
  - exfalso.
    assert (is_Ok (all_data_LSTM long_returns long_targets 0 981) = true) as H
      by (vm_compute; reflexivity).
    rewrite E in H. discriminate H.
Defined.

Lemma all_data_DNN_features_witness :
  ∃ X_train y_train X_test y_test X_train' X_test',
    all_data_LSTM long_returns long_targets 0 981
      = Ok (X_train, y_train, X_test, y_test) ∧
    all_data_DNN long_returns long_targets 0 500
      = Ok (X_train', y_train, X_test', y_test) ∧
    subsampled X_train X_train' ∧ subsampled X_test X_test'.
Proof.
  destruct (all_data_LSTM long_returns long_targets 0 981)
    as [[[[X_train y_train] X_test] y_test]|e] eqn:E.
  - destruct (all_data_DNN_features _ _ _ 500 _ _ _ _ E)
      as (X_train' & X_test' & Hrun & _ & _ & Htrain & Htest).
    exists X_train, y_train, X_test, y_test, X_train', X_test'.
    split; [reflexivity|]. split; [exact Hrun|]. split; [exact Htrain|exact Htest].
  - exfalso.
    assert (is_Ok (all_data_LSTM long_returns long_targets 0 981) = true) as H
      by (vm_compute; reflexivity).
    rewrite E in H. discriminate H.
Defined.

(** *** get_returns *)

(** A table that holds its date column only: the loop has no column to
    run over, and the table returned is the empty one, without rows. *)
Lemma get_returns_dates_only :
  wf dates_only ∧ (0 < 1 < Z.of_nat (len dates_only))%Z ∧
  ∃ df,
    get_returns dates_only false 1 true world0 = (Ok df, world0) ∧
    len df = 0 ∧ len df ≠ len dates_only - Z.to_nat 1.
Proof.
  split; [by apply wf_by_evaluation; vm_compute|].
  split; [split; reflexivity|].
  eexists. split; [vm_compute; reflexivity|]. split; [reflexivity|].
  vm_compute. discriminate.
Qed.

Lemma get_returns_spec_witness :
  ∃ df w',
    get_returns prices false 1 true world0 = (Ok df, w') ∧
    len df = 4 ∧
    cell df "A" 0 = Some (Some (1 # 100)%Q).
Proof.
  destruct (get_returns_spec prices false 1 true world0)
    as (df & w' & Hrun & _ & Hlen & _ & Hcells);
    [exact wf_prices|simpl; lia|split; reflexivity|].
  exists df, w'. split; [exact Hrun|]. split; [exact Hlen|].
  assert (columns df = ["A"]) as Hcols.
  { assert (get_returns prices false 1 true world0
            = (Ok (result_get prices (get_returns prices false 1 true world0).1), world0))
      as Heq by (vm_compute; reflexivity).
    rewrite Heq in Hrun. injection Hrun as <- _. vm_compute. reflexivity. }
  destruct (Hcells "A" 0) as (x0 & x1 & H0 & H1 & Hcell).
  - rewrite Hcols. apply list_elem_of_singleton. reflexivity.
  - vm_compute. lia.
  - vm_compute in H0, H1. injection H0 as <-. injection H1 as <-. exact Hcell.
Defined.

Lemma get_returns_first_column_witness :
  get_returns prices false 1 true world0 =
  get_returns {| index := seqZ 0 5;
                 data := [("Date", ints [0; 0; 7; 0; 0]%Z);
                          ("A", ints [100; 101; 102; 99; 105]%Z)] |}
    false 1 true world0.
Proof.
  apply (get_returns_first_column (seqZ 0 5) "Date" (ints [1; 2; 3; 4; 5]%Z)
           [("A", ints [100; 101; 102; 99; 105]%Z)] false 1 true world0).
  apply (bool_decide_unpack _). vm_compute. exact I.
Defined.

(** C6. The guard of [get_returns] is [m < 0]: with [m = 0] nothing
    is printed and the call does not exit. On one day of prices it
    returns a table (without rows); on five days the division does
    not broadcast and its [ValueError] escapes the call. *)
Theorem get_returns_zero_period :
  get_returns one_day false 0 true world0
    = (Ok {| index := []; data := [("A", [])] |}, world0) ∧
  get_returns prices false 0 true world0 = (Raise ValueError, world0).
Proof. split; vm_compute; reflexivity. Qed.

(** *** binary_targets *)

(** A table with a row and no column: the median of the empty row
    raises, and nothing is returned. And a row with a missing return:
    its median is missing, no return is [<=] it, and the return 1 is
    labelled 1 without being greater than the median. *)
Lemma binary_targets_no_company :
  (aligned no_company ∧
   heap (world_of no_company) !! 0 = Some no_company ∧
   binary_targets 0 false "ReturnsBinary" (world_of no_company)
     = (Raise StatisticsError, world_of no_company)) ∧
  (aligned missing_return ∧
   median [None; Some 1%Q] = Ok None ∧
   flt None (Some 1%Q) = false ∧
   binary_targets 0 false "ReturnsBinary" (world_of missing_return)
     = (Ok 0, world_of {| index := seqZ 0 1;
                          data := [("A", [Some 1]); ("B", [Some 1])]%Q |})).
Proof.
  split.
  - split; [by apply aligned_by_evaluation; vm_compute|].
    split; vm_compute; reflexivity.
  - split; [by apply aligned_by_evaluation; vm_compute|].
    repeat split; vm_compute; reflexivity.
Qed.

Lemma binary_targets_labels_witness :
  ∃ w' B,
    binary_targets 0 false "ReturnsBinary" (world_of one_row) = (Ok 0, w') ∧
    heap w' !! 0 = Some B ∧
    shape B = (1, 4) ∧
    cell B "A" 0 = Some (Some 1%Q) ∧
    cell B "B" 0 = Some (Some 0%Q).
Proof.
  destruct (binary_targets_labels 0 one_row false "ReturnsBinary" (world_of one_row))
    as (w' & B & Hrun & HB & Hshape & _ & _ & _ & Hrows);
    [exact cell_float_order|reflexivity|exact aligned_one_row
    |exact numbers_one_row|right; discriminate|].
  exists w', B. split; [exact Hrun|]. split; [exact HB|]. split; [exact Hshape|].
  destruct (Hrows 0) as (row & med & Hrow & Hmed & _ & _ & Hcell); [vm_compute; lia|].
  vm_compute in Hrow. injection Hrow as <-.
  vm_compute in Hmed. injection Hmed as <-.
  split.
  - destruct (Hcell "A" (Some (1 # 100)%Q)) as (b & Hb & _ & Hone & _); [reflexivity|].
    assert (b = fone) as Hval by (apply Hone; reflexivity).
    rewrite Hval in Hb. exact Hb.
  - destruct (Hcell "B" (Some (- 2 # 100)%Q)) as (b & Hb & Hzero & _); [reflexivity|].
    assert (b = fzero) as Hval by (apply Hzero; reflexivity).
    rewrite Hval in Hb. exact Hb.
Defined.



(** *** More tables *)

(** Five days of prices of two companies after a date column; a price
    of the second is missing. *)
Definition prices_gap : DataFrame qcell :=
  {| index := seqZ 0 5;
     data := [("Date", ints [1; 2; 3; 4; 5]%Z);
              ("A", ints [100; 101; 102; 99; 105]%Z);
              ("B", [int 50; int 51; None; int 52; int 53])] |}.

(** 1308 days of other returns of the company of [long_returns]. *)
Definition long_returns_b : DataFrame qcell :=
  {| index := seqZ 0 1308;
     data := [("A", (λ i, int (i `mod` 5 - 2)) <$> seqZ 0 1308)] |}.

Lemma wf_prices_gap : wf prices_gap.
Proof. by apply wf_by_evaluation; vm_compute. Qed.

Lemma wf_one_row : wf one_row.
Proof. by apply wf_by_evaluation; vm_compute. Qed.

Lemma wf_labels_already : wf labels_already.
Proof. by apply wf_by_evaluation; vm_compute. Qed.

Lemma wf_four_days : wf four_days.
Proof. by apply wf_by_evaluation; vm_compute. Qed.

Lemma wf_four_targets : wf four_targets.
Proof. by apply wf_by_evaluation; vm_compute. Qed.

Lemma wf_long_returns : wf long_returns.
Proof. by apply wf_by_evaluation; vm_compute. Qed.

Lemma wf_long_returns_b : wf long_returns_b.
Proof. by apply wf_by_evaluation; vm_compute. Qed.

Lemma wf_long_targets : wf long_targets.
Proof. by apply wf_by_evaluation; vm_compute. Qed.

Lemma len_long_returns : len long_returns = 1308.
Proof. by vm_compute. Qed.

Lemma len_long_returns_b : len long_returns_b = 1308.
Proof. by vm_compute. Qed.

Lemma len_long_targets : len long_targets = 1308.
Proof. by vm_compute. Qed.

(** The centring scaler keeps the shape of its array. *)
Lemma centring_shape_preserving : shape_preserving.
Proof.
  intros X. simpl. induction X as [|v X IH]; simpl; constructor; [|done].
  by rewrite length_fmap.
Qed.

(** No cell is infinite. *)
Lemma finite_cells (X : list (list qcell)) :
  Forall (Forall (λ x, isinf x = false)) X.
Proof. apply Forall_forall. intros v _. apply Forall_forall. by intros x _. Qed.

(** *** More on get_returns *)

Lemma get_returns_negative_period_witness :
  ∃ w',
    get_returns prices true (-1) true world0 = (Raise SystemExit, w') ∧
    stdout w' = [invalid_m] ∧ files w' = ∅.
Proof.
  destruct (get_returns_negative_period prices true (-1) true world0)
    as (w' & Hrun & Hout & Hfiles & _); [lia|].
  exists w'. split; [exact Hrun|]. split; [exact Hout|exact Hfiles].
Defined.

Lemma get_returns_zero_period_raises_witness :
  get_returns prices true 0 true world0 = (Raise ValueError, world0).
Proof.
  apply (get_returns_zero_period_raises prices true true world0).
  - exact (proj1 wf_prices).
  - simpl. lia.
  - vm_compute. lia.
Defined.

Lemma get_returns_long_period_witness :
  ∃ df w',
    get_returns prices false 5 true world0 = (Ok df, w') ∧
    len df = 0 ∧ columns df = ["A"].
Proof.
  destruct (get_returns_long_period prices false 5 true world0)
    as (df & w' & Hrun & Hlen & Hcols & _);
    [exact wf_prices|lia|vm_compute; discriminate|].
  exists df, w'. split; [exact Hrun|]. split; [exact Hlen|exact Hcols].
Defined.

Lemma get_returns_missing_values_witness :
  ∃ df w',
    get_returns prices_gap false 1 true world0 = (Ok df, w') ∧
    "A" ∈ columns df ∧ "B" ∉ columns df.
Proof.
  destruct (get_returns_missing_values prices_gap false 1 true world0)
    as (df & w' & Hrun & _ & _ & _ & Hkept);
    [exact wf_prices_gap|simpl; lia|vm_compute; split; reflexivity|].
  exists df, w'. split; [exact Hrun|]. split.
  - apply (Hkept "A" (ints [100; 101; 102; 99; 105]%Z)).
    + simpl. apply list_elem_of_here.
    + right. vm_compute. repeat constructor.
  - intros HB.
    apply (Hkept "B" [int 50; int 51; None; int 52; int 53]) in HB.
    + destruct HB as [HB|HB]; [discriminate HB|].
      vm_compute in HB.
      apply Forall_cons in HB as [_ HB]. apply Forall_cons in HB as [HB _].
      discriminate HB.
    + simpl. apply list_elem_of_further, list_elem_of_here.
Defined.

Lemma get_returns_effects_witness :
  ∃ df w',
    get_returns prices true 1 true world0 = (Ok df, w') ∧
    files w' = <["ReturnsData.csv":=df]> ∅ ∧ stdout w' = [].
Proof.
  destruct (get_returns prices true 1 true world0) as [[df|e] w'] eqn:E.
  - exists df, w'. split; [reflexivity|].
    destruct (proj1 (get_returns_effects prices true 1 true world0 w') df E)
      as (_ & _ & Hout & Hfiles).
    split; [exact Hfiles|exact Hout].
  - exfalso.
    assert (is_Ok (get_returns prices true 1 true world0).1 = true) as H
      by (vm_compute; reflexivity).
    rewrite E in H. discriminate H.
Defined.

(** *** More on binary_targets *)

Lemma binary_targets_no_columns_witness :
  binary_targets 0 true "ReturnsBinary" (world_of no_company)
    = (Raise StatisticsError, world_of no_company).
Proof.
  apply (binary_targets_no_columns 0 no_company true "ReturnsBinary"
           (world_of no_company)).
  - reflexivity.
  - reflexivity.
  - vm_compute. lia.
Defined.

Lemma binary_targets_effects_witness :
  ∃ w' B,
    binary_targets 0 true "ReturnsBinary" (world_of one_row) = (Ok 0, w') ∧
    heap w' !! 0 = Some B ∧
    files w' = <["ReturnsBinary.csv":=B]> ∅.
Proof.
  destruct (binary_targets_effects 0 one_row true "ReturnsBinary" (world_of one_row))
    as (w' & B & Hrun & HB & _ & _ & Hfiles);
    [reflexivity|exact aligned_one_row|right; discriminate|].
  exists w', B. split; [exact Hrun|]. split; [exact HB|exact Hfiles].
Defined.

Lemma binary_targets_single_company_witness :
  ∃ w',
    binary_targets 0 false "ReturnsBinary" (world_of four_days) = (Ok 0, w') ∧
    heap w' !! 0 =
      Some {| index := seqZ 0 4; data := [("A", ints [0; 0; 0; 0]%Z)] |}.
Proof.
  destruct (binary_targets_single_company 0 (seqZ 0 4) "A" (ints [10; 20; 30; 40]%Z)
              false "ReturnsBinary" (world_of four_days))
    as (w' & Hrun & HB); [reflexivity|reflexivity|repeat constructor|].
  exists w'. split; [exact Hrun|exact HB].
Defined.

Lemma returns_then_targets_witness :
  ∃ df w1,
    get_returns prices_gap true 1 true world0 = (Ok df, w1) ∧
    ∃ w2 B,
      (let* df := get_returns prices_gap true 1 true in
       let* _ := assign 0 df in
       binary_targets 0 true "ReturnsBinary") world0 = (Ok 0, w2) ∧
      files w2 !! "ReturnsBinary.csv" = Some B ∧
      files w2 !! "ReturnsData.csv" = Some df.
Proof.
  destruct (returns_then_targets 0 prices_gap 1 true world0)
    as (df & w1 & Hrun & Hsome & _);
    [exact wf_prices_gap|simpl; lia|vm_compute; split; reflexivity|].
  exists df, w1. split; [exact Hrun|].
  destruct Hsome as (w2 & B & Hpipe & _ & _ & HB & Hdf).
  - intros Hnil.
    assert (data (result_get DataFrame_empty
                    (get_returns prices_gap true 1 true world0).1) ≠ []) as H
      by (vm_compute; discriminate).
    rewrite Hrun in H. exact (H Hnil).
  - exists w2, B. split; [exact Hpipe|]. split; [exact HB|exact Hdf].
Defined.

(** *** More on get_sequences and split_Tperiod *)

Lemma get_sequences_unequal_witness :
  ∃ X,
    get_sequences (ints [1; 2; 3; 4]%Z) (ints [0; 1; 1]%Z) 2
      = Ok (X, ints [1]%Z) ∧
    length X = 2.
Proof.
  destruct (get_sequences_unequal (ints [1; 2; 3; 4]%Z) (ints [0; 1; 1]%Z) 2)
    as (X & Hrun & HX & _); [lia|].
  exists X. split; [exact Hrun|exact HX].
Defined.

Lemma get_sequences_sliding_witness :
  ∃ x, ints [1; 2; 3; 4]%Z !! (0 + Z.to_nat 2) = Some x ∧
       ints [2; 3]%Z = drop 1 (ints [1; 2]%Z) ++ [x].
Proof.
  apply (get_sequences_sliding (ints [1; 2; 3; 4]%Z) (ints [0; 1; 0; 1]%Z) 2
           [ints [1; 2]%Z; ints [2; 3]%Z] (ints [0; 1]%Z) 0).
  - lia.
  - reflexivity.
  - reflexivity.
  - reflexivity.
Defined.

Lemma split_Tperiod_unequal_witness :
  ∃ periods_ret periods_bin,
    split_Tperiod four_days one_row 3 1 = Ok (periods_ret, periods_bin) ∧
    length periods_bin = length periods_ret ∧
    ∀ p, periods_bin !! 1 = Some p → len p = 0.
Proof.
  destruct (split_Tperiod_unequal four_days one_row 3 1)
    as (pr & pb & Hrun & Hlen & _ & Hrows); [lia|lia|].
  exists pr, pb. split; [exact Hrun|]. split; [exact Hlen|].
  intros p Hp. exact (Hrows 1 p Hp).
Defined.

(** *** More on get_train_set *)

Lemma get_train_set_company_major_witness :
  ∃ X y,
    get_train_set long_returns long_targets = Ok (X, y) ∧
    length X = 1068 ∧
    y !! 5 = Some (int 1).
Proof.
  destruct (get_train_set_company_major long_returns long_targets)
    as (X & y & Hrun & HX & _ & Hcells);
    [exact wf_long_returns|exact wf_long_targets|reflexivity
    |rewrite len_long_returns; lia|discriminate|reflexivity|].
  exists X, y. split; [exact Hrun|]. split; [exact HX|].
  destruct (Hcells 0 "A" ((λ i, int (i `mod` 7 - 3)) <$> seqZ 0 1308)
              ((λ i, int (i `mod` 2)) <$> seqZ 0 1308) 5) as [_ Hy];
    [reflexivity|reflexivity|rewrite len_long_returns; lia|].
  exact Hy.
Defined.

Lemma get_train_set_too_short_witness :
  get_train_set four_days four_targets = Raise IndexError.
Proof.
  apply (get_train_set_too_short four_days four_targets).
  - exact wf_four_days.
  - exact wf_four_targets.
  - reflexivity.
  - left. vm_compute. lia.
Defined.

Lemma get_train_set_missing_label_witness :
  get_train_set one_row labels_already = Raise KeyError.
Proof.
  apply (get_train_set_missing_label one_row labels_already "C").
  - exact wf_one_row.
  - exact wf_labels_already.
  - simpl. apply list_elem_of_further, list_elem_of_further, list_elem_of_here.
  - simpl. intros H. apply (bool_decide_pack _) in H. vm_compute in H. exact H.
Defined.

(** *** More on all_data_LSTM *)

Lemma all_data_LSTM_no_such_period_witness :
  all_data_LSTM long_returns long_targets 1 981 = Raise IndexError.
Proof.
  apply (all_data_LSTM_no_such_period long_returns long_targets 1 981).
  left. rewrite len_long_returns. lia.
Defined.

Lemma all_data_LSTM_negative_period_witness :
  all_data_LSTM long_returns long_targets (-1) 981 =
  all_data_LSTM long_returns long_targets (-1 + Z.of_nat (0 + 1)) 981.
Proof.
  apply (all_data_LSTM_negative_period long_returns long_targets (-1) 981 0).
  - rewrite len_long_returns. lia.
  - lia.
Defined.

Lemma all_data_LSTM_shapes_witness :
  ∃ X_train y_train X_test y_test,
    all_data_LSTM long_returns long_targets 0 981
      = Ok (X_train, y_train, X_test, y_test) ∧
    length X_train = 741 ∧ length X_test = 87 ∧
    y_test !! 0 = Some (int 1).
Proof.
  destruct (all_data_LSTM_shapes long_returns long_targets 0 981)
    as (X_train & y_train & X_test & y_test & Hrun & HX & _ & HT & _ & Hcells);
    [exact centring_shape_preserving|exact wf_long_returns|exact wf_long_targets
    |reflexivity|discriminate|reflexivity|apply finite_cells|lia
    |rewrite len_long_returns; lia|lia|].
  exists X_train, y_train, X_test, y_test.
  split; [exact Hrun|]. split; [exact HX|]. split; [exact HT|].
  destruct (Hcells 0 "A" ((λ i, int (i `mod` 2)) <$> seqZ 0 1308) 0) as [_ Hy];
    [reflexivity|reflexivity|].
  refine (eq_trans (Hy _) _); [vm_compute; lia|vm_compute; reflexivity].
Defined.

Lemma all_data_LSTM_targets_ignore_returns_witness :
  ∃ X_train y_train X_test y_test X_train' X_test',
    all_data_LSTM long_returns long_targets 0 981
      = Ok (X_train, y_train, X_test, y_test) ∧
    all_data_LSTM long_returns_b long_targets 0 981
      = Ok (X_train', y_train, X_test', y_test).
Proof.
  apply (all_data_LSTM_targets_ignore_returns long_returns long_returns_b
           long_targets 0 981).
  - exact centring_shape_preserving.
  - exact wf_long_returns.
  - exact wf_long_returns_b.
  - exact wf_long_targets.
  - reflexivity.
  - reflexivity.
  - reflexivity.
  - discriminate.
  - reflexivity.
  - apply finite_cells.
  - apply finite_cells.
  - lia.
  - rewrite len_long_returns. lia.
  - lia.
Defined.

(** *** all_multidata_LSTM *)

Lemma all_multidata_LSTM_four_tables_witness :
  all_multidata_LSTM [long_returns; long_returns; long_returns] long_targets 0
    = Raise IndexError.
Proof.
  apply (all_multidata_LSTM_four_tables
           [long_returns; long_returns; long_returns] long_targets 0).
  simpl. lia.
Defined.

Lemma all_multidata_LSTM_channels_witness :
  ∃ X1 y T1 z X_train X_test,
    all_data_LSTM long_returns long_targets 0 981 = Ok (X1, y, T1, z) ∧
    all_multidata_LSTM
      [long_returns; long_returns; long_returns; long_returns; four_days]
      long_targets 0 = Ok (X_train, y, X_test, z) ∧
    length X_train = length X1 ∧ length X_test = length T1.
Proof.
  destruct (all_data_LSTM long_returns long_targets 0 981)
    as [[[[X1 y] T1] z]|e] eqn:E.
  - destruct (all_multidata_LSTM_channels long_returns long_returns long_returns
                long_returns [four_days] long_targets 0
                X1 y T1 z X1 y T1 z X1 y T1 z X1 y T1 z E E E E)
      as (X_train & X_test & Hrun & HX & HT & _);
      [reflexivity..|].
    exists X1, y, T1, z, X_train, X_test.
    split; [reflexivity|]. split; [exact Hrun|]. split; [exact HX|exact HT].
  - exfalso.
    assert (is_Ok (all_data_LSTM long_returns long_targets 0 981) = true) as H
      by (vm_compute; reflexivity).
    rewrite E in H. discriminate H.
Defined.

End Sample.
